(** * HdxOitResolveTask: the order-independent-transparency resolve task

    A shallow embedding of [pxr/imaging/hdx/oitResolveTask.cpp] and the
    properties of its buffer management ([_PrepareOitBuffers]) and of its
    per-frame [Prepare] / [Execute] cycle.

    The task is a C++ object that mutates itself, the task context (a map
    from tokens to values shared with the other tasks of the frame), the
    buffer array ranges it allocated (shared, through reference-counted
    pointers, with the task context) and the resource registry.  All of that
    is one [World]; the member functions are computations in a state monad
    over it that can also fail, where the C++ would dereference a null
    pointer. *)

From stdpp Require Import base option list gmap strings.
From Stdlib Require Import ZArith Lia.

Local Open Scope Z_scope.

(** ** Machine integers

    [int] and [unsigned int] are 32 bits wide.  A value of either type is a
    [Z]; arithmetic on [int] is followed by [to_int], which wraps around in
    two's complement, and the conversion from [unsigned int] to [int] is the
    same wrap-around. *)

Module Int.

Definition min_signed : Z := - 2 ^ 31.
Definition max_signed : Z := 2 ^ 31 - 1.

Definition to_int (z : Z) : Z := (z + 2 ^ 31) mod 2 ^ 32 - 2 ^ 31.
Definition to_uint (z : Z) : Z := z mod 2 ^ 32.

Definition add (a b : Z) : Z := to_int (a + b).
Definition mul (a b : Z) : Z := to_int (a * b).

Definition in_range (z : Z) : Prop := min_signed <= z <= max_signed.

End Int.

(** ** Tokens

    [HdxTokens] (declared in [hdx/tokens.h]) are interned strings whose text
    is the name of the token. *)

Module HdxTokens.

Definition oitRequestFlag : string := "oitRequestFlag".
Definition oitClearedFlag : string := "oitClearedFlag".
Definition aovBindings : string := "aovBindings".

Definition oitCounterBufferBar : string := "oitCounterBufferBar".
Definition oitIndexBufferBar : string := "oitIndexBufferBar".
Definition oitDataBufferBar : string := "oitDataBufferBar".
Definition oitDepthBufferBar : string := "oitDepthBufferBar".
Definition oitUniformBar : string := "oitUniformBar".

Definition hdxOitCounterBuffer : string := "hdxOitCounterBuffer".
Definition hdxOitIndexBuffer : string := "hdxOitIndexBuffer".
Definition hdxOitDataBuffer : string := "hdxOitDataBuffer".
Definition hdxOitDepthBuffer : string := "hdxOitDepthBuffer".
Definition oitScreenSize : string := "oitScreenSize".

Definition oitCounter : string := "oitCounter".
Definition oitIndices : string := "oitIndices".
Definition oitData : string := "oitData".
Definition oitDepth : string := "oitDepth".
Definition oitUniforms : string := "oitUniforms".

End HdxTokens.

(** ** Values and buffers *)

(** [GfVec2i]: two [int] components, read with [v[0]] and [v[1]]. *)
Record GfVec2i := mkVec2i { vec0 : Z; vec1 : Z }.

(** [GfVec2i(w, h)] called with two [unsigned int]: each is converted to
    [int]. *)
Definition GfVec2i_of_unsigned (w h : Z) : GfVec2i :=
  mkVec2i (Int.to_int w) (Int.to_int h).

(** A reference-counted pointer to a buffer array range is the address of the
    range in the heap of the [World], or null. *)
Definition HdBufferArrayRangeSharedPtr : Type := option nat.

(** [HdRenderBuffer]: the task reads its width and height, both
    [unsigned int]. *)
Record HdRenderBuffer := mkRenderBuffer { rbWidth : Z; rbHeight : Z }.

Definition GetWidth (b : HdRenderBuffer) : Z := Int.to_uint (rbWidth b).
Definition GetHeight (b : HdRenderBuffer) : Z := Int.to_uint (rbHeight b).

(** [VtValue] is a type-erased holder.  The held types that reach this task
    are listed; an AOV binding holds a [VtValue] of its own, its clear
    value. *)
Inductive VtValue : Type :=
| VtEmpty
| VtBool (b : bool)
| VtVec2i (v : GfVec2i)
| VtBar (p : HdBufferArrayRangeSharedPtr)
| VtAovBindings (l : list HdRenderPassAovBinding)
| VtOther (typeName : string)
with HdRenderPassAovBinding : Type :=
| mkAovBinding (aovName : string)
               (renderBuffer : option HdRenderBuffer)
               (clearValue : VtValue).

Definition aovName (b : HdRenderPassAovBinding) : string :=
  match b with mkAovBinding n _ _ => n end.
Definition renderBuffer (b : HdRenderPassAovBinding) : option HdRenderBuffer :=
  match b with mkAovBinding _ r _ => r end.
Definition clearValue (b : HdRenderPassAovBinding) : VtValue :=
  match b with mkAovBinding _ _ c => c end.

(** [b.clearValue = v]. *)
Definition set_clearValue (v : VtValue) (b : HdRenderPassAovBinding)
  : HdRenderPassAovBinding :=
  mkAovBinding (aovName b) (renderBuffer b) v.

Inductive HdType := HdTypeInt32 | HdTypeInt32Vec2 | HdTypeFloat | HdTypeFloatVec4.

Record HdTupleType := mkTupleType { tupleType : HdType; tupleCount : nat }.

Record HdBufferSpec := mkBufferSpec { specName : string; specTuple : HdTupleType }.

Inductive BufferArrayKind := SingleBufferArray | UniformBufferArray.

(** A buffer array range, as far as the task can tell ranges apart: how it
    was allocated and the number of elements it was last resized to. *)
Record HdBufferArrayRange := mkRange {
  rangeKind : BufferArrayKind;
  rangeRole : string;
  rangeSpecs : list HdBufferSpec;
  numElements : Z
}.

(** [HdVtBufferSource(name, value)]. *)
Record HdVtBufferSource := mkBufferSource { sourceName : string; sourceValue : VtValue }.

(** The resource registry.  [newRangeElements] is the number of elements of a
    range that was allocated and never resized: the allocator is not part of
    this file, so that number is left open.  [pendingSources] are the
    sources added with [AddSource], the last one first. *)
Record HdStResourceRegistry := mkRegistry {
  newRangeElements : Z;
  pendingSources : list (HdBufferArrayRangeSharedPtr * HdVtBufferSource)
}.

Inductive HdRenderDelegate := HdStRenderDelegate | OtherRenderDelegate.

(** [dynamic_cast<HdStRenderDelegate*>(renderDelegate)] is not null. *)
Definition is_HdSt (d : option HdRenderDelegate) : bool :=
  match d with
  | Some HdStRenderDelegate => true
  | _ => false
  end.

Record HdRenderIndex := mkRenderIndex {
  renderDelegate : option HdRenderDelegate;
  resourceRegistry : HdStResourceRegistry
}.

(** ** Render pass state *)

Inductive HdBlendOp :=
| HdBlendOpAdd | HdBlendOpSubtract | HdBlendOpReverseSubtract
| HdBlendOpMin | HdBlendOpMax.

Inductive HdBlendFactor :=
| HdBlendFactorZero | HdBlendFactorOne
| HdBlendFactorSrcColor | HdBlendFactorOneMinusSrcColor
| HdBlendFactorDstColor | HdBlendFactorOneMinusDstColor
| HdBlendFactorSrcAlpha | HdBlendFactorOneMinusSrcAlpha
| HdBlendFactorDstAlpha | HdBlendFactorOneMinusDstAlpha.

Inductive ColorMask := ColorMaskNone | ColorMaskRGB | ColorMaskRGBA.

Record HdStRenderPassState := mkPassState {
  depthTestEnabled : bool;
  depthMaskEnabled : bool;
  colorMasks : list ColorMask;
  blendEnabled : bool;
  blendColorOp : HdBlendOp;
  blendColorSrcFactor : HdBlendFactor;
  blendColorDstFactor : HdBlendFactor;
  blendAlphaOp : HdBlendOp;
  blendAlphaSrcFactor : HdBlendFactor;
  blendAlphaDstFactor : HdBlendFactor;
  hasRenderPassShader : bool;
  stateAovBindings : list HdRenderPassAovBinding
}.

(** [HdStRenderPassState()]: Hydra's defaults.  The class is not part of this
    file; the task sets every field it relies on after the construction
    ([configuration_overrides_defaults]). *)
Definition HdStRenderPassState_new : HdStRenderPassState :=
  {| depthTestEnabled := true; depthMaskEnabled := true;
     colorMasks := []; blendEnabled := false;
     blendColorOp := HdBlendOpAdd;
     blendColorSrcFactor := HdBlendFactorOne;
     blendColorDstFactor := HdBlendFactorZero;
     blendAlphaOp := HdBlendOpAdd;
     blendAlphaSrcFactor := HdBlendFactorOne;
     blendAlphaDstFactor := HdBlendFactorZero;
     hasRenderPassShader := false;
     stateAovBindings := [] |}.

Definition SetEnableDepthTest (b : bool) (s : HdStRenderPassState) :=
  {| depthTestEnabled := b; depthMaskEnabled := depthMaskEnabled s;
     colorMasks := colorMasks s; blendEnabled := blendEnabled s;
     blendColorOp := blendColorOp s;
     blendColorSrcFactor := blendColorSrcFactor s;
     blendColorDstFactor := blendColorDstFactor s;
     blendAlphaOp := blendAlphaOp s;
     blendAlphaSrcFactor := blendAlphaSrcFactor s;
     blendAlphaDstFactor := blendAlphaDstFactor s;
     hasRenderPassShader := hasRenderPassShader s;
     stateAovBindings := stateAovBindings s |}.

Definition SetEnableDepthMask (b : bool) (s : HdStRenderPassState) :=
  {| depthTestEnabled := depthTestEnabled s; depthMaskEnabled := b;
     colorMasks := colorMasks s; blendEnabled := blendEnabled s;
     blendColorOp := blendColorOp s;
     blendColorSrcFactor := blendColorSrcFactor s;
     blendColorDstFactor := blendColorDstFactor s;
     blendAlphaOp := blendAlphaOp s;
     blendAlphaSrcFactor := blendAlphaSrcFactor s;
     blendAlphaDstFactor := blendAlphaDstFactor s;
     hasRenderPassShader := hasRenderPassShader s;
     stateAovBindings := stateAovBindings s |}.

Definition SetColorMasks (m : list ColorMask) (s : HdStRenderPassState) :=
  {| depthTestEnabled := depthTestEnabled s;
     depthMaskEnabled := depthMaskEnabled s;
     colorMasks := m; blendEnabled := blendEnabled s;
     blendColorOp := blendColorOp s;
     blendColorSrcFactor := blendColorSrcFactor s;
     blendColorDstFactor := blendColorDstFactor s;
     blendAlphaOp := blendAlphaOp s;
     blendAlphaSrcFactor := blendAlphaSrcFactor s;
     blendAlphaDstFactor := blendAlphaDstFactor s;
     hasRenderPassShader := hasRenderPassShader s;
     stateAovBindings := stateAovBindings s |}.

Definition SetBlendEnabled (b : bool) (s : HdStRenderPassState) :=
  {| depthTestEnabled := depthTestEnabled s;
     depthMaskEnabled := depthMaskEnabled s;
     colorMasks := colorMasks s; blendEnabled := b;
     blendColorOp := blendColorOp s;
     blendColorSrcFactor := blendColorSrcFactor s;
     blendColorDstFactor := blendColorDstFactor s;
     blendAlphaOp := blendAlphaOp s;
     blendAlphaSrcFactor := blendAlphaSrcFactor s;
     blendAlphaDstFactor := blendAlphaDstFactor s;
     hasRenderPassShader := hasRenderPassShader s;
     stateAovBindings := stateAovBindings s |}.

Definition SetBlend (colorOp : HdBlendOp) (colorSrc colorDst : HdBlendFactor)
    (alphaOp : HdBlendOp) (alphaSrc alphaDst : HdBlendFactor)
    (s : HdStRenderPassState) :=
  {| depthTestEnabled := depthTestEnabled s;
     depthMaskEnabled := depthMaskEnabled s;
     colorMasks := colorMasks s; blendEnabled := blendEnabled s;
     blendColorOp := colorOp;
     blendColorSrcFactor := colorSrc;
     blendColorDstFactor := colorDst;
     blendAlphaOp := alphaOp;
     blendAlphaSrcFactor := alphaSrc;
     blendAlphaDstFactor := alphaDst;
     hasRenderPassShader := hasRenderPassShader s;
     stateAovBindings := stateAovBindings s |}.

(** The state shares the shader object with the task ([_renderPassShader]):
    the object itself is kept in the task, the state records that it was
    given one. *)
Definition SetRenderPassShader (s : HdStRenderPassState) :=
  {| depthTestEnabled := depthTestEnabled s;
     depthMaskEnabled := depthMaskEnabled s;
     colorMasks := colorMasks s; blendEnabled := blendEnabled s;
     blendColorOp := blendColorOp s;
     blendColorSrcFactor := blendColorSrcFactor s;
     blendColorDstFactor := blendColorDstFactor s;
     blendAlphaOp := blendAlphaOp s;
     blendAlphaSrcFactor := blendAlphaSrcFactor s;
     blendAlphaDstFactor := blendAlphaDstFactor s;
     hasRenderPassShader := true;
     stateAovBindings := stateAovBindings s |}.

Definition SetAovBindings (l : list HdRenderPassAovBinding)
    (s : HdStRenderPassState) :=
  {| depthTestEnabled := depthTestEnabled s;
     depthMaskEnabled := depthMaskEnabled s;
     colorMasks := colorMasks s; blendEnabled := blendEnabled s;
     blendColorOp := blendColorOp s;
     blendColorSrcFactor := blendColorSrcFactor s;
     blendColorDstFactor := blendColorDstFactor s;
     blendAlphaOp := blendAlphaOp s;
     blendAlphaSrcFactor := blendAlphaSrcFactor s;
     blendAlphaDstFactor := blendAlphaDstFactor s;
     hasRenderPassShader := hasRenderPassShader s;
     stateAovBindings := l |}.

Definition GetAovBindings (s : HdStRenderPassState) := stateAovBindings s.

(** [HdStRenderPassShader]: the glslfx file it was made from and the buffers
    bound to it, by name. *)
Record HdStRenderPassShader := mkShader {
  shaderSource : string;
  bufferBindings : list (string * nat)
}.

(** [HdxPackageOitResolveImageShader()] (declared in [hdx/package.h]). *)
Definition HdxPackageOitResolveImageShader : string := "oitResolveImageShader.glslfx".

(** [HdSt_ImageShaderRenderPass]: whether it was prepared, and with which
    render tags. *)
Record HdSt_ImageShaderRenderPass := mkRenderPass {
  preparedTags : option (list string)
}.

(** What [HdSt_ImageShaderRenderPass::Execute] was given. *)
Record Draw := mkDraw {
  drawState : HdStRenderPassState;
  drawShader : HdStRenderPassShader;
  drawTags : list string
}.

Inductive Diagnostic :=
| CodingError (msg : string)
| Warning (msg : string)
| VerifyFailed (expr : string).

(** ** The task and the world around it *)

Record HdxOitResolveTask := mkTask {
  _id : string;
  _screenSize : GfVec2i;
  _counterBar : HdBufferArrayRangeSharedPtr;
  _indexBar : HdBufferArrayRangeSharedPtr;
  _dataBar : HdBufferArrayRangeSharedPtr;
  _depthBar : HdBufferArrayRangeSharedPtr;
  _uniformBar : HdBufferArrayRangeSharedPtr;
  _renderPass : option HdSt_ImageShaderRenderPass;
  _renderPassState : option HdStRenderPassState;
  _renderPassShader : option HdStRenderPassShader
}.

(** The constructor: [HdTask(id)], [_screenSize(0)], every pointer null. *)
Definition HdxOitResolveTask_new (id : string) : HdxOitResolveTask :=
  {| _id := id; _screenSize := mkVec2i 0 0;
     _counterBar := None; _indexBar := None; _dataBar := None;
     _depthBar := None; _uniformBar := None;
     _renderPass := None; _renderPassState := None;
     _renderPassShader := None |}.

(** [HdTask::GetRenderTags]: the task does not override it. *)
Definition GetRenderTags : list string := [].

Record World := mkWorld {
  self : HdxOitResolveTask;
  ctx : gmap string VtValue;
  renderIndex : HdRenderIndex;
  heap : list HdBufferArrayRange;
  diagnostics : list Diagnostic;
  submitted : list Draw
}.

Definition set_self (t : HdxOitResolveTask) (w : World) : World :=
  {| self := t; ctx := ctx w; renderIndex := renderIndex w; heap := heap w;
     diagnostics := diagnostics w; submitted := submitted w |}.

Definition set_ctx (c : gmap string VtValue) (w : World) : World :=
  {| self := self w; ctx := c; renderIndex := renderIndex w; heap := heap w;
     diagnostics := diagnostics w; submitted := submitted w |}.

Definition set_renderIndex (r : HdRenderIndex) (w : World) : World :=
  {| self := self w; ctx := ctx w; renderIndex := r; heap := heap w;
     diagnostics := diagnostics w; submitted := submitted w |}.

Definition set_heap (h : list HdBufferArrayRange) (w : World) : World :=
  {| self := self w; ctx := ctx w; renderIndex := renderIndex w; heap := h;
     diagnostics := diagnostics w; submitted := submitted w |}.

Definition set_diagnostics (d : list Diagnostic) (w : World) : World :=
  {| self := self w; ctx := ctx w; renderIndex := renderIndex w;
     heap := heap w; diagnostics := d; submitted := submitted w |}.

Definition set_submitted (d : list Draw) (w : World) : World :=
  {| self := self w; ctx := ctx w; renderIndex := renderIndex w;
     heap := heap w; diagnostics := diagnostics w; submitted := d |}.

(** Assignments to the members of the task. *)
Definition set_screenSize (v : GfVec2i) (t : HdxOitResolveTask) :=
  {| _id := _id t; _screenSize := v;
     _counterBar := _counterBar t; _indexBar := _indexBar t;
     _dataBar := _dataBar t; _depthBar := _depthBar t;
     _uniformBar := _uniformBar t;
     _renderPass := _renderPass t; _renderPassState := _renderPassState t;
     _renderPassShader := _renderPassShader t |}.

Definition set_counterBar (p : HdBufferArrayRangeSharedPtr) (t : HdxOitResolveTask) :=
  {| _id := _id t; _screenSize := _screenSize t;
     _counterBar := p; _indexBar := _indexBar t;
     _dataBar := _dataBar t; _depthBar := _depthBar t;
     _uniformBar := _uniformBar t;
     _renderPass := _renderPass t; _renderPassState := _renderPassState t;
     _renderPassShader := _renderPassShader t |}.

Definition set_indexBar (p : HdBufferArrayRangeSharedPtr) (t : HdxOitResolveTask) :=
  {| _id := _id t; _screenSize := _screenSize t;
     _counterBar := _counterBar t; _indexBar := p;
     _dataBar := _dataBar t; _depthBar := _depthBar t;
     _uniformBar := _uniformBar t;
     _renderPass := _renderPass t; _renderPassState := _renderPassState t;
     _renderPassShader := _renderPassShader t |}.

Definition set_dataBar (p : HdBufferArrayRangeSharedPtr) (t : HdxOitResolveTask) :=
  {| _id := _id t; _screenSize := _screenSize t;
     _counterBar := _counterBar t; _indexBar := _indexBar t;
     _dataBar := p; _depthBar := _depthBar t;
     _uniformBar := _uniformBar t;
     _renderPass := _renderPass t; _renderPassState := _renderPassState t;
     _renderPassShader := _renderPassShader t |}.

Definition set_depthBar (p : HdBufferArrayRangeSharedPtr) (t : HdxOitResolveTask) :=
  {| _id := _id t; _screenSize := _screenSize t;
     _counterBar := _counterBar t; _indexBar := _indexBar t;
     _dataBar := _dataBar t; _depthBar := p;
     _uniformBar := _uniformBar t;
     _renderPass := _renderPass t; _renderPassState := _renderPassState t;
     _renderPassShader := _renderPassShader t |}.

Definition set_uniformBar (p : HdBufferArrayRangeSharedPtr) (t : HdxOitResolveTask) :=
  {| _id := _id t; _screenSize := _screenSize t;
     _counterBar := _counterBar t; _indexBar := _indexBar t;
     _dataBar := _dataBar t; _depthBar := _depthBar t;
     _uniformBar := p;
     _renderPass := _renderPass t; _renderPassState := _renderPassState t;
     _renderPassShader := _renderPassShader t |}.

Definition set_renderPass (p : option HdSt_ImageShaderRenderPass) (t : HdxOitResolveTask) :=
  {| _id := _id t; _screenSize := _screenSize t;
     _counterBar := _counterBar t; _indexBar := _indexBar t;
     _dataBar := _dataBar t; _depthBar := _depthBar t;
     _uniformBar := _uniformBar t;
     _renderPass := p; _renderPassState := _renderPassState t;
     _renderPassShader := _renderPassShader t |}.

Definition set_renderPassState (p : option HdStRenderPassState) (t : HdxOitResolveTask) :=
  {| _id := _id t; _screenSize := _screenSize t;
     _counterBar := _counterBar t; _indexBar := _indexBar t;
     _dataBar := _dataBar t; _depthBar := _depthBar t;
     _uniformBar := _uniformBar t;
     _renderPass := _renderPass t; _renderPassState := p;
     _renderPassShader := _renderPassShader t |}.

Definition set_renderPassShader (p : option HdStRenderPassShader) (t : HdxOitResolveTask) :=
  {| _id := _id t; _screenSize := _screenSize t;
     _counterBar := _counterBar t; _indexBar := _indexBar t;
     _dataBar := _dataBar t; _depthBar := _depthBar t;
     _uniformBar := _uniformBar t;
     _renderPass := _renderPass t; _renderPassState := _renderPassState t;
     _renderPassShader := p |}.

(** ** The monad

    A computation takes the world and gives a result and the new world, or
    nothing when the C++ dereferences a null pointer. *)

Definition M (A : Type) : Type := World -> option (A * World).

#[export] Instance M_ret : MRet M := fun A a w => Some (a, w).

#[export] Instance M_bind : MBind M := fun A B f m w =>
  match m w with
  | Some (a, w') => f a w'
  | None => None
  end.

Definition gets {A} (f : World -> A) : M A := fun w => Some (f w, w).
Definition modify (f : World -> World) : M unit := fun w => Some (tt, f w).
Definition null_dereference {A} : M A := fun _ => None.

(** Following a pointer: [p->member]. *)
Definition deref {A} (p : option A) : M A :=
  match p with
  | Some a => mret a
  | None => null_dereference
  end.

(** Reading and assigning a member of [this]. *)
Definition member {A} (f : HdxOitResolveTask -> A) : M A :=
  gets (fun w => f (self w)).
Definition assign (f : HdxOitResolveTask -> HdxOitResolveTask) : M unit :=
  modify (fun w => set_self (f (self w)) w).

(** Diagnostics are collected in the order they are issued. *)
Definition report (d : Diagnostic) : M unit :=
  modify (fun w => set_diagnostics (diagnostics w ++ [d]) w).

Definition TF_CODING_ERROR (msg : string) : M unit := report (CodingError msg).
Definition TF_WARN (msg : string) : M unit := report (Warning msg).

(** [TF_VERIFY(cond)]: gives [cond], and reports when it is false. *)
Definition TF_VERIFY (cond : bool) (expr : string) : M bool :=
  if cond then mret true else (report (VerifyFailed expr) ;; mret false).

(** ** The collaborators of the task *)

(** [HdStResourceRegistry::AllocateSingleBufferArrayRange] and
    [AllocateUniformBufferArrayRange]: a new range, at a new address. *)
Definition Allocate (kind : BufferArrayKind) (role : string)
    (specs : list HdBufferSpec) : M HdBufferArrayRangeSharedPtr :=
  fun w =>
    let n := newRangeElements (resourceRegistry (renderIndex w)) in
    Some (Some (length (heap w)),
          set_heap (heap w ++ [mkRange kind role specs n]) w).

Definition AllocateSingleBufferArrayRange := Allocate SingleBufferArray.
Definition AllocateUniformBufferArrayRange := Allocate UniformBufferArray.

(** Modelled from the spec: [HdBufferArrayRange::Resize] is not part of this
    file; after "resize counter buffer to [w*h+1]" the range has that many
    elements. *)
Definition set_numElements (n : Z) (r : HdBufferArrayRange) : HdBufferArrayRange :=
  mkRange (rangeKind r) (rangeRole r) (rangeSpecs r) n.

Definition Resize (p : HdBufferArrayRangeSharedPtr) (n : Z) : M unit :=
  a ← deref p;
  _ ← (fun w => deref (heap w !! a) w);
  modify (fun w => set_heap (alter (set_numElements n) a (heap w)) w).

(** [HdStResourceRegistry::AddSource(range, source)]. *)
Definition AddSource (p : HdBufferArrayRangeSharedPtr) (s : HdVtBufferSource) : M unit :=
  modify (fun w =>
    let reg := resourceRegistry (renderIndex w) in
    set_renderIndex
      (mkRenderIndex (renderDelegate (renderIndex w))
         (mkRegistry (newRangeElements reg) ((p, s) :: pendingSources reg)))
      w).

(** [ctx[key] = value] and [ctx->erase(key)], which gives the number of
    entries erased. *)
Definition ctx_set (key : string) (v : VtValue) : M unit :=
  modify (fun w => set_ctx (<[key := v]> (ctx w)) w).

Definition ctx_erase (key : string) : M nat :=
  fun w =>
    Some (if bool_decide (is_Some (ctx w !! key)) then 1%nat else 0%nat,
          set_ctx (delete key (ctx w)) w).

(** [ctx->find(key) != ctx->end()]. *)
Definition ctx_contains (key : string) : M bool :=
  gets (fun w => bool_decide (is_Some (ctx w !! key))).

Definition is_null {A} (p : option A) : bool :=
  match p with
  | Some _ => false
  | None => true
  end.

(** A call of a setter through [_renderPassState->]. *)
Definition on_renderPassState (f : HdStRenderPassState -> HdStRenderPassState) : M unit :=
  p ← member _renderPassState;
  s ← deref p;
  assign (set_renderPassState (Some (f s))).

(** [HdSt_ImageShaderRenderPass::Prepare(tags)] through [_renderPass->]. *)
Definition renderPass_Prepare (tags : list string) : M unit :=
  p ← member _renderPass;
  _ ← deref p;
  assign (set_renderPass (Some (mkRenderPass (Some tags)))).

(** [HdSt_ImageShaderRenderPass::Execute(state, tags)] through
    [_renderPass->]: the draw is submitted with the state and the shader the
    state shares with the task. *)
Definition renderPass_Execute (tags : list string) : M unit :=
  p ← member _renderPass;
  _ ← deref p;
  s ← member _renderPassState ≫= deref;
  sh ← member _renderPassShader ≫= deref;
  modify (fun w => set_submitted (submitted w ++ [mkDraw s sh tags]) w).

(** [HdStRenderPassShader::AddBufferBinding]: a binding replaces the one of
    the same name. *)
Definition AddBufferBinding (name : string) (a : nat) (sh : HdStRenderPassShader)
  : HdStRenderPassShader :=
  mkShader (shaderSource sh)
    ((name, a) :: filter (fun b => b.1 ≠ name) (bufferBindings sh)).

(** [HdxOitBufferAccessor::_GetBar]: the range held by the task context under
    [name], null when there is none. *)
Definition _GetBar (name : string) : M HdBufferArrayRangeSharedPtr :=
  gets (fun w =>
    match ctx w !! name with
    | Some (VtBar p) => p
    | _ => None
    end).

(** Modelled from the spec: [HdxOitBufferAccessor::AddOitBufferBindings] is
    defined in [hdx/oitBufferAccessor.cpp], not in this file.  "Bind the
    four OIT buffers (counter/index/data/depth) from shared state to the
    compositing shader.  If any buffer reference is absent, report a
    programming error and abort the draw": it gives [false] when a
    reference is absent, and the caller reports. *)
Definition AddOitBufferBindings : M bool :=
  counterBar ← _GetBar HdxTokens.oitCounterBufferBar;
  indexBar ← _GetBar HdxTokens.oitIndexBufferBar;
  dataBar ← _GetBar HdxTokens.oitDataBufferBar;
  depthBar ← _GetBar HdxTokens.oitDepthBufferBar;
  match counterBar, indexBar, dataBar, depthBar with
  | Some c, Some i, Some d, Some z =>
      sh ← member _renderPassShader ≫= deref;
      assign (set_renderPassShader (Some
        (AddBufferBinding HdxTokens.oitDepthBufferBar z
          (AddBufferBinding HdxTokens.oitDataBufferBar d
            (AddBufferBinding HdxTokens.oitIndexBufferBar i
              (AddBufferBinding HdxTokens.oitCounterBufferBar c sh))))));;
      mret true
  | _, _, _, _ => mret false
  end.

(** ** The member functions of the task *)

(** [static const int numSamples = 8]. *)
Definition numSamples : Z := 8.

(** [HdxOitResolveTask::_PrepareOitBuffers(ctx, renderIndex, screenSize)]. *)
Definition _PrepareOitBuffers (screenSize : GfVec2i) : M unit :=
  if negb ((0 <=? vec0 screenSize) && (0 <=? vec1 screenSize)) then
    id ← member _id;
    TF_CODING_ERROR ("Invalid screen size for OIT resolve task " +:+ id)
  else
    counterBar ← member _counterBar;
    let createOitBuffers := is_null counterBar in
    (if createOitBuffers then
       (p ← AllocateSingleBufferArrayRange HdxTokens.oitCounter
              [mkBufferSpec HdxTokens.hdxOitCounterBuffer (mkTupleType HdTypeInt32 1)];
        assign (set_counterBar p));;
       (p ← AllocateSingleBufferArrayRange HdxTokens.oitIndices
              [mkBufferSpec HdxTokens.hdxOitIndexBuffer (mkTupleType HdTypeInt32 1)];
        assign (set_indexBar p));;
       (p ← AllocateSingleBufferArrayRange HdxTokens.oitData
              [mkBufferSpec HdxTokens.hdxOitDataBuffer (mkTupleType HdTypeFloatVec4 1)];
        assign (set_dataBar p));;
       (p ← AllocateSingleBufferArrayRange HdxTokens.oitDepth
              [mkBufferSpec HdxTokens.hdxOitDepthBuffer (mkTupleType HdTypeFloat 1)];
        assign (set_depthBar p));;
       (p ← AllocateUniformBufferArrayRange HdxTokens.oitUniforms
              [mkBufferSpec HdxTokens.oitScreenSize (mkTupleType HdTypeInt32Vec2 1)];
        assign (set_uniformBar p))
     else mret tt);;
    (p ← member _counterBar; ctx_set HdxTokens.oitCounterBufferBar (VtBar p));;
    (p ← member _indexBar; ctx_set HdxTokens.oitIndexBufferBar (VtBar p));;
    (p ← member _dataBar; ctx_set HdxTokens.oitDataBufferBar (VtBar p));;
    (p ← member _depthBar; ctx_set HdxTokens.oitDepthBufferBar (VtBar p));;
    (p ← member _uniformBar; ctx_set HdxTokens.oitUniformBar (VtBar p));;
    tracked ← member _screenSize;
    let resizeOitBuffers :=
      (vec0 tracked <? vec0 screenSize) || (vec1 tracked <? vec1 screenSize) in
    if resizeOitBuffers then
      assign (set_screenSize screenSize);;
      let newBufferSize := Int.mul (vec0 screenSize) (vec1 screenSize) in
      (p ← member _counterBar; Resize p (Int.add newBufferSize 1));;
      (p ← member _indexBar; Resize p (Int.mul newBufferSize numSamples));;
      (p ← member _dataBar; Resize p (Int.mul newBufferSize numSamples));;
      (p ← member _depthBar; Resize p (Int.mul newBufferSize numSamples));;
      (p ← member _uniformBar;
       AddSource p (mkBufferSource HdxTokens.oitScreenSize (VtVec2i screenSize)))
    else mret tt.

(** [HdxOitResolveTask::_PrepareAovBindings(ctx, renderIndex)]. *)
Definition _PrepareAovBindings : M unit :=
  aovIt ← gets (fun w => ctx w !! HdxTokens.aovBindings);
  let aovBindings :=
    match aovIt with
    | Some (VtAovBindings l) => l
    | _ => []
    end in
  let aovBindings := map (set_clearValue VtEmpty) aovBindings in
  on_renderPassState (SetAovBindings aovBindings).

(** The one-time initialization in [Prepare] ([if (!_renderPass) { ... }]).
    It gives [false] where the C++ returns from [Prepare]. *)
Definition Prepare_init : M bool :=
  renderPass ← member _renderPass;
  if is_null renderPass then
    renderDelegate ← gets (fun w => renderDelegate (renderIndex w));
    ok ← TF_VERIFY (is_HdSt renderDelegate) "OIT Task only works with HdSt";
    if negb ok then mret false
    else
      assign (set_renderPass (Some (mkRenderPass None)));;
      assign (set_renderPassState (Some HdStRenderPassState_new));;
      on_renderPassState (SetEnableDepthTest false);;
      on_renderPassState (SetEnableDepthMask false);;
      on_renderPassState (SetColorMasks [ColorMaskRGBA]);;
      on_renderPassState (SetBlendEnabled true);;
      on_renderPassState
        (SetBlend HdBlendOpAdd HdBlendFactorOne HdBlendFactorOneMinusSrcAlpha
                  HdBlendOpAdd HdBlendFactorOne HdBlendFactorOneMinusSrcAlpha);;
      assign (set_renderPassShader
                (Some (mkShader HdxPackageOitResolveImageShader [])));;
      on_renderPassState SetRenderPassShader;;
      renderPass_Prepare GetRenderTags;;
      mret true
  else mret true.

Definition oitScreenSizeFallback : Z := 2048.

(** The screen size [Prepare] computes, from the first AOV binding of the
    render pass state or, without one, the fallback. *)
Definition Prepare_screenSize : M GfVec2i :=
  state ← member _renderPassState ≫= deref;
  let aovBindings := GetAovBindings state in
  match aovBindings with
  | front :: _ =>
      w ← (b ← deref (renderBuffer front); mret (GetWidth b));
      h ← (b ← deref (renderBuffer front); mret (GetHeight b));
      mret (GfVec2i_of_unsigned w h)
  | [] =>
      tracked ← member _screenSize;
      (if negb (vec0 tracked =? oitScreenSizeFallback)
       then TF_WARN "Invalid AOVs for Oit Resolve Task"
       else mret tt);;
      mret (mkVec2i oitScreenSizeFallback oitScreenSizeFallback)
  end.

(** [HdxOitResolveTask::Prepare(ctx, renderIndex)]. *)
Definition Prepare : M unit :=
  requested ← ctx_contains HdxTokens.oitRequestFlag;
  if negb requested then mret tt
  else
    ctx_erase HdxTokens.oitClearedFlag;;
    ready ← Prepare_init;
    if negb ready then mret tt
    else
      _PrepareAovBindings;;
      screenSize ← Prepare_screenSize;
      _PrepareOitBuffers screenSize.

(** [HdxOitResolveTask::Execute(ctx)]. *)
Definition Execute : M unit :=
  erased ← ctx_erase HdxTokens.oitRequestFlag;
  if (erased =? 0)%nat then mret tt
  else
    ctx_erase HdxTokens.oitClearedFlag;;
    state ← member _renderPassState;
    ok ← TF_VERIFY (negb (is_null state)) "_renderPassState";
    if negb ok then mret tt
    else
      shader ← member _renderPassShader;
      ok ← TF_VERIFY (negb (is_null shader)) "_renderPassShader";
      if negb ok then mret tt
      else
        bound ← AddOitBufferBindings;
        if negb bound then
          TF_CODING_ERROR "No OIT buffers allocated but needed by OIT resolve task"
        else
          renderPass_Execute GetRenderTags.

(** ** Observations and invariants *)

(** The number of elements of the range a pointer leads to. *)
Definition length_of (p : HdBufferArrayRangeSharedPtr) (w : World) : option Z :=
  match p with
  | Some a => numElements <$> heap w !! a
  | None => None
  end.

Definition counterLength (w : World) := length_of (_counterBar (self w)) w.
Definition indexLength (w : World) := length_of (_indexBar (self w)) w.
Definition dataLength (w : World) := length_of (_dataBar (self w)) w.
Definition depthLength (w : World) := length_of (_depthBar (self w)) w.

(** The lengths of the counter, index, data and depth buffers. *)
Definition oitLengths (w : World) : list (option Z) :=
  [counterLength w; indexLength w; dataLength w; depthLength w].

(** The lengths [_PrepareOitBuffers] asks for on a resize, in its own [int]
    arithmetic: [newBufferSize + 1] and [newBufferSize * numSamples]. *)
Definition counterSize (s : GfVec2i) : Z :=
  Int.add (Int.mul (vec0 s) (vec1 s)) 1.
Definition sampleSize (s : GfVec2i) : Z :=
  Int.mul (Int.mul (vec0 s) (vec1 s)) numSamples.

Definition oitSizes (s : GfVec2i) : list (option Z) :=
  [Some (counterSize s); Some (sampleSize s); Some (sampleSize s); Some (sampleSize s)].

(** The sources added to the uniform range and not yet committed. *)
Definition pending (w : World) := pendingSources (resourceRegistry (renderIndex w)).

(** The five ranges of the task, in the order it allocates them. *)
Definition bars (t : HdxOitResolveTask) : list HdBufferArrayRangeSharedPtr :=
  [_counterBar t; _indexBar t; _dataBar t; _depthBar t; _uniformBar t].

(** The task allocates its five ranges together: either it has no counter
    range yet, or the five pointers lead to five different ranges of the
    heap. *)
Definition buffers_ok (w : World) : bool :=
  match bars (self w) with
  | [Some c; Some i; Some d; Some z; Some u] =>
      bool_decide (NoDup [c; i; d; z; u])
      && forallb (fun a => bool_decide (a < length (heap w))%nat) [c; i; d; z; u]
  | None :: _ => true
  | _ => false
  end.

(** The render pass, its state and its shader are made together. *)
Definition pass_ok (w : World) : bool :=
  bool_decide (is_null (_renderPass (self w)) = is_null (_renderPassState (self w)))
  && bool_decide (is_null (_renderPassState (self w)) = is_null (_renderPassShader (self w))).

(** The AOV bindings a render setup task left in the task context. *)
Definition ctx_aovBindings (w : World) : list HdRenderPassAovBinding :=
  match ctx w !! HdxTokens.aovBindings with
  | Some (VtAovBindings l) => l
  | _ => []
  end.

(** The first AOV binding, when there is one, has a render buffer. *)
Definition aov_ok (w : World) : bool :=
  match ctx_aovBindings w with
  | front :: _ => negb (is_null (renderBuffer front))
  | [] => true
  end.

(** The four references [Execute] binds are in the task context. *)
Definition oitBuffersPublished (w : World) : bool :=
  forallb (fun key =>
             match ctx w !! key with
             | Some (VtBar (Some _)) => true
             | _ => false
             end)
          [HdxTokens.oitCounterBufferBar; HdxTokens.oitIndexBufferBar;
           HdxTokens.oitDataBufferBar; HdxTokens.oitDepthBufferBar].

(** A task that was just constructed, in a frame that starts with the task
    context [c]. *)
Definition new_world (id : string) (c : gmap string VtValue) (r : HdRenderIndex) : World :=
  {| self := HdxOitResolveTask_new id; ctx := c; renderIndex := r;
     heap := []; diagnostics := []; submitted := [] |}.

Definition HdSt_index : HdRenderIndex :=
  mkRenderIndex (Some HdStRenderDelegate) (mkRegistry 0 []).

Definition other_index : HdRenderIndex :=
  mkRenderIndex (Some OtherRenderDelegate) (mkRegistry 0 []).

(** The diagnostics of the task. *)
Definition invalid_size_error (w : World) : Diagnostic :=
  CodingError ("Invalid screen size for OIT resolve task " +:+ _id (self w)).
Definition unsupported_backend : Diagnostic :=
  VerifyFailed "OIT Task only works with HdSt".
Definition invalid_aovs : Diagnostic :=
  Warning "Invalid AOVs for Oit Resolve Task".
Definition no_oit_buffers : Diagnostic :=
  CodingError "No OIT buffers allocated but needed by OIT resolve task".

Definition add_diagnostic (d : Diagnostic) (w : World) : World :=
  set_diagnostics (diagnostics w ++ [d]) w.

(** The world once [Execute] has erased both flags from the task context. *)
Definition erase_flags (w : World) : World :=
  set_ctx (delete HdxTokens.oitClearedFlag
             (delete HdxTokens.oitRequestFlag (ctx w))) w.

(** The world once [Prepare] has erased the cleared flag. *)
Definition erase_cleared (w : World) : World :=
  set_ctx (delete HdxTokens.oitClearedFlag (ctx w)) w.

(** ** What [_PrepareOitBuffers] does to the world, step by step

    The three steps of [_PrepareOitBuffers] (allocate, publish, resize) as
    functions on worlds; [PrepareOitBuffers_run] shows that the member
    function computes their composition. *)

(** The five ranges right after their allocation. *)
Definition new_ranges (w : World) : list HdBufferArrayRange :=
  let n := newRangeElements (resourceRegistry (renderIndex w)) in
  [ mkRange SingleBufferArray HdxTokens.oitCounter
      [mkBufferSpec HdxTokens.hdxOitCounterBuffer (mkTupleType HdTypeInt32 1)] n;
    mkRange SingleBufferArray HdxTokens.oitIndices
      [mkBufferSpec HdxTokens.hdxOitIndexBuffer (mkTupleType HdTypeInt32 1)] n;
    mkRange SingleBufferArray HdxTokens.oitData
      [mkBufferSpec HdxTokens.hdxOitDataBuffer (mkTupleType HdTypeFloatVec4 1)] n;
    mkRange SingleBufferArray HdxTokens.oitDepth
      [mkBufferSpec HdxTokens.hdxOitDepthBuffer (mkTupleType HdTypeFloat 1)] n;
    mkRange UniformBufferArray HdxTokens.oitUniforms
      [mkBufferSpec HdxTokens.oitScreenSize (mkTupleType HdTypeInt32Vec2 1)] n ].

Definition set_bars (c i d z u : nat) (t : HdxOitResolveTask) : HdxOitResolveTask :=
  set_uniformBar (Some u)
    (set_depthBar (Some z)
       (set_dataBar (Some d)
          (set_indexBar (Some i)
             (set_counterBar (Some c) t)))).

(** Allocation, when the task has no counter range yet. *)
Definition allocated (w : World) : World :=
  if is_null (_counterBar (self w)) then
    let a := length (heap w) in
    set_self (set_bars a (a + 1) (a + 2) (a + 3) (a + 4) (self w))
      (set_heap (heap w ++ new_ranges w) w)
  else w.

(** The five references in the task context. *)
Definition published (w : World) : World :=
  set_ctx
    (<[HdxTokens.oitUniformBar := VtBar (_uniformBar (self w))]>
       (<[HdxTokens.oitDepthBufferBar := VtBar (_depthBar (self w))]>
          (<[HdxTokens.oitDataBufferBar := VtBar (_dataBar (self w))]>
             (<[HdxTokens.oitIndexBufferBar := VtBar (_indexBar (self w))]>
                (<[HdxTokens.oitCounterBufferBar := VtBar (_counterBar (self w))]>
                   (ctx w))))))
    w.

(** [resizeOitBuffers] of [_PrepareOitBuffers]. *)
Definition grows (s : GfVec2i) (w : World) : bool :=
  (vec0 (_screenSize (self w)) <? vec0 s) || (vec1 (_screenSize (self w)) <? vec1 s).

Definition resize_at (p : HdBufferArrayRangeSharedPtr) (n : Z)
    (h : list HdBufferArrayRange) : list HdBufferArrayRange :=
  match p with
  | Some a => alter (set_numElements n) a h
  | None => h
  end.

Definition add_pending (p : HdBufferArrayRangeSharedPtr) (s : HdVtBufferSource)
    (r : HdRenderIndex) : HdRenderIndex :=
  mkRenderIndex (renderDelegate r)
    (mkRegistry (newRangeElements (resourceRegistry r))
                ((p, s) :: pendingSources (resourceRegistry r))).

(** The resize, when the requested size grows over the tracked one. *)
Definition resized (s : GfVec2i) (w : World) : World :=
  if grows s w then
    let t := self w in
    set_renderIndex
      (add_pending (_uniformBar t)
         (mkBufferSource HdxTokens.oitScreenSize (VtVec2i s)) (renderIndex w))
      (set_heap
         (resize_at (_depthBar t) (sampleSize s)
            (resize_at (_dataBar t) (sampleSize s)
               (resize_at (_indexBar t) (sampleSize s)
                  (resize_at (_counterBar t) (counterSize s) (heap w)))))
         (set_self (set_screenSize s t) w))
  else w.

(** One call of [_PrepareOitBuffers] with a valid screen size. *)
Definition prepared (s : GfVec2i) (w : World) : World :=
  resized s (published (allocated w)).

(** The source [_PrepareOitBuffers] adds for the uniform range on a resize. *)
Definition screenSize_source (s : GfVec2i) : HdVtBufferSource :=
  mkBufferSource HdxTokens.oitScreenSize (VtVec2i s).

(** The five pointers of the task lead to five different ranges of the
    heap. *)
Definition buffers_allocated (w : World) : Prop :=
  exists c i d z u,
    bars (self w) = [Some c; Some i; Some d; Some z; Some u]
    /\ NoDup [c; i; d; z; u]
    /\ Forall (fun a => (a < length (heap w))%nat) [c; i; d; z; u].

(** ** What [Prepare] does to the world, step by step *)

(** The render pass state of the resolve, as [Prepare] configures it. *)
Definition oitResolveState : HdStRenderPassState :=
  SetRenderPassShader
    (SetBlend HdBlendOpAdd HdBlendFactorOne HdBlendFactorOneMinusSrcAlpha
              HdBlendOpAdd HdBlendFactorOne HdBlendFactorOneMinusSrcAlpha
       (SetBlendEnabled true
          (SetColorMasks [ColorMaskRGBA]
             (SetEnableDepthMask false
                (SetEnableDepthTest false HdStRenderPassState_new))))).

(** The one-time initialization, on a supported backend. *)
Definition initialized (w : World) : World :=
  set_self
    (set_renderPass (Some (mkRenderPass (Some GetRenderTags)))
       (set_renderPassShader (Some (mkShader HdxPackageOitResolveImageShader []))
          (set_renderPassState (Some oitResolveState) (self w))))
    w.

Definition ready (w : World) : World :=
  if is_null (_renderPass (self w)) then initialized w else w.

(** The AOV bindings of the task context, without their clear values, in the
    render pass state. *)
Definition bound_aovs (w : World) : World :=
  match _renderPassState (self w) with
  | Some st =>
      set_self
        (set_renderPassState
           (Some (SetAovBindings
                    (map (set_clearValue VtEmpty) (ctx_aovBindings w)) st))
           (self w))
        w
  | None => w
  end.

Definition fallback_size : GfVec2i :=
  mkVec2i oitScreenSizeFallback oitScreenSizeFallback.

(** The screen size [Prepare] asks [_PrepareOitBuffers] for. *)
Definition requested_size (w : World) : GfVec2i :=
  match ctx_aovBindings w with
  | front :: _ =>
      match renderBuffer front with
      | Some b => GfVec2i_of_unsigned (GetWidth b) (GetHeight b)
      | None => fallback_size
      end
  | [] => fallback_size
  end.

(** The warning of the fallback. *)
Definition fallback_warning (w : World) : list Diagnostic :=
  if vec0 (_screenSize (self w)) =? oitScreenSizeFallback then []
  else [invalid_aovs].

Definition warned (w : World) : World :=
  match ctx_aovBindings w with
  | [] => set_diagnostics (diagnostics w ++ fallback_warning w) w
  | _ :: _ => w
  end.

(** The world [Prepare] hands to [_PrepareOitBuffers]. *)
Definition before_buffers (w : World) : World :=
  warned (bound_aovs (ready (erase_cleared w))).

(** ** Frames

    The task contexts of the examples: an accumulation task has set the
    request flag, and a render setup task has or has not left AOV
    bindings. *)
Definition frame_without_aovs : gmap string VtValue :=
  {[ HdxTokens.oitRequestFlag := VtBool true ]}.

Definition frame_with_aov (width height : Z) : gmap string VtValue :=
  <[ HdxTokens.aovBindings :=
       VtAovBindings
         [mkAovBinding "color" (Some (mkRenderBuffer width height)) VtEmpty] ]>
    frame_without_aovs.

(** Both flags are set, as after an accumulation task has cleared the
    buffers and drawn. *)
Definition frame_with_flags : gmap string VtValue :=
  <[ HdxTokens.oitClearedFlag := VtBool true ]> frame_without_aovs.

(** A new task on a render index whose delegate is not Storm's, in a frame
    that requests the resolve. *)
Definition unsupported_world : World :=
  new_world "/oitResolve" frame_with_flags other_index.

(** A frame in which only the cleared flag is left in the task context, seen
    by a new task. *)
Definition cleared_only_world : World :=
  new_world "/oitResolve" {[ HdxTokens.oitClearedFlag := VtBool true ]} HdSt_index.

(** A new task that is asked to resolve before any [Prepare]. *)
Definition unprepared_world : World :=
  new_world "/oitResolve" frame_with_flags HdSt_index.

(** ** The task in the render loop

    [HdxOitResolveTask::Sync] only marks the task clean
    ([*dirtyBits = HdChangeTracker::Clean], and [Clean] is 0): it reads and
    changes nothing of the world. *)
Definition HdChangeTracker_Clean : Z := 0.

Definition Sync (dirtyBits : Z) : M Z := mret HdChangeTracker_Clean.

(** What happens to the task between its construction and its destruction:
    the other tasks of the engine change the task context, and the engine
    calls [Sync], [Prepare] and [Execute]. *)
Inductive Step :=
| OtherTasks (c : gmap string VtValue)
| CallSync (dirtyBits : Z)
| CallPrepare
| CallExecute.

Definition run_step (s : Step) : M unit :=
  match s with
  | OtherTasks c => modify (set_ctx c)
  | CallSync dirtyBits => _ ← Sync dirtyBits; mret tt
  | CallPrepare => Prepare
  | CallExecute => Execute
  end.

Fixpoint run_steps (steps : list Step) : M unit :=
  match steps with
  | [] => mret tt
  | s :: rest => run_step s ;; run_steps rest
  end.

(** The task context a render setup task leaves has a render buffer in its
    first AOV binding, when it has bindings at all. *)
Definition ctx_ok (c : gmap string VtValue) : bool :=
  match c !! HdxTokens.aovBindings with
  | Some (VtAovBindings (front :: _)) => negb (is_null (renderBuffer front))
  | _ => true
  end.

Definition step_ok (s : Step) : bool :=
  match s with
  | OtherTasks c => ctx_ok c
  | _ => true
  end.

(** The tracked screen size is the one the buffers were last resized for,
    and the one of the last source added for the uniform range. *)
Definition sized (w : World) : Prop :=
  _screenSize (self w) = mkVec2i 0 0
  \/ (oitLengths w = oitSizes (_screenSize (self w))
      /\ exists rest,
           pending w =
             (_uniformBar (self w), screenSize_source (_screenSize (self w)))
               :: rest).

Definition invariant (w : World) : Prop :=
  pass_ok w = true /\ buffers_ok w = true /\ aov_ok w = true
  /\ sized w
  /\ 0 <= vec0 (_screenSize (self w)) /\ 0 <= vec1 (_screenSize (self w)).

(** What tells the ranges of the heap apart, their length aside. *)
Definition description (r : HdBufferArrayRange)
  : BufferArrayKind * string * list HdBufferSpec :=
  (rangeKind r, rangeRole r, rangeSpecs r).

(** The keys of the task context [Prepare] writes or erases. *)
Definition Prepare_keys : list string :=
  [HdxTokens.oitClearedFlag;
   HdxTokens.oitCounterBufferBar; HdxTokens.oitIndexBufferBar;
   HdxTokens.oitDataBufferBar; HdxTokens.oitDepthBufferBar;
   HdxTokens.oitUniformBar].

Fixpoint count_Execute (steps : list Step) : nat :=
  match steps with
  | [] => 0
  | CallExecute :: rest => S (count_Execute rest)
  | _ :: rest => count_Execute rest
  end.

(** A frame whose AOV binding asks for a clear to a color. *)
Definition frame_with_clearing_aov (width height : Z) : gmap string VtValue :=
  <[ HdxTokens.aovBindings :=
       VtAovBindings
         [mkAovBinding "color" (Some (mkRenderBuffer width height))
            (VtOther "GfVec4f")] ]>
    frame_without_aovs.

(** A frame whose AOV is a render buffer as wide as [unsigned int] allows. *)
Definition frame_with_widest_aov : gmap string VtValue :=
  frame_with_aov 4294967295 1080.

(** Two frames of a render loop: the first starts with the task context the
    world already has, the second with [c]. *)
Definition two_frames (c : gmap string VtValue) : list Step :=
  [CallSync 1; CallPrepare; CallExecute;
   OtherTasks c; CallSync 0; CallPrepare; CallExecute].

(** The lengths the formulas [w*h + 1] and [w*h*numSamples] give for a screen
    size, without [int] arithmetic. *)
Definition exactSizes (s : GfVec2i) : list (option Z) :=
  [Some (vec0 s * vec1 s + 1); Some (vec0 s * vec1 s * 8);
   Some (vec0 s * vec1 s * 8); Some (vec0 s * vec1 s * 8)].

(** A buffer that has [before] elements and later [after] elements did not
    shrink. *)
Definition not_shorter (before after : option Z) : Prop :=
  exists n n', before = Some n /\ after = Some n' /\ n <= n'.

(** A buffer is long enough for [need] elements. *)
Definition holds (len : option Z) (need : Z) : Prop :=
  exists n, len = Some n /\ need <= n.

(** The five buffers of the task are all missing or all allocated. *)
Definition buffers_together (w : World) : Prop :=
  bars (self w) = [None; None; None; None; None] \/ buffers_allocated w.

(** * Properties *)

(** ** Running computations *)

Lemma bind_run {A B} (m : M A) (f : A -> M B) w a w1 :
  m w = Some (a, w1) -> (m ≫= f) w = f a w1.
Proof. intros H. unfold mbind, M_bind. by rewrite H. Qed.

Lemma bind_crash {A B} (m : M A) (f : A -> M B) w :
  m w = None -> (m ≫= f) w = None.
Proof. intros H. unfold mbind, M_bind. by rewrite H. Qed.

Lemma report_run d w :
  report d w = Some (tt, set_diagnostics (diagnostics w ++ [d]) w).
Proof. reflexivity. Qed.

(** ** The screen size check of [_PrepareOitBuffers] *)

Lemma PrepareOitBuffers_invalid_run (screenSize : GfVec2i) (w : World) :
  vec0 screenSize < 0 \/ vec1 screenSize < 0 ->
  _PrepareOitBuffers screenSize w =
    Some (tt, add_diagnostic (invalid_size_error w) w).
Proof.
  intros Hneg.
  assert (Hguard : (0 <=? vec0 screenSize) && (0 <=? vec1 screenSize) = false).
  { apply andb_false_iff. destruct Hneg; [left | right]; lia. }
  unfold _PrepareOitBuffers. by rewrite Hguard.
Qed.

(** C6. A call of [_PrepareOitBuffers] with a negative width or a negative
    height reports a coding error and does nothing else: the task (its
    ranges, its tracked screen size), the heap of ranges, the task context
    and the resource registry (the sources of the uniform range) are what
    they were, and no range was allocated. *)
Theorem PrepareOitBuffers_invalid_size (screenSize : GfVec2i) (w : World) :
  vec0 screenSize < 0 \/ vec1 screenSize < 0 ->
  exists w',
    _PrepareOitBuffers screenSize w = Some (tt, w')
    /\ diagnostics w' = diagnostics w ++ [invalid_size_error w]
    /\ self w' = self w
    /\ heap w' = heap w
    /\ ctx w' = ctx w
    /\ renderIndex w' = renderIndex w
    /\ submitted w' = submitted w.
Proof.
  intros Hneg. exists (add_diagnostic (invalid_size_error w) w).
  split; [by apply PrepareOitBuffers_invalid_run |]. done.
Qed.

Lemma PrepareOitBuffers_invalid_size_witness :
  exists w',
    _PrepareOitBuffers (mkVec2i (-1) 600)
      (new_world "/oitResolve" ∅ HdSt_index) = Some (tt, w')
    /\ diagnostics w' =
         [CodingError "Invalid screen size for OIT resolve task /oitResolve"]
    /\ self w' = HdxOitResolveTask_new "/oitResolve"
    /\ heap w' = []
    /\ ctx w' = ∅
    /\ renderIndex w' = HdSt_index
    /\ submitted w' = [].
Proof.
  apply (PrepareOitBuffers_invalid_size (mkVec2i (-1) 600)
           (new_world "/oitResolve" ∅ HdSt_index)).
  left. cbn. lia.
Defined.

(** ** The task context *)

Lemma set_ctx_id w : set_ctx (ctx w) w = w.
Proof. by destruct w. Qed.

Lemma erase_absent key w :
  ctx w !! key = None -> set_ctx (delete key (ctx w)) w = w.
Proof. intros H. rewrite delete_id by done. apply set_ctx_id. Qed.

Lemma erase_flags_request w :
  ctx (erase_flags w) !! HdxTokens.oitRequestFlag = None.
Proof.
  cbn. rewrite lookup_delete_ne by done. apply lookup_delete_eq.
Qed.

Lemma erase_flags_cleared w :
  ctx (erase_flags w) !! HdxTokens.oitClearedFlag = None.
Proof. cbn. apply lookup_delete_eq. Qed.

Lemma erase_flags_other key w :
  key ≠ HdxTokens.oitRequestFlag -> key ≠ HdxTokens.oitClearedFlag ->
  ctx (erase_flags w) !! key = ctx w !! key.
Proof. intros H1 H2. cbn. by rewrite !lookup_delete_ne. Qed.

Lemma erase_flags_published w :
  oitBuffersPublished (erase_flags w) = oitBuffersPublished w.
Proof.
  unfold oitBuffersPublished. cbn -[erase_flags].
  by rewrite !erase_flags_other.
Qed.

(** ** [AddOitBufferBindings] *)

Lemma AddOitBufferBindings_missing w :
  oitBuffersPublished w = false -> AddOitBufferBindings w = Some (false, w).
Proof.
  unfold oitBuffersPublished, AddOitBufferBindings, _GetBar, gets, mbind, M_bind.
  cbn.
  destruct (ctx w !! HdxTokens.oitCounterBufferBar) as [[| | |[c|]| |]|]; try done.
  destruct (ctx w !! HdxTokens.oitIndexBufferBar) as [[| | |[i|]| |]|]; try done.
  destruct (ctx w !! HdxTokens.oitDataBufferBar) as [[| | |[d|]| |]|]; try done.
  destruct (ctx w !! HdxTokens.oitDepthBufferBar) as [[| | |[z|]| |]|]; try done.
Qed.

Lemma AddOitBufferBindings_bound w sh :
  oitBuffersPublished w = true ->
  _renderPassShader (self w) = Some sh ->
  exists sh',
    AddOitBufferBindings w =
      Some (true, set_self (set_renderPassShader (Some sh') (self w)) w).
Proof.
  unfold oitBuffersPublished, AddOitBufferBindings, _GetBar, gets, mbind, M_bind.
  cbn. intros Hpub Hsh.
  destruct (ctx w !! HdxTokens.oitCounterBufferBar) as [[| | |[c|]| |]|]; try done.
  destruct (ctx w !! HdxTokens.oitIndexBufferBar) as [[| | |[i|]| |]|]; try done.
  destruct (ctx w !! HdxTokens.oitDataBufferBar) as [[| | |[d|]| |]|]; try done.
  destruct (ctx w !! HdxTokens.oitDepthBufferBar) as [[| | |[z|]| |]|]; try done.
  rewrite Hsh. cbn. eexists. reflexivity.
Qed.

(** ** [Execute], case by case *)

#[local] Arguments AddOitBufferBindings : simpl never.
#[local] Arguments renderPass_Execute : simpl never.

Lemma Execute_not_requested w :
  ctx w !! HdxTokens.oitRequestFlag = None -> Execute w = Some (tt, w).
Proof.
  intros H. unfold Execute, ctx_erase, mbind, M_bind. rewrite H. cbn.
  by rewrite (erase_absent _ _ H).
Qed.

Lemma Execute_no_state w :
  is_Some (ctx w !! HdxTokens.oitRequestFlag) ->
  _renderPassState (self w) = None ->
  Execute w =
    Some (tt, add_diagnostic (VerifyFailed "_renderPassState") (erase_flags w)).
Proof.
  intros [v H] Hst. unfold Execute, ctx_erase, mbind, M_bind. rewrite H. cbn.
  by rewrite Hst.
Qed.

Lemma Execute_no_shader w st :
  is_Some (ctx w !! HdxTokens.oitRequestFlag) ->
  _renderPassState (self w) = Some st ->
  _renderPassShader (self w) = None ->
  Execute w =
    Some (tt, add_diagnostic (VerifyFailed "_renderPassShader") (erase_flags w)).
Proof.
  intros [v H] Hst Hsh. unfold Execute, ctx_erase, mbind, M_bind. rewrite H. cbn.
  rewrite Hst. cbn. by rewrite Hsh.
Qed.

Lemma Execute_no_buffers w st sh :
  is_Some (ctx w !! HdxTokens.oitRequestFlag) ->
  _renderPassState (self w) = Some st ->
  _renderPassShader (self w) = Some sh ->
  oitBuffersPublished w = false ->
  Execute w = Some (tt, add_diagnostic no_oit_buffers (erase_flags w)).
Proof.
  intros [v H] Hst Hsh Hpub.
  unfold Execute, ctx_erase, mbind, M_bind. rewrite H. cbn.
  rewrite Hst. cbn. rewrite Hsh. cbn.
  rewrite <- erase_flags_published in Hpub.
  change (set_ctx _ (set_ctx _ w)) with (erase_flags w).
  by rewrite (AddOitBufferBindings_missing _ Hpub).
Qed.

Lemma Execute_draws w rp st sh :
  is_Some (ctx w !! HdxTokens.oitRequestFlag) ->
  _renderPass (self w) = Some rp ->
  _renderPassState (self w) = Some st ->
  _renderPassShader (self w) = Some sh ->
  oitBuffersPublished w = true ->
  exists sh',
    Execute w =
      Some (tt, set_submitted (submitted w ++ [mkDraw st sh' GetRenderTags])
                  (set_self (set_renderPassShader (Some sh') (self w))
                     (erase_flags w))).
Proof.
  intros [v H] Hrp Hst Hsh Hpub.
  unfold Execute, ctx_erase, mbind, M_bind. rewrite H. cbn.
  rewrite Hst. cbn. rewrite Hsh. cbn.
  rewrite <- erase_flags_published in Hpub.
  change (set_ctx _ (set_ctx _ w)) with (erase_flags w).
  destruct (AddOitBufferBindings_bound (erase_flags w) sh Hpub Hsh) as [sh' ->].
  cbn. exists sh'. unfold renderPass_Execute, member, gets, mbind, M_bind. cbn.
  rewrite Hrp. cbn. rewrite Hst. by cbn.
Qed.

(** ** [_PrepareOitBuffers], step by step *)

Lemma resize_at_length p n h : length (resize_at p n h) = length h.
Proof. destruct p; [apply length_alter | done]. Qed.

Lemma Resize_run p a n w :
  p = Some a -> (a < length (heap w))%nat ->
  Resize p n w = Some (tt, set_heap (resize_at p n (heap w)) w).
Proof.
  intros -> Ha. apply lookup_lt_is_Some in Ha as [r Hr].
  unfold Resize, mbind, M_bind. cbn. by rewrite Hr.
Qed.

Lemma allocate_run w :
  _counterBar (self w) = None ->
  ((p ← AllocateSingleBufferArrayRange HdxTokens.oitCounter
              [mkBufferSpec HdxTokens.hdxOitCounterBuffer (mkTupleType HdTypeInt32 1)];
        assign (set_counterBar p));;
       (p ← AllocateSingleBufferArrayRange HdxTokens.oitIndices
              [mkBufferSpec HdxTokens.hdxOitIndexBuffer (mkTupleType HdTypeInt32 1)];
        assign (set_indexBar p));;
       (p ← AllocateSingleBufferArrayRange HdxTokens.oitData
              [mkBufferSpec HdxTokens.hdxOitDataBuffer (mkTupleType HdTypeFloatVec4 1)];
        assign (set_dataBar p));;
       (p ← AllocateSingleBufferArrayRange HdxTokens.oitDepth
              [mkBufferSpec HdxTokens.hdxOitDepthBuffer (mkTupleType HdTypeFloat 1)];
        assign (set_depthBar p));;
       (p ← AllocateUniformBufferArrayRange HdxTokens.oitUniforms
              [mkBufferSpec HdxTokens.oitScreenSize (mkTupleType HdTypeInt32Vec2 1)];
        assign (set_uniformBar p))) w = Some (tt, allocated w).
Proof.
  intros Hc. unfold allocated. rewrite Hc. cbn.
  unfold mbind, M_bind, assign, modify. cbn.
  rewrite !length_app. cbn [length]. rewrite <- !app_assoc. cbn [app].
  rewrite <- !Nat.add_assoc. cbn [Nat.add].
  reflexivity.
Qed.

Lemma buffers_ok_inv w c :
  buffers_ok w = true -> _counterBar (self w) = Some c ->
  exists i d z u,
    _indexBar (self w) = Some i /\ _dataBar (self w) = Some d
    /\ _depthBar (self w) = Some z /\ _uniformBar (self w) = Some u
    /\ NoDup [c; i; d; z; u]
    /\ Forall (fun a => (a < length (heap w))%nat) [c; i; d; z; u].
Proof.
  unfold buffers_ok, bars. intros Hok Hc. rewrite Hc in Hok.
  destruct (_indexBar (self w)) as [i|]; [|done].
  destruct (_dataBar (self w)) as [d|]; [|done].
  destruct (_depthBar (self w)) as [z|]; [|done].
  destruct (_uniformBar (self w)) as [u|]; [|done].
  apply andb_true_iff in Hok as [Hnd Hall].
  apply bool_decide_eq_true in Hnd.
  exists i, d, z, u. split_and!; try done.
  apply Forall_forall. intros a Ha.
  rewrite forallb_forall in Hall. apply list_elem_of_In in Ha.
  specialize (Hall a Ha). by apply bool_decide_eq_true in Hall.
Qed.

Lemma allocated_buffers w :
  buffers_ok w = true ->
  exists c i d z u,
    bars (self (allocated w)) = [Some c; Some i; Some d; Some z; Some u]
    /\ NoDup [c; i; d; z; u]
    /\ Forall (fun a => (a < length (heap (allocated w)))%nat) [c; i; d; z; u].
Proof.
  intros Hok. unfold allocated.
  destruct (_counterBar (self w)) as [c|] eqn:Hc; cbn [is_null].
  - destruct (buffers_ok_inv w c Hok Hc) as (i & d & z & u & Hi & Hd & Hz & Hu & Hnd & Hlt).
    exists c, i, d, z, u. unfold bars. by rewrite Hc, Hi, Hd, Hz, Hu.
  - set (a := length (heap w)).
    exists a, (a + 1)%nat, (a + 2)%nat, (a + 3)%nat, (a + 4)%nat.
    split; [reflexivity |]. split.
    + repeat (apply NoDup_cons; split;
                [rewrite ?elem_of_cons, elem_of_nil; lia |]).
      apply NoDup_nil_2.
    + cbn. rewrite length_app. cbn. fold a.
      repeat (apply Forall_cons; split; [lia|]). apply Forall_nil_2.
Qed.

#[local] Arguments Resize : simpl never.
#[local] Arguments AddSource : simpl never.

Lemma PrepareOitBuffers_run s w :
  0 <= vec0 s -> 0 <= vec1 s -> buffers_ok w = true ->
  _PrepareOitBuffers s w = Some (tt, resized s (published (allocated w))).
Proof.
  intros H0 H1 Hok.
  assert (Hguard : (0 <=? vec0 s) && (0 <=? vec1 s) = true).
  { apply andb_true_iff. split; lia. }
  unfold _PrepareOitBuffers. rewrite Hguard. cbn [negb].
  rewrite (bind_run _ _ w (_counterBar (self w)) w) by reflexivity.
  rewrite (bind_run _ _ w tt (allocated w)).
  2:{ destruct (_counterBar (self w)) eqn:Hc; cbn [is_null].
      - unfold allocated. by rewrite Hc.
      - by apply allocate_run. }
  destruct (allocated_buffers w Hok) as (c & i & d & z & u & Hbars & Hnd & Hlt).
  generalize dependent (allocated w). clear w Hok. intros w Hbars Hlt.
  injection Hbars as Hc Hi Hd Hz Hu.
  unfold mbind, M_bind. cbn.
  unfold resized, grows. cbn.
  destruct ((vec0 (_screenSize (self w)) <? vec0 s)
            || (vec1 (_screenSize (self w)) <? vec1 s)); [| reflexivity].
  rewrite !Forall_cons in Hlt. destruct Hlt as (Lc & Li & Ld & Lz & Lu & _).
  cbn.
  rewrite (Resize_run _ c) by done. cbn.
  rewrite (Resize_run _ i) by (cbn; by rewrite ?resize_at_length). cbn.
  rewrite (Resize_run _ d) by (cbn; by rewrite ?resize_at_length). cbn.
  rewrite (Resize_run _ z) by (cbn; by rewrite ?resize_at_length). cbn.
  reflexivity.
Qed.

(** ** The buffers after a call *)

Lemma buffers_allocated_ok w : buffers_allocated w -> buffers_ok w = true.
Proof.
  intros (c & i & d & z & u & Hbars & Hnd & Hlt).
  unfold buffers_ok. rewrite Hbars.
  apply andb_true_iff. split; [by apply bool_decide_eq_true |].
  apply forallb_forall. intros a Ha. apply bool_decide_eq_true.
  rewrite Forall_forall in Hlt. apply Hlt. by apply list_elem_of_In.
Qed.

Lemma buffers_allocated_counter w :
  buffers_allocated w -> is_null (_counterBar (self w)) = false.
Proof.
  intros (c & i & d & z & u & Hbars & _). injection Hbars as -> _ _ _ _. done.
Qed.

Lemma allocated_id w :
  is_null (_counterBar (self w)) = false -> allocated w = w.
Proof. intros H. unfold allocated. by rewrite H. Qed.

Lemma allocated_screenSize w :
  _screenSize (self (allocated w)) = _screenSize (self w).
Proof. unfold allocated. by destruct (is_null _). Qed.

Lemma resize_at_lookup_ne p n h b :
  p ≠ Some b -> resize_at p n h !! b = h !! b.
Proof.
  destruct p as [a|]; [| done]. intros Hne. cbn.
  apply list_lookup_alter_ne. congruence.
Qed.

Lemma resize_at_lookup a n h :
  (a < length h)%nat ->
  numElements <$> resize_at (Some a) n h !! a = Some n.
Proof.
  intros Ha. apply lookup_lt_is_Some in Ha as [r Hr]. cbn.
  by rewrite list_lookup_alter_eq, Hr.
Qed.

Lemma published_lengths w : oitLengths (published w) = oitLengths w.
Proof. reflexivity. Qed.

Lemma prepared_allocated s w :
  buffers_ok w = true -> buffers_allocated (prepared s w).
Proof.
  intros Hok.
  destruct (allocated_buffers w Hok) as (c & i & d & z & u & Hbars & Hnd & Hlt).
  exists c, i, d, z, u. unfold prepared, resized.
  destruct (grows s _); cbn; [| done].
  split_and!; [done.. |]. by rewrite !resize_at_length.
Qed.

(** A call that resizes: the tracked size is the requested one, the four
    list buffers have the lengths computed from it, and a source with the
    requested size was added for the uniform range. *)
Lemma prepared_grows s w :
  buffers_ok w = true -> grows s w = true ->
  _screenSize (self (prepared s w)) = s
  /\ oitLengths (prepared s w) = oitSizes s
  /\ pending (prepared s w) =
       (_uniformBar (self (prepared s w)), screenSize_source s) :: pending w.
Proof.
  intros Hok Hgrows.
  destruct (allocated_buffers w Hok) as (c & i & d & z & u & Hbars & Hnd & Hlt).
  assert (Hg : grows s (published (allocated w)) = true).
  { unfold grows in *. cbn. by rewrite allocated_screenSize. }
  unfold prepared, resized. rewrite Hg.
  injection Hbars as Hc Hi Hd Hz Hu.
  rewrite !Forall_cons in Hlt. destruct Hlt as (Lc & Li & Ld & Lz & Lu & _).
  rewrite !NoDup_cons, !elem_of_cons, elem_of_nil in Hnd.
  split; [done |]. split.
  - unfold oitLengths, oitSizes, counterLength, indexLength, dataLength,
      depthLength, length_of. cbn. rewrite Hc, Hi, Hd, Hz.
    repeat f_equal.
    + rewrite !resize_at_lookup_ne by (intros [= ?]; intuition congruence).
      by apply resize_at_lookup.
    + rewrite !resize_at_lookup_ne by (intros [= ?]; intuition congruence).
      apply resize_at_lookup. by rewrite resize_at_length.
    + rewrite !resize_at_lookup_ne by (intros [= ?]; intuition congruence).
      apply resize_at_lookup. by rewrite !resize_at_length.
    + apply resize_at_lookup. by rewrite !resize_at_length.
  - unfold pending. cbn. unfold allocated.
    by destruct (is_null (_counterBar (self w))).
Qed.

(** A call that does not resize, on a task that has its buffers: the
    tracked size, the lengths and the sources are what they were. *)
Lemma prepared_keeps s w :
  is_null (_counterBar (self w)) = false -> grows s w = false ->
  _screenSize (self (prepared s w)) = _screenSize (self w)
  /\ oitLengths (prepared s w) = oitLengths w
  /\ pending (prepared s w) = pending w.
Proof.
  intros Hc Hgrows. unfold prepared. rewrite (allocated_id w Hc).
  unfold resized.
  assert (Hg : grows s (published w) = false) by done.
  by rewrite Hg.
Qed.

Lemma to_int_in_range z : Int.in_range z -> Int.to_int z = z.
Proof.
  unfold Int.in_range, Int.min_signed, Int.max_signed, Int.to_int. intros H.
  rewrite Z.mod_small; lia.
Qed.

(** Without overflow the lengths [_PrepareOitBuffers] computes are
    [w*h + 1] and [w*h*numSamples]. *)
Lemma oitSizes_exact s :
  0 <= vec0 s -> 0 <= vec1 s ->
  vec0 s * vec1 s * numSamples <= Int.max_signed ->
  counterSize s = vec0 s * vec1 s + 1
  /\ sampleSize s = vec0 s * vec1 s * numSamples.
Proof.
  unfold counterSize, sampleSize, Int.add, Int.mul, numSamples, Int.max_signed.
  intros H0 H1 Hmax.
  assert (0 <= vec0 s * vec1 s) by nia.
  rewrite (to_int_in_range (vec0 s * vec1 s))
    by (unfold Int.in_range, Int.min_signed, Int.max_signed; lia).
  split; apply to_int_in_range;
    unfold Int.in_range, Int.min_signed, Int.max_signed; lia.
Qed.

(** Without overflow the lengths grow with the screen size. *)
Lemma oitSizes_monotone s1 s2 :
  0 <= vec0 s1 <= vec0 s2 -> 0 <= vec1 s1 <= vec1 s2 ->
  vec0 s2 * vec1 s2 * numSamples <= Int.max_signed ->
  counterSize s1 <= counterSize s2 /\ sampleSize s1 <= sampleSize s2.
Proof.
  intros H0 H1 Hmax.
  assert (Hle : vec0 s1 * vec1 s1 <= vec0 s2 * vec1 s2) by nia.
  assert (Hmax1 : vec0 s1 * vec1 s1 * numSamples <= Int.max_signed)
    by (unfold numSamples in *; lia).
  destruct (oitSizes_exact s1) as [-> ->]; [lia | lia | done |].
  destruct (oitSizes_exact s2) as [-> ->]; [lia | lia | done |].
  unfold numSamples. lia.
Qed.

Lemma grows_iff s w :
  grows s w = true <->
  vec0 (_screenSize (self w)) < vec0 s \/ vec1 (_screenSize (self w)) < vec1 s.
Proof. unfold grows. rewrite orb_true_iff, !Z.ltb_lt. done. Qed.

Lemma grows_false_iff s w :
  grows s w = false <->
  vec0 s <= vec0 (_screenSize (self w)) /\ vec1 s <= vec1 (_screenSize (self w)).
Proof. unfold grows. rewrite orb_false_iff, !Z.ltb_ge. done. Qed.

(** ** Resizing *)

(** C4 (as amended). A call of [_PrepareOitBuffers] with a non-negative
    requested size whose width exceeds the tracked width, or whose height
    exceeds the tracked height, sets the tracked size to the requested size
    (not to a component-wise maximum), resizes the counter, index, data and
    depth buffers to the lengths computed from the requested size, and adds
    a source that rewrites the screen size of the uniform range. *)
Theorem PrepareOitBuffers_resize (s : GfVec2i) (w : World) :
  buffers_ok w = true ->
  0 <= vec0 s -> 0 <= vec1 s ->
  vec0 (_screenSize (self w)) < vec0 s \/ vec1 (_screenSize (self w)) < vec1 s ->
  exists w',
    _PrepareOitBuffers s w = Some (tt, w')
    /\ buffers_allocated w'
    /\ _screenSize (self w') = s
    /\ oitLengths w' = oitSizes s
    /\ pending w' = (_uniformBar (self w'), screenSize_source s) :: pending w.
Proof.
  intros Hok H0 H1 Hgrows. apply grows_iff in Hgrows.
  exists (prepared s w). split; [by apply PrepareOitBuffers_run |].
  split; [by apply prepared_allocated |].
  by apply prepared_grows.
Qed.

Lemma PrepareOitBuffers_resize_witness :
  exists w',
    _PrepareOitBuffers (mkVec2i 1920 1080)
      (new_world "/oitResolve" ∅ HdSt_index) = Some (tt, w')
    /\ buffers_allocated w'
    /\ _screenSize (self w') = mkVec2i 1920 1080
    /\ oitLengths w' = [Some 2073601; Some 16588800; Some 16588800; Some 16588800]
    /\ pending w' =
         [(_uniformBar (self w'), screenSize_source (mkVec2i 1920 1080))].
Proof.
  apply (PrepareOitBuffers_resize (mkVec2i 1920 1080)
           (new_world "/oitResolve" ∅ HdSt_index)).
  - reflexivity.
  - cbn. lia.
  - cbn. lia.
  - left. cbn. lia.
Defined.

(** The tracked size after a resize is the requested size even where that is
    smaller than the tracked one in the other component, and a request with a
    negative component does not resize at all. *)
Lemma tracked_size_is_not_the_maximum :
  exists w1 w2 w3,
    _PrepareOitBuffers (mkVec2i 100 50)
      (new_world "/oitResolve" ∅ HdSt_index) = Some (tt, w1)
    /\ _screenSize (self w1) = mkVec2i 100 50
    /\ _PrepareOitBuffers (mkVec2i 50 100) w1 = Some (tt, w2)
    /\ _screenSize (self w2) = mkVec2i 50 100
    /\ _screenSize (self w2) <> mkVec2i (100 `max` 50) (50 `max` 100)
    /\ counterLength w2 = Some 5001
    /\ counterLength w2 <> Some ((100 `max` 50) * (50 `max` 100) + 1)
    /\ _PrepareOitBuffers (mkVec2i 5 (-1))
         (new_world "/oitResolve" ∅ HdSt_index) = Some (tt, w3)
    /\ _screenSize (self w3) = mkVec2i 0 0
    /\ heap w3 = []
    /\ pending w3 = [].
Proof.
  do 3 eexists.
  split; [vm_compute; reflexivity |].
  split; [reflexivity |].
  split; [vm_compute; reflexivity |].
  split; [reflexivity |].
  split; [discriminate |].
  split; [reflexivity |].
  split; [discriminate |].
  split; [vm_compute; reflexivity |].
  done.
Qed.

(** C1 (as amended). After a call of [_PrepareOitBuffers] that resizes, with
    a requested size [(w, h)] for which [w*h*numSamples] fits in an [int],
    the counter buffer has exactly [w*h + 1] elements and the index, data and
    depth buffers have exactly [w*h*8] each; for (100, 50) that is 5001 and
    40000. *)
Theorem PrepareOitBuffers_lengths (s : GfVec2i) (w : World) :
  buffers_ok w = true ->
  0 <= vec0 s -> 0 <= vec1 s ->
  vec0 (_screenSize (self w)) < vec0 s \/ vec1 (_screenSize (self w)) < vec1 s ->
  vec0 s * vec1 s * numSamples <= Int.max_signed ->
  exists w',
    _PrepareOitBuffers s w = Some (tt, w')
    /\ counterLength w' = Some (vec0 s * vec1 s + 1)
    /\ indexLength w' = Some (vec0 s * vec1 s * 8)
    /\ dataLength w' = Some (vec0 s * vec1 s * 8)
    /\ depthLength w' = Some (vec0 s * vec1 s * 8).
Proof.
  intros Hok H0 H1 Hgrows Hmax. apply grows_iff in Hgrows.
  destruct (prepared_grows s w Hok Hgrows) as (_ & Hlen & _).
  destruct (oitSizes_exact s H0 H1 Hmax) as [Hc Hs].
  exists (prepared s w). split; [by apply PrepareOitBuffers_run |].
  unfold oitLengths, oitSizes in Hlen. rewrite Hc, Hs in Hlen.
  by injection Hlen as -> -> -> ->.
Qed.

Lemma PrepareOitBuffers_lengths_witness :
  exists w',
    _PrepareOitBuffers (mkVec2i 100 50)
      (new_world "/oitResolve" ∅ HdSt_index) = Some (tt, w')
    /\ counterLength w' = Some 5001
    /\ indexLength w' = Some 40000
    /\ dataLength w' = Some 40000
    /\ depthLength w' = Some 40000.
Proof.
  apply (PrepareOitBuffers_lengths (mkVec2i 100 50)
           (new_world "/oitResolve" ∅ HdSt_index)).
  - reflexivity.
  - cbn. lia.
  - cbn. lia.
  - left. cbn. lia.
  - by vm_compute.
Defined.

(** For a 16384 x 16384 screen, [newBufferSize * numSamples] is [2^31] and
    does not fit in an [int]: the index buffer is not resized to
    [w*h*8]. *)
Lemma sample_length_overflows :
  exists w',
    _PrepareOitBuffers (mkVec2i 16384 16384)
      (new_world "/oitResolve" ∅ HdSt_index) = Some (tt, w')
    /\ _screenSize (self w') = mkVec2i 16384 16384
    /\ counterLength w' = Some (16384 * 16384 + 1)
    /\ indexLength w' = Some (-2147483648)
    /\ indexLength w' <> Some (16384 * 16384 * 8).
Proof.
  eexists. split; [vm_compute; reflexivity |].
  split; [reflexivity |].
  split; [reflexivity |].
  split; [reflexivity |].
  discriminate.
Qed.

(** ** Two calls in a row *)

Lemma new_task_buffers_ok w : _counterBar (self w) = None -> buffers_ok w = true.
Proof. intros H. unfold buffers_ok, bars. by rewrite H. Qed.

(** On a new task, for non-negative [s1 <= s2] with [s2] not (0, 0), both
    orders of the two calls end with the lengths computed from [s2]. *)
Lemma PrepareOitBuffers_order_sizes (s1 s2 : GfVec2i) (w : World) :
  _counterBar (self w) = None ->
  _screenSize (self w) = mkVec2i 0 0 ->
  0 <= vec0 s1 <= vec0 s2 ->
  0 <= vec1 s1 <= vec1 s2 ->
  0 < vec0 s2 \/ 0 < vec1 s2 ->
  (exists w1 w2,
      _PrepareOitBuffers s1 w = Some (tt, w1)
      /\ _PrepareOitBuffers s2 w1 = Some (tt, w2)
      /\ oitLengths w2 = oitSizes s2)
  /\ (exists w1 w2,
        _PrepareOitBuffers s2 w = Some (tt, w1)
        /\ _PrepareOitBuffers s1 w1 = Some (tt, w2)
        /\ oitLengths w1 = oitSizes s2
        /\ oitLengths w2 = oitSizes s2).
Proof.
  intros Hnew Hzero [H10 H12] [H11 H13] Hpos.
  pose proof (new_task_buffers_ok w Hnew) as Hok.
  assert (Hg2 : grows s2 w = true).
  { apply grows_iff. rewrite Hzero. cbn. lia. }
  split.
  - exists (prepared s1 w), (prepared s2 (prepared s1 w)).
    pose proof (prepared_allocated s1 w Hok) as Halloc.
    pose proof (buffers_allocated_ok _ Halloc) as Hok1.
    split; [apply PrepareOitBuffers_run; [lia | lia | done] |].
    split; [apply PrepareOitBuffers_run; [lia | lia | done] |].
    destruct (grows s2 (prepared s1 w)) eqn:Hg; [by apply prepared_grows |].
    (* the second call does not resize: the first one did, with s1 = s2 *)
    destruct (prepared_keeps s2 (prepared s1 w)
                (buffers_allocated_counter _ Halloc) Hg) as (_ & -> & _).
    apply grows_false_iff in Hg.
    destruct (grows s1 w) eqn:Hg1.
    + destruct (prepared_grows s1 w Hok Hg1) as (Hs & Hlen & _).
      rewrite Hs in Hg. rewrite Hlen.
      assert (s1 = s2) as ->; [| done].
      destruct s1, s2; cbn in *. f_equal; lia.
    + exfalso. apply grows_false_iff in Hg1. rewrite Hzero in Hg1. cbn in Hg1.
      unfold prepared, resized in Hg.
      assert (Hg' : grows s1 (published (allocated w)) = false).
      { apply grows_false_iff. cbn. rewrite allocated_screenSize, Hzero. done. }
      rewrite Hg' in Hg. cbn in Hg. rewrite allocated_screenSize, Hzero in Hg.
      cbn in Hg. lia.
  - exists (prepared s2 w), (prepared s1 (prepared s2 w)).
    pose proof (prepared_allocated s2 w Hok) as Halloc.
    pose proof (buffers_allocated_ok _ Halloc) as Hok1.
    destruct (prepared_grows s2 w Hok Hg2) as (Hs & Hlen & _).
    split; [apply PrepareOitBuffers_run; [lia | lia | done] |].
    split; [apply PrepareOitBuffers_run; [lia | lia | done] |].
    split; [done |].
    assert (Hg : grows s1 (prepared s2 w) = false).
    { apply grows_false_iff. rewrite Hs. lia. }
    destruct (prepared_keeps s1 (prepared s2 w)
                (buffers_allocated_counter _ Halloc) Hg) as (_ & -> & _).
    done.
Qed.

(** The buffers of a new task after a call that does not resize: they have
    the number of elements they were allocated with. *)
Lemma new_task_unresized_lengths s w :
  _counterBar (self w) = None ->
  grows s w = false ->
  oitLengths (prepared s w) =
    replicate 4 (Some (newRangeElements (resourceRegistry (renderIndex w)))).
Proof.
  intros Hnew Hg.
  assert (Hg' : grows s (published (allocated w)) = false).
  { rewrite <- Hg. unfold grows. cbn. by rewrite allocated_screenSize. }
  unfold prepared, resized. rewrite Hg'.
  unfold allocated. rewrite Hnew. cbn.
  unfold oitLengths, counterLength, indexLength, dataLength, depthLength,
    length_of. cbn.
  rewrite !lookup_app_r by lia.
  replace (length (heap w) - length (heap w))%nat with 0%nat by lia.
  replace (length (heap w) + 1 - length (heap w))%nat with 1%nat by lia.
  replace (length (heap w) + 2 - length (heap w))%nat with 2%nat by lia.
  replace (length (heap w) + 3 - length (heap w))%nat with 3%nat by lia.
  reflexivity.
Qed.

Lemma exactSizes_oitSizes s :
  0 <= vec0 s -> 0 <= vec1 s ->
  vec0 s * vec1 s * numSamples <= Int.max_signed ->
  oitSizes s = exactSizes s.
Proof.
  intros H0 H1 Hmax. destruct (oitSizes_exact s H0 H1 Hmax) as [Hc Hs].
  unfold oitSizes, exactSizes. by rewrite Hc, Hs.
Qed.

Lemma exactSizes_not_shorter s1 s2 :
  0 <= vec0 s1 <= vec0 s2 -> 0 <= vec1 s1 <= vec1 s2 ->
  Forall2 not_shorter (exactSizes s1) (exactSizes s2).
Proof.
  intros H0 H1.
  assert (vec0 s1 * vec1 s1 <= vec0 s2 * vec1 s2) by nia.
  unfold exactSizes, not_shorter.
  repeat (constructor; [eexists _, _; split_and!; [done | done | lia] |]).
  constructor.
Qed.

(** C3 (as amended). On a task that was just constructed, for non-negative
    screen sizes [s1 <= s2] (component-wise) where [s2] is not (0, 0) and
    [w2*h2*numSamples] fits in an [int]: preparing with [s1] then [s2] leaves
    the four buffers with exactly [w2*h2 + 1] and [w2*h2*8] elements, and so
    does preparing with [s2] then [s1].  The lengths never shrink across
    the two calls: in the second order the second call keeps the lengths of
    the first; in the first order the first call leaves [w1*h1 + 1] and
    [w1*h1*8] when [s1] is not (0, 0), and no buffer is shorter after the
    second call than after the first (for [s1] = (0, 0), where the first
    call resizes nothing, as long as a range is allocated without
    elements). *)
Theorem PrepareOitBuffers_order (s1 s2 : GfVec2i) (w : World) :
  _counterBar (self w) = None ->
  _screenSize (self w) = mkVec2i 0 0 ->
  0 <= vec0 s1 <= vec0 s2 ->
  0 <= vec1 s1 <= vec1 s2 ->
  0 < vec0 s2 \/ 0 < vec1 s2 ->
  vec0 s2 * vec1 s2 * numSamples <= Int.max_signed ->
  (exists w1 w2,
      _PrepareOitBuffers s1 w = Some (tt, w1)
      /\ _PrepareOitBuffers s2 w1 = Some (tt, w2)
      /\ oitLengths w2 = exactSizes s2
      /\ (0 < vec0 s1 \/ 0 < vec1 s1 -> oitLengths w1 = exactSizes s1)
      /\ (0 < vec0 s1 \/ 0 < vec1 s1
          \/ newRangeElements (resourceRegistry (renderIndex w)) <= 0 ->
          Forall2 not_shorter (oitLengths w1) (oitLengths w2)))
  /\ (exists w1 w2,
        _PrepareOitBuffers s2 w = Some (tt, w1)
        /\ _PrepareOitBuffers s1 w1 = Some (tt, w2)
        /\ oitLengths w1 = exactSizes s2
        /\ oitLengths w2 = exactSizes s2
        /\ Forall2 not_shorter (oitLengths w1) (oitLengths w2)).
Proof.
  intros Hnew Hzero H0 H1 Hpos Hmax.
  pose proof (new_task_buffers_ok w Hnew) as Hok.
  assert (Hexact2 : oitSizes s2 = exactSizes s2)
    by (apply exactSizes_oitSizes; [lia | lia | done]).
  assert (Hmax1 : vec0 s1 * vec1 s1 * numSamples <= Int.max_signed).
  { assert (vec0 s1 * vec1 s1 <= vec0 s2 * vec1 s2) by nia.
    unfold numSamples in *. lia. }
  assert (Hexact1 : oitSizes s1 = exactSizes s1)
    by (apply exactSizes_oitSizes; [lia | lia | done]).
  destruct (PrepareOitBuffers_order_sizes s1 s2 w Hnew Hzero H0 H1 Hpos)
    as [(w1 & w2 & Hrun1 & Hrun2 & Hlen2) (v1 & v2 & Hrun1' & Hrun2' & Hlen1' & Hlen2')].
  assert (Hw1 : w1 = prepared s1 w).
  { rewrite PrepareOitBuffers_run in Hrun1; [| lia | lia | done].
    by injection Hrun1 as <-. }
  split.
  - exists w1, w2. split; [done |]. split; [done |].
    rewrite Hlen2, Hexact2. split; [done |].
    assert (Hfirst : 0 < vec0 s1 \/ 0 < vec1 s1 -> oitLengths w1 = exactSizes s1).
    { intros Hpos1. rewrite Hw1, <- Hexact1.
      apply prepared_grows; [done |].
      apply grows_iff. by rewrite Hzero. }
    split; [done |].
    intros [Hp | [Hp | Hnone]].
    + rewrite Hfirst by auto. by apply exactSizes_not_shorter.
    + rewrite Hfirst by auto. by apply exactSizes_not_shorter.
    + destruct (decide (0 < vec0 s1 \/ 0 < vec1 s1)) as [Hp | Hz].
      { rewrite Hfirst by auto. by apply exactSizes_not_shorter. }
      assert (Hg : grows s1 w = false).
      { apply grows_false_iff. rewrite Hzero. cbn. lia. }
      rewrite Hw1, (new_task_unresized_lengths s1 w Hnew Hg).
      assert (0 <= vec0 s2 * vec1 s2) by nia.
      unfold exactSizes, not_shorter. cbn.
      repeat (constructor; [eexists _, _; split_and!; [done | done | lia] |]).
      constructor.
  - exists v1, v2. split; [done |]. split; [done |].
    rewrite Hlen1', Hlen2', Hexact2. split; [done |]. split; [done |].
    apply exactSizes_not_shorter; lia.
Qed.

Lemma PrepareOitBuffers_order_witness :
  (exists w1 w2,
      _PrepareOitBuffers (mkVec2i 640 480)
        (new_world "/oitResolve" ∅ HdSt_index) = Some (tt, w1)
      /\ _PrepareOitBuffers (mkVec2i 1920 1080) w1 = Some (tt, w2)
      /\ oitLengths w2 = exactSizes (mkVec2i 1920 1080)
      /\ (0 < 640 \/ 0 < 480 -> oitLengths w1 = exactSizes (mkVec2i 640 480))
      /\ (0 < 640 \/ 0 < 480 \/ 0 <= 0 ->
          Forall2 not_shorter (oitLengths w1) (oitLengths w2)))
  /\ (exists w1 w2,
        _PrepareOitBuffers (mkVec2i 1920 1080)
          (new_world "/oitResolve" ∅ HdSt_index) = Some (tt, w1)
        /\ _PrepareOitBuffers (mkVec2i 640 480) w1 = Some (tt, w2)
        /\ oitLengths w1 = exactSizes (mkVec2i 1920 1080)
        /\ oitLengths w2 = exactSizes (mkVec2i 1920 1080)
        /\ Forall2 not_shorter (oitLengths w1) (oitLengths w2)).
Proof.
  apply (PrepareOitBuffers_order (mkVec2i 640 480) (mkVec2i 1920 1080)
           (new_world "/oitResolve" ∅ HdSt_index)).
  - reflexivity.
  - reflexivity.
  - cbn. lia.
  - cbn. lia.
  - left. cbn. lia.
  - by vm_compute.
Defined.

(** The lengths do not follow [s2] at two edges.  With (0, 0) twice no call
    resizes, and the counter buffer does not get [0*0 + 1] elements.  With
    (16384, 8192) then (16384, 16384) the second [newBufferSize *
    numSamples] is [2^31], which is no [int]: the index buffer goes from
    1073741824 elements to a negative number, not to [w*h*8]. *)
Lemma lengths_from_the_larger_size_fail_at_the_edges :
  (exists w1 w2,
      _PrepareOitBuffers (mkVec2i 0 0)
        (new_world "/oitResolve" ∅ HdSt_index) = Some (tt, w1)
      /\ _PrepareOitBuffers (mkVec2i 0 0) w1 = Some (tt, w2)
      /\ oitLengths w2 = [Some 0; Some 0; Some 0; Some 0]
      /\ oitSizes (mkVec2i 0 0) = [Some 1; Some 0; Some 0; Some 0]
      /\ oitLengths w2 <> oitSizes (mkVec2i 0 0))
  /\ (exists w1 w2,
        _PrepareOitBuffers (mkVec2i 16384 8192)
          (new_world "/oitResolve" ∅ HdSt_index) = Some (tt, w1)
        /\ _PrepareOitBuffers (mkVec2i 16384 16384) w1 = Some (tt, w2)
        /\ indexLength w1 = Some 1073741824
        /\ indexLength w2 = Some (-2147483648)
        /\ indexLength w2 <> Some (16384 * 16384 * 8)
        /\ ~ not_shorter (indexLength w1) (indexLength w2)).
Proof.
  split.
  - do 2 eexists.
    split; [vm_compute; reflexivity |].
    split; [vm_compute; reflexivity |].
    split; [reflexivity |].
    split; [reflexivity |].
    discriminate.
  - do 2 eexists.
    split; [vm_compute; reflexivity |].
    split; [vm_compute; reflexivity |].
    split; [reflexivity |].
    split; [reflexivity |].
    split; [discriminate |].
    intros (n & n' & Hn & Hn' & Hle).
    injection Hn as <-. injection Hn' as <-. lia.
Qed.

(** With the screen size (0, 0) twice, no call resizes: the buffers keep the
    number of elements they were allocated with, which for the counter
    buffer is not [0*0 + 1]. *)
Lemma empty_screen_is_never_resized :
  exists w1 w2,
    _PrepareOitBuffers (mkVec2i 0 0)
      (new_world "/oitResolve" ∅ HdSt_index) = Some (tt, w1)
    /\ _PrepareOitBuffers (mkVec2i 0 0) w1 = Some (tt, w2)
    /\ oitLengths w2 = [Some 0; Some 0; Some 0; Some 0]
    /\ oitSizes (mkVec2i 0 0) = [Some 1; Some 0; Some 0; Some 0]
    /\ oitLengths w2 <> oitSizes (mkVec2i 0 0).
Proof.
  do 2 eexists.
  split; [vm_compute; reflexivity |].
  split; [vm_compute; reflexivity |].
  split; [reflexivity |].
  split; [reflexivity |].
  discriminate.
Qed.

(** Whatever number of elements [n] the allocator gives a new range, after
    the screen size (0, 0) the four buffers have [n] elements each: not 1
    for the counter buffer and 0 for the others. *)
Lemma empty_screen_lengths id c r :
  exists w1 w2,
    _PrepareOitBuffers (mkVec2i 0 0) (new_world id c r) = Some (tt, w1)
    /\ _PrepareOitBuffers (mkVec2i 0 0) w1 = Some (tt, w2)
    /\ oitLengths w2 =
         replicate 4 (Some (newRangeElements (resourceRegistry r))).
Proof.
  exists (prepared (mkVec2i 0 0) (new_world id c r)),
    (prepared (mkVec2i 0 0) (prepared (mkVec2i 0 0) (new_world id c r))).
  split; [by apply PrepareOitBuffers_run |].
  split; [by apply PrepareOitBuffers_run |].
  reflexivity.
Qed.

(** ** Publishing the buffers *)

Lemma resized_ctx s w : ctx (resized s w) = ctx w.
Proof. unfold resized. by destruct (grows s w). Qed.

Lemma resized_bars s w : bars (self (resized s w)) = bars (self w).
Proof. unfold resized. by destruct (grows s w). Qed.

(** C8. On every call of [_PrepareOitBuffers] within its precondition, a
    non-negative screen size, the task context holds afterwards, under the
    five well-known keys, the references to the counter, index, data, depth
    and uniform ranges of the task, each of them an allocated range. *)
Theorem PrepareOitBuffers_publishes (s : GfVec2i) (w : World) :
  buffers_ok w = true ->
  0 <= vec0 s -> 0 <= vec1 s ->
  exists w',
    _PrepareOitBuffers s w = Some (tt, w')
    /\ buffers_allocated w'
    /\ ctx w' !! HdxTokens.oitCounterBufferBar = Some (VtBar (_counterBar (self w')))
    /\ ctx w' !! HdxTokens.oitIndexBufferBar = Some (VtBar (_indexBar (self w')))
    /\ ctx w' !! HdxTokens.oitDataBufferBar = Some (VtBar (_dataBar (self w')))
    /\ ctx w' !! HdxTokens.oitDepthBufferBar = Some (VtBar (_depthBar (self w')))
    /\ ctx w' !! HdxTokens.oitUniformBar = Some (VtBar (_uniformBar (self w'))).
Proof.
  intros Hok H0 H1. exists (prepared s w).
  split; [by apply PrepareOitBuffers_run |].
  split; [by apply prepared_allocated |].
  unfold prepared. rewrite resized_ctx.
  pose proof (resized_bars s (published (allocated w))) as Hbars.
  injection Hbars as -> -> -> -> ->. cbn.
  split_and!; by simplify_map_eq.
Qed.

Lemma PrepareOitBuffers_publishes_witness :
  exists w',
    _PrepareOitBuffers (mkVec2i 1920 1080)
      (new_world "/oitResolve" ∅ HdSt_index) = Some (tt, w')
    /\ buffers_allocated w'
    /\ ctx w' !! HdxTokens.oitCounterBufferBar = Some (VtBar (_counterBar (self w')))
    /\ ctx w' !! HdxTokens.oitIndexBufferBar = Some (VtBar (_indexBar (self w')))
    /\ ctx w' !! HdxTokens.oitDataBufferBar = Some (VtBar (_dataBar (self w')))
    /\ ctx w' !! HdxTokens.oitDepthBufferBar = Some (VtBar (_depthBar (self w')))
    /\ ctx w' !! HdxTokens.oitUniformBar = Some (VtBar (_uniformBar (self w'))).
Proof.
  apply (PrepareOitBuffers_publishes (mkVec2i 1920 1080)
           (new_world "/oitResolve" ∅ HdSt_index)).
  - reflexivity.
  - cbn. lia.
  - cbn. lia.
Defined.

(** Outside the precondition, a call with a negative width publishes
    nothing: the task context of a new frame stays empty. *)
Lemma invalid_size_publishes_nothing :
  exists w',
    _PrepareOitBuffers (mkVec2i (-1) 0)
      (new_world "/oitResolve" ∅ HdSt_index) = Some (tt, w')
    /\ ctx w' = ∅
    /\ ctx w' !! HdxTokens.oitCounterBufferBar = None
    /\ ctx w' !! HdxTokens.oitIndexBufferBar = None
    /\ ctx w' !! HdxTokens.oitDataBufferBar = None
    /\ ctx w' !! HdxTokens.oitDepthBufferBar = None
    /\ ctx w' !! HdxTokens.oitUniformBar = None.
Proof.
  eexists. split; [vm_compute; reflexivity |]. done.
Qed.

(** ** [Prepare], step by step *)

#[local] Arguments _PrepareOitBuffers : simpl never.
#[local] Arguments Prepare_init : simpl never.
#[local] Arguments Prepare_screenSize : simpl never.
#[local] Arguments _PrepareAovBindings : simpl never.

Lemma Prepare_not_requested w :
  ctx w !! HdxTokens.oitRequestFlag = None -> Prepare w = Some (tt, w).
Proof.
  intros H. unfold Prepare, ctx_contains, gets, mbind, M_bind. by rewrite H.
Qed.

Lemma Prepare_init_ready w :
  is_null (_renderPass (self w)) = false -> Prepare_init w = Some (true, w).
Proof.
  intros H. unfold Prepare_init, member, gets, mbind, M_bind. by rewrite H.
Qed.

Lemma Prepare_init_HdSt w :
  is_null (_renderPass (self w)) = true ->
  is_HdSt (renderDelegate (renderIndex w)) = true ->
  Prepare_init w = Some (true, initialized w).
Proof.
  intros H Hd. unfold Prepare_init, member, gets, mbind, M_bind.
  rewrite H, Hd. reflexivity.
Qed.

Lemma Prepare_init_unsupported w :
  is_null (_renderPass (self w)) = true ->
  is_HdSt (renderDelegate (renderIndex w)) = false ->
  Prepare_init w = Some (false, add_diagnostic unsupported_backend w).
Proof.
  intros H Hd. unfold Prepare_init, member, gets, mbind, M_bind.
  rewrite H, Hd. reflexivity.
Qed.

Lemma Prepare_init_run w :
  is_null (_renderPass (self w)) = false
  \/ is_HdSt (renderDelegate (renderIndex w)) = true ->
  Prepare_init w = Some (true, ready w).
Proof.
  intros H. unfold ready.
  destruct (is_null (_renderPass (self w))) eqn:Hnull.
  - destruct H as [H | H]; [done |]. by apply Prepare_init_HdSt.
  - by apply Prepare_init_ready.
Qed.

Lemma PrepareAovBindings_run w :
  is_Some (_renderPassState (self w)) ->
  _PrepareAovBindings w = Some (tt, bound_aovs w).
Proof.
  intros [st Hst].
  unfold _PrepareAovBindings, on_renderPassState, bound_aovs, ctx_aovBindings,
    member, gets, mbind, M_bind.
  rewrite Hst. cbn.
  by destruct (ctx w !! HdxTokens.aovBindings) as [[]|].
Qed.

Lemma bound_aovs_state w :
  is_Some (_renderPassState (self w)) ->
  exists st,
    _renderPassState (self (bound_aovs w)) = Some st
    /\ GetAovBindings st = map (set_clearValue VtEmpty) (ctx_aovBindings w).
Proof.
  intros [st Hst]. unfold bound_aovs. rewrite Hst. cbn. by eexists.
Qed.

Lemma Prepare_screenSize_run w :
  is_Some (_renderPassState (self w)) -> aov_ok w = true ->
  Prepare_screenSize (bound_aovs w) =
    Some (requested_size w, warned (bound_aovs w)).
Proof.
  intros Hst Hok.
  destruct (bound_aovs_state w Hst) as (st & Hst' & Haov).
  assert (Hctx : ctx_aovBindings (bound_aovs w) = ctx_aovBindings w).
  { unfold bound_aovs. by destruct (_renderPassState (self w)). }
  assert (Hsize : _screenSize (self (bound_aovs w)) = _screenSize (self w)).
  { unfold bound_aovs. by destruct (_renderPassState (self w)). }
  unfold Prepare_screenSize, member, gets, mbind, M_bind.
  rewrite Hst'. cbn. rewrite Haov.
  unfold requested_size, warned, aov_ok in *. rewrite Hctx.
  destruct (ctx_aovBindings w) as [| front rest]; cbn.
  - unfold fallback_warning. rewrite Hsize.
    destruct (vec0 (_screenSize (self w)) =? oitScreenSizeFallback); cbn.
    + by rewrite app_nil_r; destruct (bound_aovs w).
    + reflexivity.
  - destruct front as [name [b|] clear]; cbn in *; [reflexivity | done].
Qed.

Lemma ready_state w :
  is_null (_renderPass (self w)) = true \/ pass_ok w = true ->
  is_Some (_renderPassState (self (ready w))).
Proof.
  unfold pass_ok, ready. intros Hok.
  destruct (is_null (_renderPass (self w))); cbn; [by eexists |].
  destruct Hok as [Hok | Hok]; [done |].
  apply andb_true_iff in Hok as [H1 _]. apply bool_decide_eq_true in H1.
  by destruct (_renderPassState (self w)).
Qed.

Lemma erase_cleared_aovBindings w :
  ctx_aovBindings (erase_cleared w) = ctx_aovBindings w.
Proof. unfold ctx_aovBindings. cbn. by rewrite lookup_delete_ne. Qed.

Lemma ready_ctx w : ctx (ready w) = ctx w.
Proof. unfold ready. by destruct (is_null _). Qed.

Lemma ready_screenSize w : _screenSize (self (ready w)) = _screenSize (self w).
Proof. unfold ready. by destruct (is_null _). Qed.

(** The world [Prepare] hands to [_PrepareOitBuffers]. *)
Lemma Prepare_run w :
  is_Some (ctx w !! HdxTokens.oitRequestFlag) ->
  is_null (_renderPass (self w)) = false
  \/ is_HdSt (renderDelegate (renderIndex w)) = true ->
  is_null (_renderPass (self w)) = true \/ pass_ok w = true ->
  aov_ok w = true ->
  Prepare w =
    _PrepareOitBuffers (requested_size w)
      (warned (bound_aovs (ready (erase_cleared w)))).
Proof.
  intros [v Hreq] Hinit Hpass Haov.
  set (w1 := erase_cleared w).
  assert (Hst : is_Some (_renderPassState (self (ready w1)))) by by apply ready_state.
  assert (Haovs : ctx_aovBindings (ready w1) = ctx_aovBindings w).
  { unfold ctx_aovBindings. rewrite ready_ctx. apply erase_cleared_aovBindings. }
  assert (Haov1 : aov_ok (ready w1) = true).
  { unfold aov_ok in *. by rewrite Haovs. }
  assert (Hsize : requested_size (ready w1) = requested_size w).
  { unfold requested_size. by rewrite Haovs. }
  unfold Prepare, ctx_contains, ctx_erase, gets, mbind, M_bind. rewrite Hreq. cbn.
  change (set_ctx _ w) with w1.
  rewrite (Prepare_init_run w1) by done. cbn.
  rewrite (PrepareAovBindings_run _ Hst).
  rewrite (Prepare_screenSize_run _ Hst Haov1).
  by rewrite Hsize.
Qed.

(** ** What [_PrepareOitBuffers] leaves alone *)

Lemma prepared_frame s w :
  _renderPass (self (prepared s w)) = _renderPass (self w)
  /\ _renderPassState (self (prepared s w)) = _renderPassState (self w)
  /\ _renderPassShader (self (prepared s w)) = _renderPassShader (self w)
  /\ diagnostics (prepared s w) = diagnostics w
  /\ submitted (prepared s w) = submitted w.
Proof.
  unfold prepared, resized, allocated.
  by destruct (grows s _), (is_null (_counterBar (self w))).
Qed.

(** [_PrepareOitBuffers] returns from every world the task can be in, and
    touches neither the render pass nor its state. *)
Lemma PrepareOitBuffers_total s w :
  buffers_ok w = true ->
  exists w',
    _PrepareOitBuffers s w = Some (tt, w')
    /\ buffers_ok w' = true
    /\ _renderPass (self w') = _renderPass (self w)
    /\ _renderPassState (self w') = _renderPassState (self w)
    /\ _renderPassShader (self w') = _renderPassShader (self w)
    /\ submitted w' = submitted w.
Proof.
  intros Hok.
  destruct (decide (0 <= vec0 s /\ 0 <= vec1 s)) as [[H0 H1] | Hneg].
  - exists (prepared s w). split; [by apply PrepareOitBuffers_run |].
    split; [by apply buffers_allocated_ok, prepared_allocated |].
    destruct (prepared_frame s w) as (? & ? & ? & _ & ?). by split_and!.
  - exists (add_diagnostic (invalid_size_error w) w).
    split; [apply PrepareOitBuffers_invalid_run; lia |]. by split_and!.
Qed.

Lemma before_buffers_frame w :
  bars (self (before_buffers w)) = bars (self w)
  /\ heap (before_buffers w) = heap w
  /\ _screenSize (self (before_buffers w)) = _screenSize (self w)
  /\ renderIndex (before_buffers w) = renderIndex w
  /\ submitted (before_buffers w) = submitted w.
Proof.
  unfold before_buffers, warned, bound_aovs, ready.
  destruct (is_null (_renderPass (self (erase_cleared w)))).
  - cbn. by destruct (ctx_aovBindings _).
  - destruct (_renderPassState (self (erase_cleared w))); by destruct (ctx_aovBindings _).
Qed.

Lemma before_buffers_ok w : buffers_ok (before_buffers w) = buffers_ok w.
Proof.
  destruct (before_buffers_frame w) as (Hbars & Hheap & _).
  unfold buffers_ok. by rewrite Hbars, Hheap.
Qed.

#[local] Arguments ctx_aovBindings : simpl never.

Lemma bound_aovs_aovBindings w :
  ctx_aovBindings (bound_aovs w) = ctx_aovBindings w.
Proof. unfold bound_aovs. by destruct (_renderPassState (self w)). Qed.

Lemma ready_aovBindings w : ctx_aovBindings (ready w) = ctx_aovBindings w.
Proof. unfold ready. by destruct (is_null _). Qed.

Lemma before_warning_aovBindings w :
  ctx_aovBindings (bound_aovs (ready (erase_cleared w))) = ctx_aovBindings w.
Proof.
  by rewrite bound_aovs_aovBindings, ready_aovBindings,
    erase_cleared_aovBindings.
Qed.

Lemma before_warning_frame w :
  diagnostics (bound_aovs (ready (erase_cleared w))) = diagnostics w
  /\ _screenSize (self (bound_aovs (ready (erase_cleared w))))
     = _screenSize (self w).
Proof.
  unfold bound_aovs, ready.
  destruct (is_null (_renderPass (self (erase_cleared w)))); [done |].
  by destruct (_renderPassState (self (erase_cleared w))).
Qed.

Lemma before_buffers_diagnostics w :
  diagnostics (before_buffers w) =
    diagnostics w ++
      match ctx_aovBindings w with
      | [] => fallback_warning w
      | _ :: _ => []
      end.
Proof.
  destruct (before_warning_frame w) as [Hdiag Hsize].
  unfold before_buffers, warned. rewrite before_warning_aovBindings.
  destruct (ctx_aovBindings w).
  - cbn. unfold fallback_warning. by rewrite Hdiag, Hsize.
  - by rewrite app_nil_r.
Qed.

(** The render pass state after the initialization of a [Prepare]. *)
Lemma before_buffers_initialized w :
  is_null (_renderPass (self w)) = true ->
  _renderPass (self (before_buffers w)) = Some (mkRenderPass (Some GetRenderTags))
  /\ _renderPassState (self (before_buffers w)) =
       Some (SetAovBindings (map (set_clearValue VtEmpty) (ctx_aovBindings w))
               oitResolveState)
  /\ _renderPassShader (self (before_buffers w)) =
       Some (mkShader HdxPackageOitResolveImageShader []).
Proof.
  intros Hnull. unfold before_buffers, warned.
  rewrite before_warning_aovBindings.
  assert (Hready : ready (erase_cleared w) = initialized (erase_cleared w)).
  { unfold ready.
    change (_renderPass (self (erase_cleared w))) with (_renderPass (self w)).
    by rewrite Hnull. }
  assert (Haov : ctx_aovBindings (initialized (erase_cleared w))
                 = ctx_aovBindings w).
  { rewrite <- (erase_cleared_aovBindings w). reflexivity. }
  rewrite Hready. unfold bound_aovs. cbn -[erase_cleared initialized].
  rewrite !Haov.
  by destruct (ctx_aovBindings w).
Qed.

(** ** The transition to [Ready] *)

(** The configuration [Prepare] applies does not depend on the state it
    starts from. *)
Lemma configuration_overrides_defaults (s0 : HdStRenderPassState) :
  let st :=
    SetRenderPassShader
      (SetBlend HdBlendOpAdd HdBlendFactorOne HdBlendFactorOneMinusSrcAlpha
                HdBlendOpAdd HdBlendFactorOne HdBlendFactorOneMinusSrcAlpha
         (SetBlendEnabled true
            (SetColorMasks [ColorMaskRGBA]
               (SetEnableDepthMask false (SetEnableDepthTest false s0))))) in
  depthTestEnabled st = false
  /\ depthMaskEnabled st = false
  /\ colorMasks st = [ColorMaskRGBA]
  /\ blendEnabled st = true
  /\ (blendColorOp st, blendColorSrcFactor st, blendColorDstFactor st)
     = (HdBlendOpAdd, HdBlendFactorOne, HdBlendFactorOneMinusSrcAlpha)
  /\ (blendAlphaOp st, blendAlphaSrcFactor st, blendAlphaDstFactor st)
     = (HdBlendOpAdd, HdBlendFactorOne, HdBlendFactorOneMinusSrcAlpha)
  /\ hasRenderPassShader st = true.
Proof. done. Qed.

(** Once the task has a render pass, [Prepare] does not configure the state
    again. *)
Lemma Prepare_init_once w :
  is_null (_renderPass (self w)) = false ->
  exists w', Prepare_init w = Some (true, w') /\ self w' = self w.
Proof. intros H. exists w. split; [by apply Prepare_init_ready | done]. Qed.

(** C7. The [Prepare] that initializes the task (request flag set, no render
    pass yet, Storm render delegate) leaves it with a render pass and a
    render pass state that has the depth test and the depth write disabled,
    the color mask RGBA, blending enabled, and for both the color and the
    alpha channels the blend operation Add with source factor One and
    destination factor OneMinusSrcAlpha. *)
Theorem Prepare_configures_render_pass_state (w : World) :
  is_Some (ctx w !! HdxTokens.oitRequestFlag) ->
  _renderPass (self w) = None ->
  is_HdSt (renderDelegate (renderIndex w)) = true ->
  buffers_ok w = true ->
  aov_ok w = true ->
  exists w' st,
    Prepare w = Some (tt, w')
    /\ is_Some (_renderPass (self w'))
    /\ _renderPassState (self w') = Some st
    /\ depthTestEnabled st = false
    /\ depthMaskEnabled st = false
    /\ colorMasks st = [ColorMaskRGBA]
    /\ blendEnabled st = true
    /\ blendColorOp st = HdBlendOpAdd
    /\ blendColorSrcFactor st = HdBlendFactorOne
    /\ blendColorDstFactor st = HdBlendFactorOneMinusSrcAlpha
    /\ blendAlphaOp st = HdBlendOpAdd
    /\ blendAlphaSrcFactor st = HdBlendFactorOne
    /\ blendAlphaDstFactor st = HdBlendFactorOneMinusSrcAlpha.
Proof.
  intros Hreq Hpass Hd Hok Haov.
  assert (Hnull : is_null (_renderPass (self w)) = true) by by rewrite Hpass.
  rewrite <- before_buffers_ok in Hok.
  destruct (PrepareOitBuffers_total (requested_size w) _ Hok)
    as (w' & Hrun & _ & Hrp & Hst & _).
  destruct (before_buffers_initialized w Hnull) as (Hrp0 & Hst0 & _).
  exists w'. eexists.
  split; [rewrite Prepare_run by auto; exact Hrun |].
  split; [rewrite Hrp, Hrp0; by eexists |].
  split; [rewrite Hst; exact Hst0 |].
  by split_and!.
Qed.

Lemma Prepare_configures_render_pass_state_witness :
  exists w' st,
    Prepare (new_world "/oitResolve"
               {[ HdxTokens.oitRequestFlag := VtBool true ]} HdSt_index)
      = Some (tt, w')
    /\ is_Some (_renderPass (self w'))
    /\ _renderPassState (self w') = Some st
    /\ depthTestEnabled st = false
    /\ depthMaskEnabled st = false
    /\ colorMasks st = [ColorMaskRGBA]
    /\ blendEnabled st = true
    /\ blendColorOp st = HdBlendOpAdd
    /\ blendColorSrcFactor st = HdBlendFactorOne
    /\ blendColorDstFactor st = HdBlendFactorOneMinusSrcAlpha
    /\ blendAlphaOp st = HdBlendOpAdd
    /\ blendAlphaSrcFactor st = HdBlendFactorOne
    /\ blendAlphaDstFactor st = HdBlendFactorOneMinusSrcAlpha.
Proof.
  apply (Prepare_configures_render_pass_state
           (new_world "/oitResolve"
              {[ HdxTokens.oitRequestFlag := VtBool true ]} HdSt_index)).
  - eexists. vm_compute. reflexivity.
  - reflexivity.
  - reflexivity.
  - reflexivity.
  - by vm_compute.
Defined.

(** ** The fallback screen size *)

Lemma prepared_screenSize s w :
  _screenSize (self (prepared s w)) =
    if grows s w then s else _screenSize (self w).
Proof.
  assert (Hg : grows s (published (allocated w)) = grows s w).
  { unfold grows. cbn. by rewrite allocated_screenSize. }
  unfold prepared, resized. rewrite Hg.
  destruct (grows s w); [done |]. cbn. apply allocated_screenSize.
Qed.

(** C9 (as amended). In a [Prepare] with the request flag set and no AOV
    binding in the task context, on a task that is initialized or can be,
    the screen size computed is exactly (2048, 2048), and the warning is
    issued exactly when the tracked width is not 2048.  After the call the
    tracked width is 2048, so that a later frame with the same condition
    does not warn, unless the tracked size was wider than 2048 and at least
    2048 high: then it stays what it was (and every such frame warns). *)
Theorem Prepare_fallback (w : World) :
  is_Some (ctx w !! HdxTokens.oitRequestFlag) ->
  ctx_aovBindings w = [] ->
  is_null (_renderPass (self w)) = false
  \/ is_HdSt (renderDelegate (renderIndex w)) = true ->
  pass_ok w = true ->
  buffers_ok w = true ->
  exists w1 w',
    Prepare_screenSize (bound_aovs (ready (erase_cleared w)))
      = Some (mkVec2i 2048 2048, w1)
    /\ _PrepareOitBuffers (mkVec2i 2048 2048) w1 = Some (tt, w')
    /\ Prepare w = Some (tt, w')
    /\ diagnostics w' =
         diagnostics w ++
           (if vec0 (_screenSize (self w)) =? 2048 then [] else [invalid_aovs])
    /\ (vec0 (_screenSize (self w)) <= 2048 \/ vec1 (_screenSize (self w)) < 2048 ->
        vec0 (_screenSize (self w')) = 2048)
    /\ (2048 < vec0 (_screenSize (self w)) -> 2048 <= vec1 (_screenSize (self w)) ->
        _screenSize (self w') = _screenSize (self w)).
Proof.
  intros Hreq Haovs Hinit Hpass Hok.
  assert (Haov : aov_ok w = true) by (unfold aov_ok; by rewrite Haovs).
  assert (Hsize : requested_size w = mkVec2i 2048 2048).
  { unfold requested_size. by rewrite Haovs. }
  pose proof (Prepare_run w Hreq Hinit (or_intror Hpass) Haov) as Hrun.
  fold (before_buffers w) in Hrun. rewrite Hsize in Hrun.
  assert (Hok1 : buffers_ok (before_buffers w) = true) by by rewrite before_buffers_ok.
  destruct (before_buffers_frame w) as (_ & _ & Htracked & _ & _).
  exists (before_buffers w), (prepared (mkVec2i 2048 2048) (before_buffers w)).
  split.
  { assert (Hst : is_Some (_renderPassState (self (ready (erase_cleared w)))))
      by (apply ready_state; by right).
    rewrite Prepare_screenSize_run; [| done |].
    - unfold requested_size.
      by rewrite ready_aovBindings, erase_cleared_aovBindings, Haovs.
    - unfold aov_ok.
      by rewrite ready_aovBindings, erase_cleared_aovBindings, Haovs. }
  assert (Hbuf : _PrepareOitBuffers (mkVec2i 2048 2048) (before_buffers w)
                 = Some (tt, prepared (mkVec2i 2048 2048) (before_buffers w))).
  { apply PrepareOitBuffers_run; [cbn; lia | cbn; lia | done]. }
  split; [done |]. split; [by rewrite Hrun |].
  destruct (prepared_frame (mkVec2i 2048 2048) (before_buffers w))
    as (_ & _ & _ & Hdiag & _).
  split.
  { rewrite Hdiag, before_buffers_diagnostics, Haovs. reflexivity. }
  rewrite prepared_screenSize, Htracked.
  destruct (grows (mkVec2i 2048 2048) (before_buffers w)) eqn:Hg.
  - apply grows_iff in Hg. rewrite Htracked in Hg. cbn in Hg.
    split; [done |]. intros. lia.
  - apply grows_false_iff in Hg. rewrite Htracked in Hg. cbn in Hg.
    split; [lia | done].
Qed.

Lemma Prepare_fallback_witness :
  exists w1 w',
    Prepare_screenSize
      (bound_aovs (ready (erase_cleared
         (new_world "/oitResolve"
            {[ HdxTokens.oitRequestFlag := VtBool true ]} HdSt_index))))
      = Some (mkVec2i 2048 2048, w1)
    /\ _PrepareOitBuffers (mkVec2i 2048 2048) w1 = Some (tt, w')
    /\ Prepare (new_world "/oitResolve"
                  {[ HdxTokens.oitRequestFlag := VtBool true ]} HdSt_index)
       = Some (tt, w')
    /\ diagnostics w' = [invalid_aovs]
    /\ (0 <= 2048 \/ 0 < 2048 -> vec0 (_screenSize (self w')) = 2048)
    /\ (2048 < 0 -> 2048 <= 0 -> _screenSize (self w') = mkVec2i 0 0).
Proof.
  apply (Prepare_fallback
           (new_world "/oitResolve"
              {[ HdxTokens.oitRequestFlag := VtBool true ]} HdSt_index)).
  - eexists. vm_compute. reflexivity.
  - by vm_compute.
  - by right.
  - reflexivity.
  - reflexivity.
Defined.

(** On a new task, the first frame without AOV bindings warns and the second
    does not. *)
Example fallback_twice_on_a_new_task :
  exists w1 w2,
    Prepare (new_world "/oitResolve" frame_without_aovs HdSt_index) = Some (tt, w1)
    /\ diagnostics w1 = [invalid_aovs]
    /\ Prepare (set_ctx frame_without_aovs w1) = Some (tt, w2)
    /\ diagnostics w2 = [invalid_aovs].
Proof.
  do 2 eexists.
  split; [vm_compute; reflexivity |]. split; [reflexivity |].
  split; [vm_compute; reflexivity |]. reflexivity.
Qed.

(** After a frame whose AOV is 4096 x 4096 the tracked size is larger than
    the fallback: every later frame without AOV bindings warns again. *)
Lemma fallback_warns_every_frame :
  exists w1 w2 w3,
    Prepare (new_world "/oitResolve" (frame_with_aov 4096 4096) HdSt_index)
      = Some (tt, w1)
    /\ diagnostics w1 = []
    /\ _screenSize (self w1) = mkVec2i 4096 4096
    /\ Prepare (set_ctx frame_without_aovs w1) = Some (tt, w2)
    /\ diagnostics w2 = [invalid_aovs]
    /\ Prepare (set_ctx frame_without_aovs w2) = Some (tt, w3)
    /\ diagnostics w3 = [invalid_aovs; invalid_aovs].
Proof.
  do 3 eexists.
  split; [vm_compute; reflexivity |]. split; [reflexivity |].
  split; [reflexivity |].
  split; [vm_compute; reflexivity |]. split; [reflexivity |].
  split; [vm_compute; reflexivity |]. reflexivity.
Qed.

(** ** An unsupported backend *)

Lemma Prepare_unsupported w :
  is_Some (ctx w !! HdxTokens.oitRequestFlag) ->
  is_null (_renderPass (self w)) = true ->
  is_HdSt (renderDelegate (renderIndex w)) = false ->
  Prepare w = Some (tt, add_diagnostic unsupported_backend (erase_cleared w)).
Proof.
  intros [v Hreq] Hnull Hd.
  unfold Prepare, ctx_contains, ctx_erase, gets, mbind, M_bind. rewrite Hreq. cbn.
  change (set_ctx _ w) with (erase_cleared w).
  by rewrite Prepare_init_unsupported.
Qed.

(** C5 (as amended). While the task is not initialized and the render
    delegate is not Storm's, neither [Prepare] nor [Execute] initializes,
    allocates or draws anything: the task, the heap, the render index and
    the submitted draws are what they were.  Without the request flag both
    calls change nothing.  With it, each [Prepare] reports the verification
    failure (at every call, not once) and erases the cleared flag, and each
    [Execute] erases both flags and reports that the render pass state is
    missing. *)
Theorem Prepare_Execute_unsupported_backend (w : World) :
  _renderPass (self w) = None ->
  _renderPassState (self w) = None ->
  is_HdSt (renderDelegate (renderIndex w)) = false ->
  exists wp we,
    Prepare w = Some (tt, wp)
    /\ Execute w = Some (tt, we)
    /\ (self wp = self w /\ heap wp = heap w
        /\ renderIndex wp = renderIndex w /\ submitted wp = submitted w)
    /\ (self we = self w /\ heap we = heap w
        /\ renderIndex we = renderIndex w /\ submitted we = submitted w)
    /\ (ctx w !! HdxTokens.oitRequestFlag = None -> wp = w /\ we = w)
    /\ (is_Some (ctx w !! HdxTokens.oitRequestFlag) ->
        wp = add_diagnostic unsupported_backend (erase_cleared w)
        /\ we = add_diagnostic (VerifyFailed "_renderPassState") (erase_flags w)).
Proof.
  intros Hrp Hst Hd.
  assert (Hnull : is_null (_renderPass (self w)) = true) by by rewrite Hrp.
  destruct (ctx w !! HdxTokens.oitRequestFlag) as [v|] eqn:Hreq.
  - exists (add_diagnostic unsupported_backend (erase_cleared w)),
      (add_diagnostic (VerifyFailed "_renderPassState") (erase_flags w)).
    split; [apply Prepare_unsupported; [by rewrite Hreq | done | done] |].
    split; [apply Execute_no_state; [by rewrite Hreq | done] |].
    by split_and!.
  - exists w, w.
    split; [by apply Prepare_not_requested |].
    split; [by apply Execute_not_requested |].
    by split_and!.
Qed.

Lemma Prepare_Execute_unsupported_backend_witness :
  exists wp we,
    Prepare unsupported_world = Some (tt, wp)
    /\ Execute unsupported_world = Some (tt, we)
    /\ (self wp = self unsupported_world
        /\ heap wp = heap unsupported_world
        /\ renderIndex wp = renderIndex unsupported_world
        /\ submitted wp = submitted unsupported_world)
    /\ (self we = self unsupported_world
        /\ heap we = heap unsupported_world
        /\ renderIndex we = renderIndex unsupported_world
        /\ submitted we = submitted unsupported_world)
    /\ (ctx unsupported_world !! HdxTokens.oitRequestFlag = None ->
        wp = unsupported_world /\ we = unsupported_world)
    /\ (is_Some (ctx unsupported_world !! HdxTokens.oitRequestFlag) ->
        wp = add_diagnostic unsupported_backend (erase_cleared unsupported_world)
        /\ we = add_diagnostic (VerifyFailed "_renderPassState")
                  (erase_flags unsupported_world)).
Proof.
  apply (Prepare_Execute_unsupported_backend unsupported_world).
  - reflexivity.
  - reflexivity.
  - reflexivity.
Defined.

(** On a backend that is not supported, the failure is reported by every
    [Prepare] of a frame that requests the resolve, and the calls are not
    no-ops: [Prepare] erases the cleared flag and [Execute] the request
    flag. *)
Lemma unsupported_backend_is_reported_every_frame :
  exists w1 w2 w3,
    Prepare unsupported_world = Some (tt, w1)
    /\ diagnostics w1 = [unsupported_backend]
    /\ frame_with_flags !! HdxTokens.oitClearedFlag = Some (VtBool true)
    /\ ctx w1 !! HdxTokens.oitClearedFlag = None
    /\ Prepare (set_ctx frame_with_flags w1) = Some (tt, w2)
    /\ diagnostics w2 = [unsupported_backend; unsupported_backend]
    /\ ctx w2 !! HdxTokens.oitRequestFlag = Some (VtBool true)
    /\ Execute w2 = Some (tt, w3)
    /\ ctx w3 !! HdxTokens.oitRequestFlag = None
    /\ diagnostics w3 =
         [unsupported_backend; unsupported_backend;
          VerifyFailed "_renderPassState"].
Proof.
  do 3 eexists.
  split; [vm_compute; reflexivity |]. split; [reflexivity |].
  split; [by vm_compute |]. split; [by vm_compute |].
  split; [vm_compute; reflexivity |]. split; [reflexivity |].
  split; [by vm_compute |].
  split; [vm_compute; reflexivity |]. split; [by vm_compute |].
  reflexivity.
Qed.

(** ** The flags after [Execute] *)

Lemma pass_ok_inv w :
  pass_ok w = true ->
  is_null (_renderPass (self w)) = is_null (_renderPassState (self w))
  /\ is_null (_renderPassState (self w)) = is_null (_renderPassShader (self w)).
Proof.
  unfold pass_ok. intros H. apply andb_true_iff in H as [H1 H2].
  by apply bool_decide_eq_true in H1, H2.
Qed.

(** What [Execute] comes to when the request flag is set: it erases both
    flags and then either reports and stops, or draws. *)
Lemma Execute_requested w :
  pass_ok w = true ->
  is_Some (ctx w !! HdxTokens.oitRequestFlag) ->
  exists w',
    Execute w = Some (tt, w')
    /\ ctx w' = ctx (erase_flags w)
    /\ pass_ok w' = true
    /\ bars (self w') = bars (self w)
    /\ heap w' = heap w.
Proof.
  intros Hok Hreq. destruct (pass_ok_inv w Hok) as [H1 H2].
  destruct (_renderPassState (self w)) as [st|] eqn:Hst.
  2:{ eexists. split; [by apply Execute_no_state |]. by split_and!. }
  destruct (_renderPassShader (self w)) as [sh|] eqn:Hsh; [| done].
  destruct (_renderPass (self w)) as [rp|] eqn:Hrp; [| done].
  destruct (oitBuffersPublished w) eqn:Hpub.
  - destruct (Execute_draws w rp st sh Hreq Hrp Hst Hsh Hpub) as [sh' Hrun].
    eexists. split; [exact Hrun |]. split_and!; try done.
    unfold pass_ok. cbn. by rewrite Hrp, Hst.
  - eexists. split; [by eapply Execute_no_buffers |]. by split_and!.
Qed.

(** C2 (as amended). After any [Execute] the request flag is absent from the
    task context.  The cleared flag is absent too when the request flag was
    present at the call, whether the draw was issued or aborted; when the
    request flag was absent, [Execute] returns at once and the task context,
    the cleared flag included, is what it was. *)
Theorem Execute_erases_flags (w : World) :
  pass_ok w = true ->
  exists w',
    Execute w = Some (tt, w')
    /\ ctx w' !! HdxTokens.oitRequestFlag = None
    /\ (is_Some (ctx w !! HdxTokens.oitRequestFlag) ->
        ctx w' !! HdxTokens.oitClearedFlag = None)
    /\ (ctx w !! HdxTokens.oitRequestFlag = None -> w' = w).
Proof.
  intros Hok.
  destruct (ctx w !! HdxTokens.oitRequestFlag) as [v|] eqn:Hreq.
  - destruct (Execute_requested w Hok) as (w' & Hrun & Hctx & _);
      [by rewrite Hreq |].
    exists w'. split; [done |]. rewrite Hctx.
    split; [apply erase_flags_request |].
    split; [intros _; apply erase_flags_cleared | done].
  - exists w. split; [by apply Execute_not_requested |]. split; [done |].
    split; [by intros [? ?] | done].
Qed.

Lemma Execute_erases_flags_witness :
  exists w',
    Execute unprepared_world = Some (tt, w')
    /\ ctx w' !! HdxTokens.oitRequestFlag = None
    /\ (is_Some (ctx unprepared_world !! HdxTokens.oitRequestFlag) ->
        ctx w' !! HdxTokens.oitClearedFlag = None)
    /\ (ctx unprepared_world !! HdxTokens.oitRequestFlag = None ->
        w' = unprepared_world).
Proof.
  apply (Execute_erases_flags unprepared_world).
  reflexivity.
Defined.

(** Without the request flag, [Execute] leaves a cleared flag where it
    is. *)
Lemma cleared_flag_survives_Execute :
  exists w',
    Execute cleared_only_world = Some (tt, w')
    /\ ctx cleared_only_world !! HdxTokens.oitRequestFlag = None
    /\ ctx w' !! HdxTokens.oitClearedFlag = Some (VtBool true).
Proof.
  eexists. split; [vm_compute; reflexivity |]. split; by vm_compute.
Qed.

(** C10. When [Execute] is called with the request flag set and stops before
    the draw (no render pass state, no shader, or a buffer reference missing
    from the task context), it has reported the failure, has submitted no
    draw, and has nevertheless erased the request flag and the cleared flag:
    an [Execute] or a [Prepare] that follows without a new request does
    nothing. *)
Theorem Execute_abort_consumes_request (w : World) :
  is_Some (ctx w !! HdxTokens.oitRequestFlag) ->
  _renderPassState (self w) = None
  \/ _renderPassShader (self w) = None
  \/ oitBuffersPublished w = false ->
  exists w' d,
    Execute w = Some (tt, w')
    /\ diagnostics w' = diagnostics w ++ [d]
    /\ submitted w' = submitted w
    /\ ctx w' !! HdxTokens.oitRequestFlag = None
    /\ ctx w' !! HdxTokens.oitClearedFlag = None
    /\ Execute w' = Some (tt, w')
    /\ Prepare w' = Some (tt, w').
Proof.
  intros Hreq Habort.
  assert (Hdone : forall d,
    let w' := add_diagnostic d (erase_flags w) in
    diagnostics w' = diagnostics w ++ [d]
    /\ submitted w' = submitted w
    /\ ctx w' !! HdxTokens.oitRequestFlag = None
    /\ ctx w' !! HdxTokens.oitClearedFlag = None
    /\ Execute w' = Some (tt, w')
    /\ Prepare w' = Some (tt, w')).
  { intros d w'.
    assert (Hgone : ctx w' !! HdxTokens.oitRequestFlag = None)
      by apply erase_flags_request.
    split_and!; try done.
    - apply erase_flags_cleared.
    - by apply Execute_not_requested.
    - by apply Prepare_not_requested. }
  destruct (_renderPassState (self w)) as [st|] eqn:Hst.
  2:{ eexists _, _. split; [by apply Execute_no_state |]. apply Hdone. }
  destruct (_renderPassShader (self w)) as [sh|] eqn:Hsh.
  2:{ eexists _, _. split; [by eapply Execute_no_shader |]. apply Hdone. }
  destruct Habort as [? | [? | Hpub]]; [done | done |].
  eexists _, _. split; [by eapply Execute_no_buffers |]. apply Hdone.
Qed.

Lemma Execute_abort_consumes_request_witness :
  exists w' d,
    Execute unprepared_world = Some (tt, w')
    /\ diagnostics w' = diagnostics unprepared_world ++ [d]
    /\ submitted w' = submitted unprepared_world
    /\ ctx w' !! HdxTokens.oitRequestFlag = None
    /\ ctx w' !! HdxTokens.oitClearedFlag = None
    /\ Execute w' = Some (tt, w')
    /\ Prepare w' = Some (tt, w').
Proof.
  apply (Execute_abort_consumes_request unprepared_world).
  - eexists. vm_compute. reflexivity.
  - left. reflexivity.
Defined.

(** ** The invariants hold in every world the task reaches

    A new task satisfies [pass_ok] and [buffers_ok], and [Prepare] and
    [Execute] return and keep them: the task never dereferences a null
    pointer, whatever the other tasks do to the task context between the
    calls (as long as the first AOV binding has a render buffer). *)

Lemma new_world_invariant id c r :
  pass_ok (new_world id c r) = true /\ buffers_ok (new_world id c r) = true.
Proof. done. Qed.

Lemma set_ctx_invariant c w :
  pass_ok (set_ctx c w) = pass_ok w /\ buffers_ok (set_ctx c w) = buffers_ok w.
Proof. done. Qed.

Lemma before_buffers_pass_ok w :
  pass_ok w = true -> pass_ok (before_buffers w) = true.
Proof.
  intros Hok.
  destruct (is_null (_renderPass (self w))) eqn:Hnull.
  - destruct (before_buffers_initialized w Hnull) as (Hrp & Hst & Hsh).
    unfold pass_ok. by rewrite Hrp, Hst, Hsh.
  - destruct (pass_ok_inv w Hok) as [H1 H2]. rewrite Hnull in H1.
    unfold before_buffers, warned, ready.
    change (_renderPass (self (erase_cleared w))) with (_renderPass (self w)).
    rewrite Hnull. unfold bound_aovs.
    change (_renderPassState (self (erase_cleared w)))
      with (_renderPassState (self w)).
    destruct (_renderPassState (self w)) as [st|] eqn:Hst; [| done].
    assert (Hgoal : pass_ok
      (set_self
         (set_renderPassState
            (Some (SetAovBindings
                     (map (set_clearValue VtEmpty)
                        (ctx_aovBindings (erase_cleared w))) st))
            (self (erase_cleared w)))
         (erase_cleared w)) = true).
    { unfold pass_ok. cbn. unfold pass_ok in Hok. by rewrite Hst in Hok. }
    by destruct (ctx_aovBindings _).
Qed.

Lemma Prepare_invariant w :
  pass_ok w = true -> buffers_ok w = true -> aov_ok w = true ->
  exists w',
    Prepare w = Some (tt, w') /\ pass_ok w' = true /\ buffers_ok w' = true.
Proof.
  intros Hpass Hok Haov.
  destruct (ctx w !! HdxTokens.oitRequestFlag) as [v|] eqn:Hreq.
  2:{ exists w. split; [by apply Prepare_not_requested | done]. }
  assert (Hflag : is_Some (ctx w !! HdxTokens.oitRequestFlag)) by by rewrite Hreq.
  destruct (is_null (_renderPass (self w))) eqn:Hnull,
           (is_HdSt (renderDelegate (renderIndex w))) eqn:Hd.
  2:{ eexists. split; [by apply Prepare_unsupported | done]. }
  all: rewrite <- before_buffers_ok in Hok;
    destruct (PrepareOitBuffers_total (requested_size w) _ Hok)
      as (w' & Hrun & Hok' & Hrp & Hst & Hsh & _);
    exists w'; (split; [rewrite Prepare_run by auto; exact Hrun |]);
    (split; [| done]);
    pose proof (before_buffers_pass_ok w Hpass) as Hpass';
    unfold pass_ok in *; by rewrite Hrp, Hst, Hsh.
Qed.

Lemma Execute_invariant w :
  pass_ok w = true ->
  exists w',
    Execute w = Some (tt, w')
    /\ pass_ok w' = true /\ buffers_ok w' = buffers_ok w.
Proof.
  intros Hpass.
  destruct (ctx w !! HdxTokens.oitRequestFlag) as [v|] eqn:Hreq.
  - destruct (Execute_requested w Hpass) as (w' & Hrun & _ & Hpass' & Hbars & Hheap);
      [by rewrite Hreq |].
    exists w'. split; [done |]. split; [done |].
    unfold buffers_ok. by rewrite Hbars, Hheap.
  - exists w. split; [by apply Execute_not_requested | done].
Qed.

(** * Further properties *)

(** ** Calling [_PrepareOitBuffers] again *)

Lemma published_fixed w :
  ctx w !! HdxTokens.oitCounterBufferBar = Some (VtBar (_counterBar (self w))) ->
  ctx w !! HdxTokens.oitIndexBufferBar = Some (VtBar (_indexBar (self w))) ->
  ctx w !! HdxTokens.oitDataBufferBar = Some (VtBar (_dataBar (self w))) ->
  ctx w !! HdxTokens.oitDepthBufferBar = Some (VtBar (_depthBar (self w))) ->
  ctx w !! HdxTokens.oitUniformBar = Some (VtBar (_uniformBar (self w))) ->
  published w = w.
Proof.
  intros Hc Hi Hd Hz Hu. unfold published.
  rewrite (insert_id _ _ _ Hc), (insert_id _ _ _ Hi), (insert_id _ _ _ Hd),
    (insert_id _ _ _ Hz), (insert_id _ _ _ Hu).
  apply set_ctx_id.
Qed.

Lemma prepared_published s w :
  let w' := prepared s w in
  ctx w' !! HdxTokens.oitCounterBufferBar = Some (VtBar (_counterBar (self w')))
  /\ ctx w' !! HdxTokens.oitIndexBufferBar = Some (VtBar (_indexBar (self w')))
  /\ ctx w' !! HdxTokens.oitDataBufferBar = Some (VtBar (_dataBar (self w')))
  /\ ctx w' !! HdxTokens.oitDepthBufferBar = Some (VtBar (_depthBar (self w')))
  /\ ctx w' !! HdxTokens.oitUniformBar = Some (VtBar (_uniformBar (self w'))).
Proof.
  cbv zeta. unfold prepared. rewrite resized_ctx.
  pose proof (resized_bars s (published (allocated w))) as Hbars.
  injection Hbars as -> -> -> -> ->. cbn.
  split_and!; by simplify_map_eq.
Qed.

Lemma prepared_settles s w : grows s (prepared s w) = false.
Proof.
  apply grows_false_iff. rewrite prepared_screenSize.
  destruct (grows s w) eqn:Hg; [lia |]. by apply grows_false_iff.
Qed.

Lemma prepared_idempotent s w :
  buffers_ok w = true -> prepared s (prepared s w) = prepared s w.
Proof.
  intros Hok.
  pose proof (prepared_allocated s w Hok) as Halloc.
  destruct (prepared_published s w) as (Hc & Hi & Hd & Hz & Hu).
  unfold prepared at 1.
  rewrite (allocated_id _ (buffers_allocated_counter _ Halloc)).
  rewrite (published_fixed _ Hc Hi Hd Hz Hu).
  unfold resized. by rewrite prepared_settles.
Qed.

(** X1. A second call of [_PrepareOitBuffers] with the same non-negative
    screen size changes nothing at all: nothing is allocated or resized, no
    source is added for the uniform range, and the task context already
    holds the five references. *)
Theorem PrepareOitBuffers_idempotent (s : GfVec2i) (w : World) :
  buffers_ok w = true ->
  0 <= vec0 s -> 0 <= vec1 s ->
  exists w',
    _PrepareOitBuffers s w = Some (tt, w')
    /\ _PrepareOitBuffers s w' = Some (tt, w').
Proof.
  intros Hok H0 H1. exists (prepared s w).
  split; [by apply PrepareOitBuffers_run |].
  rewrite PrepareOitBuffers_run; [| done | done |].
  - fold (prepared s (prepared s w)). by rewrite prepared_idempotent.
  - by apply buffers_allocated_ok, prepared_allocated.
Qed.

Lemma PrepareOitBuffers_idempotent_witness :
  exists w',
    _PrepareOitBuffers (mkVec2i 1920 1080)
      (new_world "/oitResolve" frame_without_aovs HdSt_index) = Some (tt, w')
    /\ _PrepareOitBuffers (mkVec2i 1920 1080) w' = Some (tt, w').
Proof.
  apply (PrepareOitBuffers_idempotent (mkVec2i 1920 1080)
           (new_world "/oitResolve" frame_without_aovs HdSt_index)).
  - reflexivity.
  - cbn. lia.
  - cbn. lia.
Defined.

(** ** Allocation happens once *)

Lemma resize_at_description p n h :
  description <$> resize_at p n h = description <$> h.
Proof.
  destruct p as [a|]; [| done]. cbn. apply list_eq. intros j.
  rewrite !list_lookup_fmap.
  destruct (decide (a = j)) as [-> | Hne].
  - rewrite list_lookup_alter_eq. by destruct (h !! j).
  - by rewrite list_lookup_alter_ne.
Qed.

Lemma resized_heap s w :
  description <$> heap (resized s w) = description <$> heap w
  /\ (forall a,
        Some a ∉ [_counterBar (self w); _indexBar (self w);
                  _dataBar (self w); _depthBar (self w)] ->
        heap (resized s w) !! a = heap w !! a).
Proof.
  unfold resized. destruct (grows s w); [| done]. cbn. split.
  - by rewrite !resize_at_description.
  - intros a Ha. rewrite !not_elem_of_cons in Ha.
    destruct Ha as (Hc & Hi & Hd & Hz & _).
    rewrite !resize_at_lookup_ne; done.
Qed.

(** X2. On a task that has its buffers, a call of [_PrepareOitBuffers],
    whatever the screen size, allocates nothing: the five pointers of the
    task are kept, the heap has the same ranges with the same roles and
    specs, and every range other than the counter, index, data and depth
    ranges, the uniform range included, keeps its number of elements. *)
Theorem PrepareOitBuffers_keeps_allocation (s : GfVec2i) (w : World) :
  buffers_ok w = true ->
  is_null (_counterBar (self w)) = false ->
  exists w',
    _PrepareOitBuffers s w = Some (tt, w')
    /\ bars (self w') = bars (self w)
    /\ description <$> heap w' = description <$> heap w
    /\ (forall a,
          Some a ∉ [_counterBar (self w); _indexBar (self w);
                    _dataBar (self w); _depthBar (self w)] ->
          heap w' !! a = heap w !! a).
Proof.
  intros Hok Hcounter.
  destruct (decide (0 <= vec0 s /\ 0 <= vec1 s)) as [[H0 H1] | Hneg].
  - exists (prepared s w).
    split; [by apply PrepareOitBuffers_run |].
    unfold prepared. rewrite (allocated_id w Hcounter).
    split; [by rewrite resized_bars |].
    apply (resized_heap s (published w)).
  - exists (add_diagnostic (invalid_size_error w) w).
    split; [apply PrepareOitBuffers_invalid_run; lia | done].
Qed.

Lemma PrepareOitBuffers_keeps_allocation_witness :
  exists w',
    _PrepareOitBuffers (mkVec2i 1920 1080)
      (prepared (mkVec2i 640 480)
         (new_world "/oitResolve" frame_without_aovs HdSt_index))
      = Some (tt, w')
    /\ bars (self w') = [Some 0; Some 1; Some 2; Some 3; Some 4]%nat
    /\ description <$> heap w' =
         description <$>
           heap (prepared (mkVec2i 640 480)
                   (new_world "/oitResolve" frame_without_aovs HdSt_index))
    /\ (forall a,
          Some a ∉ [Some 0; Some 1; Some 2; Some 3]%nat ->
          heap w' !! a =
            heap (prepared (mkVec2i 640 480)
                    (new_world "/oitResolve" frame_without_aovs HdSt_index))
              !! a).
Proof.
  apply (PrepareOitBuffers_keeps_allocation (mkVec2i 1920 1080)
           (prepared (mkVec2i 640 480)
              (new_world "/oitResolve" frame_without_aovs HdSt_index))).
  - reflexivity.
  - reflexivity.
Defined.

(** X3. The first call of [_PrepareOitBuffers] with a non-negative screen
    size allocates exactly five ranges after the ranges of the heap, which it
    leaves as they are: the counter and index ranges of [int], the data range
    of [vec4], the depth range of [float] and the uniform range of [ivec2],
    in that order, and the five pointers of the task lead to them. *)
Theorem PrepareOitBuffers_first_call (s : GfVec2i) (w : World) :
  _counterBar (self w) = None ->
  0 <= vec0 s -> 0 <= vec1 s ->
  exists w',
    _PrepareOitBuffers s w = Some (tt, w')
    /\ bars (self w') =
         Some <$> seq (length (heap w)) 5
    /\ description <$> heap w' =
         (description <$> heap w) ++
         [ (SingleBufferArray, HdxTokens.oitCounter,
            [mkBufferSpec HdxTokens.hdxOitCounterBuffer (mkTupleType HdTypeInt32 1)]);
           (SingleBufferArray, HdxTokens.oitIndices,
            [mkBufferSpec HdxTokens.hdxOitIndexBuffer (mkTupleType HdTypeInt32 1)]);
           (SingleBufferArray, HdxTokens.oitData,
            [mkBufferSpec HdxTokens.hdxOitDataBuffer (mkTupleType HdTypeFloatVec4 1)]);
           (SingleBufferArray, HdxTokens.oitDepth,
            [mkBufferSpec HdxTokens.hdxOitDepthBuffer (mkTupleType HdTypeFloat 1)]);
           (UniformBufferArray, HdxTokens.oitUniforms,
            [mkBufferSpec HdxTokens.oitScreenSize (mkTupleType HdTypeInt32Vec2 1)]) ]
    /\ (forall a, (a < length (heap w))%nat -> heap w' !! a = heap w !! a).
Proof.
  intros Hnew H0 H1. exists (prepared s w).
  split; [by apply PrepareOitBuffers_run, new_task_buffers_ok |].
  assert (Halloc : allocated w =
    set_self (set_bars (length (heap w)) (length (heap w) + 1)
                (length (heap w) + 2) (length (heap w) + 3)
                (length (heap w) + 4) (self w))
      (set_heap (heap w ++ new_ranges w) w)).
  { unfold allocated. by rewrite Hnew. }
  unfold prepared.
  destruct (resized_heap s (published (allocated w))) as [Hdesc Hother].
  split; [| split].
  - rewrite resized_bars, Halloc. unfold bars, set_bars. cbn.
    by rewrite !Nat.add_succ_r, !Nat.add_0_r.
  - rewrite Hdesc, Halloc. cbn. by rewrite fmap_app.
  - intros a Ha. rewrite Hother.
    + rewrite Halloc. cbn. by rewrite lookup_app_l.
    + rewrite Halloc. cbn. rewrite !not_elem_of_cons.
      split_and!; [intros [= ->]; lia .. | apply not_elem_of_nil].
Qed.

Lemma PrepareOitBuffers_first_call_witness :
  exists w',
    _PrepareOitBuffers (mkVec2i 1920 1080)
      (new_world "/oitResolve" frame_without_aovs HdSt_index) = Some (tt, w')
    /\ bars (self w') = [Some 0; Some 1; Some 2; Some 3; Some 4]%nat
    /\ description <$> heap w' =
         [ (SingleBufferArray, HdxTokens.oitCounter,
            [mkBufferSpec HdxTokens.hdxOitCounterBuffer (mkTupleType HdTypeInt32 1)]);
           (SingleBufferArray, HdxTokens.oitIndices,
            [mkBufferSpec HdxTokens.hdxOitIndexBuffer (mkTupleType HdTypeInt32 1)]);
           (SingleBufferArray, HdxTokens.oitData,
            [mkBufferSpec HdxTokens.hdxOitDataBuffer (mkTupleType HdTypeFloatVec4 1)]);
           (SingleBufferArray, HdxTokens.oitDepth,
            [mkBufferSpec HdxTokens.hdxOitDepthBuffer (mkTupleType HdTypeFloat 1)]);
           (UniformBufferArray, HdxTokens.oitUniforms,
            [mkBufferSpec HdxTokens.oitScreenSize (mkTupleType HdTypeInt32Vec2 1)]) ]
    /\ (forall a, (a < 0)%nat -> heap w' !! a = @nil HdBufferArrayRange !! a).
Proof.
  apply (PrepareOitBuffers_first_call (mkVec2i 1920 1080)
           (new_world "/oitResolve" frame_without_aovs HdSt_index)).
  - reflexivity.
  - cbn. lia.
  - cbn. lia.
Defined.

(** ** The AOV bindings *)

Lemma stripped_bindings (l : list HdRenderPassAovBinding) :
  Forall2 (fun b' b => aovName b' = aovName b
                       /\ renderBuffer b' = renderBuffer b
                       /\ clearValue b' = VtEmpty)
    (map (set_clearValue VtEmpty) l) l.
Proof. induction l as [| b l IH]; cbn; by constructor. Qed.

(** X4. [_PrepareAovBindings] gives the render pass state the AOV bindings
    of the task context, one for one with the same names and render buffers
    and with every clear value emptied; no bindings when the task context
    has none or holds a value of another type under the key.  It changes
    nothing else: the other fields of the state, the rest of the task, and
    the task context, whose own bindings keep their clear values. *)
Theorem PrepareAovBindings_strips_clear_values
    (w : World) (st : HdStRenderPassState) :
  _renderPassState (self w) = Some st ->
  exists w' st',
    _PrepareAovBindings w = Some (tt, w')
    /\ self w' = set_renderPassState (Some st') (self w)
    /\ st' = SetAovBindings (GetAovBindings st') st
    /\ Forall2 (fun b' b => aovName b' = aovName b
                            /\ renderBuffer b' = renderBuffer b
                            /\ clearValue b' = VtEmpty)
         (GetAovBindings st') (ctx_aovBindings w)
    /\ ((forall l, ctx w !! HdxTokens.aovBindings <> Some (VtAovBindings l)) ->
        GetAovBindings st' = [])
    /\ ctx w' = ctx w
    /\ heap w' = heap w
    /\ renderIndex w' = renderIndex w
    /\ diagnostics w' = diagnostics w
    /\ submitted w' = submitted w.
Proof.
  intros Hst.
  exists (bound_aovs w),
    (SetAovBindings (map (set_clearValue VtEmpty) (ctx_aovBindings w)) st).
  split; [apply PrepareAovBindings_run; by rewrite Hst |].
  unfold bound_aovs. rewrite Hst. cbn.
  split_and!; try done.
  - apply stripped_bindings.
  - intros Hnone. unfold ctx_aovBindings.
    destruct (ctx w !! HdxTokens.aovBindings) as [[| | | | l |]|]; try done.
    by destruct (Hnone l).
Qed.

Lemma PrepareAovBindings_strips_clear_values_witness :
  exists w' st',
    _PrepareAovBindings
      (initialized
         (new_world "/oitResolve" (frame_with_clearing_aov 1920 1080) HdSt_index))
      = Some (tt, w')
    /\ self w' =
         set_renderPassState (Some st')
           (self (initialized
                    (new_world "/oitResolve" (frame_with_clearing_aov 1920 1080)
                       HdSt_index)))
    /\ st' = SetAovBindings (GetAovBindings st') oitResolveState
    /\ Forall2 (fun b' b => aovName b' = aovName b
                            /\ renderBuffer b' = renderBuffer b
                            /\ clearValue b' = VtEmpty)
         (GetAovBindings st')
         (ctx_aovBindings
            (new_world "/oitResolve" (frame_with_clearing_aov 1920 1080) HdSt_index))
    /\ ((forall l, frame_with_clearing_aov 1920 1080 !! HdxTokens.aovBindings
                   <> Some (VtAovBindings l)) ->
        GetAovBindings st' = [])
    /\ ctx w' = frame_with_clearing_aov 1920 1080
    /\ heap w' = []
    /\ renderIndex w' = HdSt_index
    /\ diagnostics w' = []
    /\ submitted w' = [].
Proof.
  apply (PrepareAovBindings_strips_clear_values
           (initialized
              (new_world "/oitResolve" (frame_with_clearing_aov 1920 1080) HdSt_index))
           oitResolveState).
  reflexivity.
Defined.

(** ** [Prepare] on a task that is ready *)

Lemma before_buffers_ctx w :
  ctx (before_buffers w) = delete HdxTokens.oitClearedFlag (ctx w).
Proof.
  unfold before_buffers, warned, bound_aovs, ready.
  destruct (is_null (_renderPass (self (erase_cleared w)))).
  - cbn. by destruct (ctx_aovBindings _).
  - destruct (_renderPassState (self (erase_cleared w)));
      by destruct (ctx_aovBindings _).
Qed.

Lemma before_buffers_ready w st :
  is_null (_renderPass (self w)) = false ->
  _renderPassState (self w) = Some st ->
  self (before_buffers w) =
    set_renderPassState
      (Some (SetAovBindings
               (map (set_clearValue VtEmpty) (ctx_aovBindings w)) st))
      (self w).
Proof.
  intros Hrp Hst. unfold before_buffers, warned.
  rewrite before_warning_aovBindings.
  unfold ready.
  change (_renderPass (self (erase_cleared w))) with (_renderPass (self w)).
  rewrite Hrp. unfold bound_aovs.
  change (_renderPassState (self (erase_cleared w)))
    with (_renderPassState (self w)).
  rewrite Hst, erase_cleared_aovBindings.
  by destruct (ctx_aovBindings w).
Qed.

(** X5. Once the task has its render pass, a [Prepare] that finds the request
    flag keeps the render pass and the shader, and in the render pass state
    replaces the AOV bindings only: the depth, color mask and blend
    configuration of the first [Prepare] is never set again nor lost. *)
Theorem Prepare_keeps_configuration
    (w : World) (rp : HdSt_ImageShaderRenderPass)
    (st : HdStRenderPassState) (sh : HdStRenderPassShader) :
  is_Some (ctx w !! HdxTokens.oitRequestFlag) ->
  _renderPass (self w) = Some rp ->
  _renderPassState (self w) = Some st ->
  _renderPassShader (self w) = Some sh ->
  buffers_ok w = true ->
  aov_ok w = true ->
  exists w',
    Prepare w = Some (tt, w')
    /\ _renderPass (self w') = Some rp
    /\ _renderPassShader (self w') = Some sh
    /\ _renderPassState (self w') =
         Some (SetAovBindings
                 (map (set_clearValue VtEmpty) (ctx_aovBindings w)) st).
Proof.
  intros Hreq Hrp Hst Hsh Hok Haov.
  assert (Hready : is_null (_renderPass (self w)) = false) by by rewrite Hrp.
  assert (Hpass : pass_ok w = true).
  { unfold pass_ok. by rewrite Hrp, Hst, Hsh. }
  rewrite <- before_buffers_ok in Hok.
  destruct (PrepareOitBuffers_total (requested_size w) _ Hok)
    as (w' & Hrun & _ & Hrp' & Hst' & Hsh' & _).
  pose proof (before_buffers_ready w st Hready Hst) as Hself.
  exists w'. split; [rewrite Prepare_run by auto; exact Hrun |].
  rewrite Hrp', Hst', Hsh', Hself. cbn. by rewrite Hrp, Hsh.
Qed.

Lemma Prepare_keeps_configuration_witness :
  exists w',
    Prepare
      (initialized
         (new_world "/oitResolve" (frame_with_clearing_aov 1920 1080)
            HdSt_index))
      = Some (tt, w')
    /\ _renderPass (self w') = Some (mkRenderPass (Some GetRenderTags))
    /\ _renderPassShader (self w') =
         Some (mkShader HdxPackageOitResolveImageShader [])
    /\ _renderPassState (self w') =
         Some (SetAovBindings
                 [mkAovBinding "color" (Some (mkRenderBuffer 1920 1080)) VtEmpty]
                 oitResolveState).
Proof.
  apply (Prepare_keeps_configuration
           (initialized
              (new_world "/oitResolve" (frame_with_clearing_aov 1920 1080)
                 HdSt_index))
           (mkRenderPass (Some GetRenderTags)) oitResolveState
           (mkShader HdxPackageOitResolveImageShader [])).
  - eexists. vm_compute. reflexivity.
  - reflexivity.
  - reflexivity.
  - reflexivity.
  - reflexivity.
  - by vm_compute.
Defined.

(** ** The screen size of the first AOV binding *)

Lemma to_int_to_uint z :
  0 <= z < 2 ^ 31 -> Int.to_int (Int.to_uint z) = z.
Proof.
  intros H. unfold Int.to_int, Int.to_uint.
  rewrite (Z.mod_small z) by lia. rewrite Z.mod_small; lia.
Qed.

Lemma to_int_to_uint_high z :
  2 ^ 31 <= z < 2 ^ 32 -> Int.to_int (Int.to_uint z) = z - 2 ^ 32.
Proof.
  intros H. unfold Int.to_int, Int.to_uint.
  rewrite (Z.mod_small z) by lia.
  replace (z + 2 ^ 31) with ((z - 2 ^ 31) + 1 * 2 ^ 32) by lia.
  rewrite Z.mod_add by lia. rewrite Z.mod_small; lia.
Qed.

(** X6. With a first AOV binding whose render buffer is [W] wide and [H]
    high, both below [2^31], a [Prepare] that finds the request flag, on a
    task that has its render pass or whose render delegate is Storm's, in a
    world that satisfies [pass_ok] and [buffers_ok], reports nothing and
    asks for the screen size [(W, H)], whatever the other bindings: when [W] or [H]
    exceeds the tracked size, the tracked size becomes [(W, H)] and the
    buffers get the lengths computed from it; otherwise the tracked size and
    the sources of the uniform range stay what they were. *)
Theorem Prepare_sizes_from_first_aov
    (w : World) (name : string) (b : HdRenderBuffer) (clear : VtValue)
    (rest : list HdRenderPassAovBinding) :
  is_Some (ctx w !! HdxTokens.oitRequestFlag) ->
  ctx_aovBindings w = mkAovBinding name (Some b) clear :: rest ->
  is_null (_renderPass (self w)) = false
  \/ is_HdSt (renderDelegate (renderIndex w)) = true ->
  pass_ok w = true ->
  buffers_ok w = true ->
  0 <= rbWidth b < 2 ^ 31 ->
  0 <= rbHeight b < 2 ^ 31 ->
  exists w',
    Prepare w = Some (tt, w')
    /\ diagnostics w' = diagnostics w
    /\ (vec0 (_screenSize (self w)) < rbWidth b
        \/ vec1 (_screenSize (self w)) < rbHeight b ->
        _screenSize (self w') = mkVec2i (rbWidth b) (rbHeight b)
        /\ oitLengths w' = oitSizes (mkVec2i (rbWidth b) (rbHeight b)))
    /\ (rbWidth b <= vec0 (_screenSize (self w)) ->
        rbHeight b <= vec1 (_screenSize (self w)) ->
        _screenSize (self w') = _screenSize (self w)
        /\ pending w' = pending w).
Proof.
  intros Hreq Haovs Hinit Hpass Hok HW HH.
  set (s := mkVec2i (rbWidth b) (rbHeight b)).
  assert (Haov : aov_ok w = true) by (unfold aov_ok; by rewrite Haovs).
  assert (Hsize : requested_size w = s).
  { unfold requested_size, GfVec2i_of_unsigned, GetWidth, GetHeight.
    rewrite Haovs. cbn. by rewrite !to_int_to_uint. }
  pose proof (Prepare_run w Hreq Hinit (or_intror Hpass) Haov) as Hrun.
  fold (before_buffers w) in Hrun. rewrite Hsize in Hrun.
  assert (Hok1 : buffers_ok (before_buffers w) = true)
    by by rewrite before_buffers_ok.
  destruct (before_buffers_frame w) as (_ & _ & Htracked & Hindex & _).
  assert (Hg : grows s (before_buffers w) = grows s w).
  { unfold grows. by rewrite Htracked. }
  exists (prepared s (before_buffers w)).
  split.
  { rewrite Hrun. apply PrepareOitBuffers_run; [cbn; lia | cbn; lia | done]. }
  destruct (prepared_frame s (before_buffers w)) as (_ & _ & _ & Hdiag & _).
  split.
  { rewrite Hdiag, before_buffers_diagnostics, Haovs. apply app_nil_r. }
  split.
  - intros Hgrows. apply (grows_iff s w) in Hgrows. rewrite <- Hg in Hgrows.
    destruct (prepared_grows s _ Hok1 Hgrows) as (? & ? & _). done.
  - intros H0 H1.
    assert (Hkeep : grows s w = false) by (by apply grows_false_iff).
    rewrite <- Hg in Hkeep.
    rewrite prepared_screenSize, Hkeep, Htracked. split; [done |].
    unfold prepared, resized.
    assert (Hg' : grows s (published (allocated (before_buffers w))) = false).
    { rewrite <- Hkeep. unfold grows. cbn. by rewrite allocated_screenSize. }
    rewrite Hg'. unfold pending. cbn.
    rewrite <- Hindex. unfold allocated.
    by destruct (is_null (_counterBar (self (before_buffers w)))).
Qed.

Lemma Prepare_sizes_from_first_aov_witness :
  exists w',
    Prepare (new_world "/oitResolve" (frame_with_clearing_aov 1920 1080)
               HdSt_index) = Some (tt, w')
    /\ diagnostics w' = []
    /\ (0 < 1920 \/ 0 < 1080 ->
        _screenSize (self w') = mkVec2i 1920 1080
        /\ oitLengths w' = oitSizes (mkVec2i 1920 1080))
    /\ (1920 <= 0 -> 1080 <= 0 ->
        _screenSize (self w') = mkVec2i 0 0
        /\ pending w' = []).
Proof.
  apply (Prepare_sizes_from_first_aov
           (new_world "/oitResolve" (frame_with_clearing_aov 1920 1080)
              HdSt_index)
           "color" (mkRenderBuffer 1920 1080) (VtOther "GfVec4f") []).
  - eexists. vm_compute. reflexivity.
  - by vm_compute.
  - by right.
  - reflexivity.
  - reflexivity.
  - cbn. lia.
  - cbn. lia.
Defined.

Lemma warned_self w : self (warned w) = self w.
Proof. unfold warned. by destruct (ctx_aovBindings w). Qed.

Lemma before_buffers_id w : _id (self (before_buffers w)) = _id (self w).
Proof.
  unfold before_buffers. rewrite warned_self. unfold bound_aovs, ready.
  destruct (is_null (_renderPass (self (erase_cleared w)))).
  - by destruct (_renderPassState (self (initialized (erase_cleared w)))).
  - by destruct (_renderPassState (self (erase_cleared w))).
Qed.

(** X7. A render buffer whose width or height, an [unsigned int], is [2^31]
    or more becomes a negative [int] in the screen size: a [Prepare] that
    finds the request flag and such a first AOV binding, on a task that has
    its render pass or whose render delegate is Storm's (in a world that
    satisfies [pass_ok]), reports the invalid screen size and, the cleared
    flag aside, leaves the task context, the buffers, the tracked size and
    the resource registry as they were. *)
Theorem Prepare_rejects_oversized_aov
    (w : World) (name : string) (b : HdRenderBuffer) (clear : VtValue)
    (rest : list HdRenderPassAovBinding) :
  is_Some (ctx w !! HdxTokens.oitRequestFlag) ->
  ctx_aovBindings w = mkAovBinding name (Some b) clear :: rest ->
  is_null (_renderPass (self w)) = false
  \/ is_HdSt (renderDelegate (renderIndex w)) = true ->
  pass_ok w = true ->
  2 ^ 31 <= rbWidth b < 2 ^ 32 \/ 2 ^ 31 <= rbHeight b < 2 ^ 32 ->
  exists w',
    Prepare w = Some (tt, w')
    /\ diagnostics w' = diagnostics w ++ [invalid_size_error w]
    /\ ctx w' = delete HdxTokens.oitClearedFlag (ctx w)
    /\ bars (self w') = bars (self w)
    /\ heap w' = heap w
    /\ _screenSize (self w') = _screenSize (self w)
    /\ renderIndex w' = renderIndex w
    /\ submitted w' = submitted w.
Proof.
  intros Hreq Haovs Hinit Hpass Hhuge.
  assert (Haov : aov_ok w = true) by (unfold aov_ok; by rewrite Haovs).
  assert (Hneg : vec0 (requested_size w) < 0 \/ vec1 (requested_size w) < 0).
  { unfold requested_size, GfVec2i_of_unsigned, GetWidth, GetHeight.
    rewrite Haovs. cbn.
    destruct Hhuge as [H | H]; [left | right];
      rewrite to_int_to_uint_high by done; lia. }
  pose proof (Prepare_run w Hreq Hinit (or_intror Hpass) Haov) as Hrun.
  fold (before_buffers w) in Hrun.
  rewrite (PrepareOitBuffers_invalid_run _ _ Hneg) in Hrun.
  destruct (before_buffers_frame w) as (Hbars & Hheap & Htracked & Hindex & Hsub).
  eexists. split; [exact Hrun |]. cbn.
  rewrite before_buffers_diagnostics, Haovs, app_nil_r, before_buffers_ctx.
  split_and!; try done.
  unfold invalid_size_error. by rewrite before_buffers_id.
Qed.

Lemma Prepare_rejects_oversized_aov_witness :
  exists w',
    Prepare (new_world "/oitResolve" frame_with_widest_aov HdSt_index)
      = Some (tt, w')
    /\ diagnostics w' =
         [CodingError "Invalid screen size for OIT resolve task /oitResolve"]
    /\ ctx w' = delete HdxTokens.oitClearedFlag frame_with_widest_aov
    /\ bars (self w') = [None; None; None; None; None]
    /\ heap w' = []
    /\ _screenSize (self w') = mkVec2i 0 0
    /\ renderIndex w' = HdSt_index
    /\ submitted w' = [].
Proof.
  apply (Prepare_rejects_oversized_aov
           (new_world "/oitResolve" frame_with_widest_aov HdSt_index)
           "color" (mkRenderBuffer 4294967295 1080) VtEmpty []).
  - eexists. vm_compute. reflexivity.
  - by vm_compute.
  - by right.
  - reflexivity.
  - left. cbn. lia.
Defined.

(** ** The task context after [Prepare] *)

Lemma PrepareOitBuffers_ctx s w :
  buffers_ok w = true ->
  exists w',
    _PrepareOitBuffers s w = Some (tt, w')
    /\ forall key, key ∉ Prepare_keys -> ctx w' !! key = ctx w !! key.
Proof.
  intros Hok.
  destruct (decide (0 <= vec0 s /\ 0 <= vec1 s)) as [[H0 H1] | Hneg].
  - exists (prepared s w). split; [by apply PrepareOitBuffers_run |].
    intros key Hkey. unfold Prepare_keys in Hkey.
    rewrite !not_elem_of_cons in Hkey.
    destruct Hkey as (_ & ? & ? & ? & ? & ? & _).
    unfold prepared. rewrite resized_ctx. cbn.
    rewrite !lookup_insert_ne by done.
    unfold allocated. by destruct (is_null (_counterBar (self w))).
  - exists (add_diagnostic (invalid_size_error w) w).
    split; [apply PrepareOitBuffers_invalid_run; lia | done].
Qed.

(** X8. [Prepare] returns from every world that satisfies the invariants of
    the task, and changes the task context under no key but the cleared flag
    and the five buffer references: the request flag is left for [Execute],
    and the AOV bindings and the entries of the other tasks are
    untouched. *)
Theorem Prepare_changes_only_its_keys (w : World) :
  pass_ok w = true -> buffers_ok w = true -> aov_ok w = true ->
  exists w',
    Prepare w = Some (tt, w')
    /\ forall key, key ∉ Prepare_keys -> ctx w' !! key = ctx w !! key.
Proof.
  intros Hpass Hok Haov.
  destruct (ctx w !! HdxTokens.oitRequestFlag) as [v|] eqn:Hreq.
  2:{ exists w. split; [by apply Prepare_not_requested | done]. }
  assert (Hflag : is_Some (ctx w !! HdxTokens.oitRequestFlag)) by by rewrite Hreq.
  assert (Hcleared : forall key, key ∉ Prepare_keys ->
            delete HdxTokens.oitClearedFlag (ctx w) !! key = ctx w !! key).
  { intros key Hkey. unfold Prepare_keys in Hkey.
    rewrite !not_elem_of_cons in Hkey. destruct Hkey as (Hne & _).
    by rewrite lookup_delete_ne. }
  destruct (is_null (_renderPass (self w))) eqn:Hnull,
           (is_HdSt (renderDelegate (renderIndex w))) eqn:Hd.
  2:{ eexists. split; [by apply Prepare_unsupported | done]. }
  all: rewrite <- before_buffers_ok in Hok.
  all: destruct (PrepareOitBuffers_ctx (requested_size w) _ Hok)
         as (w' & Hrun & Hctx).
  all: exists w'; split; [rewrite Prepare_run by auto; exact Hrun |].
  all: intros key Hkey; rewrite Hctx, before_buffers_ctx by done.
  all: by apply Hcleared.
Qed.

Lemma Prepare_changes_only_its_keys_witness :
  exists w',
    Prepare (new_world "/oitResolve" (frame_with_clearing_aov 1920 1080)
               HdSt_index) = Some (tt, w')
    /\ forall key, key ∉ Prepare_keys ->
         ctx w' !! key = frame_with_clearing_aov 1920 1080 !! key.
Proof.
  apply (Prepare_changes_only_its_keys
           (new_world "/oitResolve" (frame_with_clearing_aov 1920 1080)
              HdSt_index)).
  - reflexivity.
  - reflexivity.
  - by vm_compute.
Defined.


(** ** [Prepare], then [Execute] *)

Lemma allocated_ctx w : ctx (allocated w) = ctx w.
Proof. unfold allocated. by destruct (is_null (_counterBar (self w))). Qed.

Lemma before_buffers_state w :
  pass_ok w = true ->
  exists st,
    _renderPassState (self (before_buffers w)) = Some st
    /\ GetAovBindings st = map (set_clearValue VtEmpty) (ctx_aovBindings w).
Proof.
  intros Hpass. unfold before_buffers. rewrite warned_self.
  destruct (bound_aovs_state (ready (erase_cleared w))) as (st & Hst & Haov).
  { apply ready_state. by right. }
  exists st. split; [done |].
  by rewrite Haov, ready_aovBindings, erase_cleared_aovBindings.
Qed.

Lemma before_buffers_renderPass w :
  is_null (_renderPass (self (before_buffers w))) = false.
Proof.
  unfold before_buffers. rewrite warned_self. unfold bound_aovs, ready.
  change (_renderPass (self (erase_cleared w))) with (_renderPass (self w)).
  destruct (is_null (_renderPass (self w))) eqn:Hnull; [done |].
  change (_renderPassState (self (erase_cleared w)))
    with (_renderPassState (self w)).
  by destruct (_renderPassState (self w)).
Qed.

Lemma prepared_oitBuffersPublished s w :
  buffers_ok w = true -> oitBuffersPublished (prepared s w) = true.
Proof.
  intros Hok.
  destruct (prepared_allocated s w Hok)
    as (c & i & d & z & u & Hbars & _ & _).
  destruct (prepared_published s w) as (Hc & Hi & Hd & Hz & _).
  injection Hbars as Hbc Hbi Hbd Hbz _.
  unfold oitBuffersPublished. cbn.
  by rewrite Hc, Hi, Hd, Hz, Hbc, Hbi, Hbd, Hbz.
Qed.

(** X9. In a frame that requests the resolve, on a task that is initialized
    or can be, with a non-negative screen size, [Prepare] followed by
    [Execute] submits exactly one draw and reports nothing in [Execute]: the
    draw uses the render pass state [Prepare] left, whose AOV bindings are
    those of the task context without their clear values; both flags are
    gone from the task context, and [Execute] has touched neither the
    buffers nor the tracked size. *)
Theorem Prepare_then_Execute_draws (w : World) :
  is_Some (ctx w !! HdxTokens.oitRequestFlag) ->
  is_null (_renderPass (self w)) = false
  \/ is_HdSt (renderDelegate (renderIndex w)) = true ->
  pass_ok w = true -> buffers_ok w = true -> aov_ok w = true ->
  0 <= vec0 (requested_size w) -> 0 <= vec1 (requested_size w) ->
  exists w1 w2 st sh,
    Prepare w = Some (tt, w1)
    /\ Execute w1 = Some (tt, w2)
    /\ _renderPassState (self w1) = Some st
    /\ GetAovBindings st = map (set_clearValue VtEmpty) (ctx_aovBindings w)
    /\ submitted w2 = submitted w ++ [mkDraw st sh GetRenderTags]
    /\ diagnostics w2 = diagnostics w1
    /\ ctx w2 !! HdxTokens.oitRequestFlag = None
    /\ ctx w2 !! HdxTokens.oitClearedFlag = None
    /\ heap w2 = heap w1
    /\ bars (self w2) = bars (self w1)
    /\ _screenSize (self w2) = _screenSize (self w1).
Proof.
  intros Hreq Hinit Hpass Hok Haov H0 H1.
  set (s := requested_size w). set (w0 := before_buffers w).
  set (w1 := prepared s w0).
  assert (Hok0 : buffers_ok w0 = true) by (unfold w0; by rewrite before_buffers_ok).
  destruct (prepared_frame s w0) as (Hrp & Hst & Hsh & _ & Hsub).
  fold w1 in Hrp, Hst, Hsh, Hsub.
  destruct (before_buffers_state w Hpass) as (st & Hst0 & Haovs).
  pose proof (before_buffers_pass_ok w Hpass) as Hpass0.
  destruct (pass_ok_inv _ Hpass0) as [E1 E2].
  pose proof (before_buffers_renderPass w) as Hnull. fold w0 in Hnull, E1, E2, Hst0.
  destruct (_renderPass (self w0)) as [rp|] eqn:Hrp0; [| done].
  rewrite Hst0 in E2.
  destruct (_renderPassShader (self w0)) as [sh|] eqn:Hsh0; [| done].
  assert (Hreq1 : is_Some (ctx w1 !! HdxTokens.oitRequestFlag)).
  { unfold w1, prepared. rewrite resized_ctx. cbn.
    rewrite !lookup_insert_ne by done. rewrite allocated_ctx. unfold w0.
    rewrite before_buffers_ctx, lookup_delete_ne by done. done. }
  destruct (Execute_draws w1 rp st sh Hreq1) as [sh' Hexec].
  { done. } { by rewrite Hst. } { done. }
  { by apply prepared_oitBuffersPublished. }
  eexists w1, _, st, sh'.
  split; [rewrite Prepare_run by auto; by apply PrepareOitBuffers_run |].
  split; [exact Hexec |].
  split; [by rewrite Hst |]. split; [done |].
  split.
  { cbn. rewrite Hsub. unfold w0.
    destruct (before_buffers_frame w) as (_ & _ & _ & _ & ->). done. }
  split; [done |].
  split; [apply erase_flags_request |].
  split; [apply erase_flags_cleared | done].
Qed.

Lemma Prepare_then_Execute_draws_witness :
  exists w1 w2 st sh,
    Prepare (new_world "/oitResolve" (frame_with_clearing_aov 1920 1080)
               HdSt_index) = Some (tt, w1)
    /\ Execute w1 = Some (tt, w2)
    /\ _renderPassState (self w1) = Some st
    /\ GetAovBindings st =
         [mkAovBinding "color" (Some (mkRenderBuffer 1920 1080)) VtEmpty]
    /\ submitted w2 = [mkDraw st sh GetRenderTags]
    /\ diagnostics w2 = diagnostics w1
    /\ ctx w2 !! HdxTokens.oitRequestFlag = None
    /\ ctx w2 !! HdxTokens.oitClearedFlag = None
    /\ heap w2 = heap w1
    /\ bars (self w2) = bars (self w1)
    /\ _screenSize (self w2) = _screenSize (self w1).
Proof.
  apply (Prepare_then_Execute_draws
           (new_world "/oitResolve" (frame_with_clearing_aov 1920 1080)
              HdSt_index)).
  - eexists. vm_compute. reflexivity.
  - by right.
  - reflexivity.
  - reflexivity.
  - by vm_compute.
  - by vm_compute.
  - by vm_compute.
Defined.


(** ** What [Execute] leaves alone *)

Lemma Execute_frame w :
  pass_ok w = true ->
  exists w',
    Execute w = Some (tt, w')
    /\ pass_ok w' = true
    /\ heap w' = heap w
    /\ renderIndex w' = renderIndex w
    /\ bars (self w') = bars (self w)
    /\ _screenSize (self w') = _screenSize (self w)
    /\ _renderPass (self w') = _renderPass (self w)
    /\ _renderPassState (self w') = _renderPassState (self w)
    /\ ctx w' !! HdxTokens.oitRequestFlag = None
    /\ (forall key,
          key <> HdxTokens.oitRequestFlag -> key <> HdxTokens.oitClearedFlag ->
          ctx w' !! key = ctx w !! key)
    /\ (submitted w' = submitted w
        \/ exists d, submitted w' = submitted w ++ [d])
    /\ (diagnostics w' = diagnostics w
        \/ exists d, diagnostics w' = diagnostics w ++ [d]).
Proof.
  intros Hok.
  destruct (ctx w !! HdxTokens.oitRequestFlag) as [v|] eqn:Hreq.
  2:{ exists w. split; [by apply Execute_not_requested |].
      split_and!; try done; by left. }
  assert (Hflag : is_Some (ctx w !! HdxTokens.oitRequestFlag)) by by rewrite Hreq.
  destruct (pass_ok_inv w Hok) as [H1 H2].
  destruct (_renderPassState (self w)) as [st|] eqn:Hst.
  2:{ eexists. split; [by apply Execute_no_state |].
      split_and!; try done.
      - apply erase_flags_request.
      - intros. by apply erase_flags_other.
      - by left.
      - right. by eexists. }
  destruct (_renderPassShader (self w)) as [sh|] eqn:Hsh; [| done].
  destruct (_renderPass (self w)) as [rp|] eqn:Hrp; [| done].
  destruct (oitBuffersPublished w) eqn:Hpub.
  - destruct (Execute_draws w rp st sh Hflag Hrp Hst Hsh Hpub) as [sh' Hrun].
    eexists. split; [exact Hrun |].
    split_and!; try done.
    + unfold pass_ok. cbn. by rewrite Hrp, Hst.
    + apply erase_flags_request.
    + intros. by apply erase_flags_other.
    + right. by eexists.
    + by left.
  - eexists. split; [by eapply Execute_no_buffers |].
    split_and!; try done.
    + apply erase_flags_request.
    + intros. by apply erase_flags_other.
    + by left.
    + right. by eexists.
Qed.

(** X10. [Execute] returns from every world in which the render pass, its
    state and its shader were made together, and touches neither the
    buffers (pointers, heap, resource registry) nor the tracked screen size,
    the render pass or its state; in the task context it changes the two
    flags only.  It submits at most one draw and reports at most one
    diagnostic. *)
Theorem Execute_changes_only_the_flags (w : World) :
  pass_ok w = true ->
  exists w',
    Execute w = Some (tt, w')
    /\ heap w' = heap w
    /\ renderIndex w' = renderIndex w
    /\ bars (self w') = bars (self w)
    /\ _screenSize (self w') = _screenSize (self w)
    /\ _renderPass (self w') = _renderPass (self w)
    /\ _renderPassState (self w') = _renderPassState (self w)
    /\ (forall key,
          key <> HdxTokens.oitRequestFlag -> key <> HdxTokens.oitClearedFlag ->
          ctx w' !! key = ctx w !! key)
    /\ (submitted w' = submitted w
        \/ exists d, submitted w' = submitted w ++ [d])
    /\ (diagnostics w' = diagnostics w
        \/ exists d, diagnostics w' = diagnostics w ++ [d]).
Proof.
  intros Hok.
  destruct (Execute_frame w Hok)
    as (w' & ? & _ & ? & ? & ? & ? & ? & ? & _ & ? & ? & ?).
  exists w'. by split_and!.
Qed.

Lemma Execute_changes_only_the_flags_witness :
  exists w',
    Execute unprepared_world = Some (tt, w')
    /\ heap w' = heap unprepared_world
    /\ renderIndex w' = renderIndex unprepared_world
    /\ bars (self w') = bars (self unprepared_world)
    /\ _screenSize (self w') = _screenSize (self unprepared_world)
    /\ _renderPass (self w') = _renderPass (self unprepared_world)
    /\ _renderPassState (self w') = _renderPassState (self unprepared_world)
    /\ (forall key,
          key <> HdxTokens.oitRequestFlag -> key <> HdxTokens.oitClearedFlag ->
          ctx w' !! key = ctx unprepared_world !! key)
    /\ (submitted w' = submitted unprepared_world
        \/ exists d, submitted w' = submitted unprepared_world ++ [d])
    /\ (diagnostics w' = diagnostics unprepared_world
        \/ exists d, diagnostics w' = diagnostics unprepared_world ++ [d]).
Proof.
  apply (Execute_changes_only_the_flags unprepared_world).
  reflexivity.
Defined.

(** X11. [Execute] consumes the request: a second [Execute], with nothing in
    between, returns at once and changes nothing, so that a frame is
    resolved at most once per request. *)
Theorem Execute_twice (w : World) :
  pass_ok w = true ->
  exists w',
    Execute w = Some (tt, w')
    /\ Execute w' = Some (tt, w')
    /\ Prepare w' = Some (tt, w').
Proof.
  intros Hok.
  destruct (Execute_frame w Hok)
    as (w' & Hrun & _ & _ & _ & _ & _ & _ & _ & Hgone & _).
  exists w'. split; [done |].
  split; [by apply Execute_not_requested | by apply Prepare_not_requested].
Qed.

Lemma Execute_twice_witness :
  exists w',
    Execute unprepared_world = Some (tt, w')
    /\ Execute w' = Some (tt, w')
    /\ Prepare w' = Some (tt, w').
Proof.
  apply (Execute_twice unprepared_world).
  reflexivity.
Defined.


(** ** The task over its whole life *)

Lemma oitLengths_ext w w' :
  bars (self w') = bars (self w) -> heap w' = heap w ->
  oitLengths w' = oitLengths w.
Proof.
  intros Hbars Hheap. injection Hbars as Hc Hi Hd Hz _.
  unfold oitLengths, counterLength, indexLength, dataLength, depthLength,
    length_of.
  by rewrite Hc, Hi, Hd, Hz, Hheap.
Qed.

Lemma sized_ext w w' :
  bars (self w') = bars (self w) -> heap w' = heap w ->
  _screenSize (self w') = _screenSize (self w) ->
  renderIndex w' = renderIndex w ->
  sized w -> sized w'.
Proof.
  intros Hbars Hheap Hsize Hindex. unfold sized, pending.
  rewrite Hsize, (oitLengths_ext w w' Hbars Hheap), Hindex.
  by injection Hbars as _ _ _ _ ->.
Qed.

Lemma aov_ok_ext w w' :
  ctx w' !! HdxTokens.aovBindings = ctx w !! HdxTokens.aovBindings ->
  aov_ok w' = aov_ok w.
Proof. intros H. unfold aov_ok, ctx_aovBindings. by rewrite H. Qed.

Lemma prepared_sized s w :
  buffers_ok w = true -> 0 <= vec0 s -> 0 <= vec1 s ->
  sized w ->
  0 <= vec0 (_screenSize (self w)) /\ 0 <= vec1 (_screenSize (self w)) ->
  sized (prepared s w)
  /\ 0 <= vec0 (_screenSize (self (prepared s w)))
  /\ 0 <= vec1 (_screenSize (self (prepared s w))).
Proof.
  intros Hok H0 H1 Hsized Hpos.
  destruct (grows s w) eqn:Hg.
  - destruct (prepared_grows s w Hok Hg) as (Hs & Hlen & Hpending).
    unfold sized. rewrite Hs. split; [| done].
    right. split; [done |]. by eexists.
  - rewrite prepared_screenSize, Hg. split; [| done].
    unfold sized. rewrite prepared_screenSize, Hg.
    destruct Hsized as [Hzero | [Hlen Hpending]]; [by left | right].
    destruct (is_null (_counterBar (self w))) eqn:Hnull.
    + exfalso. unfold oitLengths, oitSizes, counterLength in Hlen.
      by destruct (_counterBar (self w)).
    + destruct (prepared_keeps s w Hnull Hg) as (_ & -> & ->).
      split; [done |].
      assert (Hu : _uniformBar (self (prepared s w)) = _uniformBar (self w)).
      { unfold prepared. rewrite (allocated_id w Hnull).
        pose proof (resized_bars s (published w)) as Hbars.
        by injection Hbars as _ _ _ _ ->. }
      by rewrite Hu.
Qed.

Lemma invariant_ext w w' :
  self w' = self w -> heap w' = heap w -> renderIndex w' = renderIndex w ->
  ctx w' !! HdxTokens.aovBindings = ctx w !! HdxTokens.aovBindings ->
  invariant w -> invariant w'.
Proof.
  intros Hself Hheap Hindex Hctx (Hpass & Hok & Haov & Hsized & Hpos).
  unfold invariant, pass_ok, buffers_ok.
  rewrite Hself, Hheap, (aov_ok_ext w w' Hctx).
  split_and!; try done; [| apply Hpos | apply Hpos].
  apply (sized_ext w); by rewrite ?Hself.
Qed.

Lemma PrepareOitBuffers_invariant s w :
  invariant w ->
  exists w',
    _PrepareOitBuffers s w = Some (tt, w')
    /\ invariant w'
    /\ submitted w' = submitted w.
Proof.
  intros (Hpass & Hok & Haov & Hsized & Hpos).
  destruct (decide (0 <= vec0 s /\ 0 <= vec1 s)) as [[H0 H1] | Hneg].
  - exists (prepared s w). split; [by apply PrepareOitBuffers_run |].
    destruct (prepared_frame s w) as (Hrp & Hst & Hsh & _ & Hsub).
    destruct (prepared_sized s w Hok H0 H1 Hsized Hpos) as (? & ? & ?).
    split; [| done]. split_and!; try done.
    + unfold pass_ok in *. by rewrite Hrp, Hst, Hsh.
    + by apply buffers_allocated_ok, prepared_allocated.
    + rewrite <- Haov. apply aov_ok_ext.
      unfold prepared. rewrite resized_ctx. cbn.
      rewrite !lookup_insert_ne by done. by rewrite allocated_ctx.
  - exists (add_diagnostic (invalid_size_error w) w).
    split; [apply PrepareOitBuffers_invalid_run; lia |].
    split; [| done]. by apply (invariant_ext w).
Qed.

Lemma before_buffers_invariant w : invariant w -> invariant (before_buffers w).
Proof.
  intros (Hpass & Hok & Haov & Hsized & Hpos).
  destruct (before_buffers_frame w) as (Hbars & Hheap & Htracked & Hindex & _).
  split_and!.
  - by apply before_buffers_pass_ok.
  - by rewrite before_buffers_ok.
  - rewrite <- Haov. apply aov_ok_ext.
    by rewrite before_buffers_ctx, lookup_delete_ne.
  - by apply (sized_ext w).
  - rewrite Htracked. apply Hpos.
  - rewrite Htracked. apply Hpos.
Qed.

Lemma Prepare_step w :
  invariant w ->
  exists w',
    Prepare w = Some (tt, w') /\ invariant w' /\ submitted w' = submitted w.
Proof.
  intros Hinv. pose proof Hinv as (Hpass & Hok & Haov & Hsized & Hpos).
  destruct (ctx w !! HdxTokens.oitRequestFlag) as [v|] eqn:Hreq.
  2:{ exists w. split; [by apply Prepare_not_requested | done]. }
  assert (Hflag : is_Some (ctx w !! HdxTokens.oitRequestFlag)) by by rewrite Hreq.
  destruct (is_null (_renderPass (self w))) eqn:Hnull,
           (is_HdSt (renderDelegate (renderIndex w))) eqn:Hd.
  2:{ eexists. split; [by apply Prepare_unsupported |].
      split; [| done]. apply (invariant_ext w); try done.
      cbn. by rewrite lookup_delete_ne. }
  all: destruct (PrepareOitBuffers_invariant (requested_size w) _
                   (before_buffers_invariant w Hinv)) as (w' & Hrun & Hinv' & Hsub);
    exists w'; (split; [rewrite Prepare_run by auto; exact Hrun |]);
    (split; [done |]);
    destruct (before_buffers_frame w) as (_ & _ & _ & _ & Hsub0);
    by rewrite Hsub, Hsub0.
Qed.

Lemma Execute_step w :
  invariant w ->
  exists w',
    Execute w = Some (tt, w') /\ invariant w'
    /\ (length (submitted w') <= S (length (submitted w)))%nat.
Proof.
  intros (Hpass & Hok & Haov & Hsized & Hpos).
  destruct (Execute_frame w Hpass)
    as (w' & Hrun & Hpass' & Hheap & Hindex & Hbars & Htracked & _ & _ & _
        & Hctx & Hsub & _).
  exists w'. split; [done |]. split.
  - split_and!; try done.
    + unfold buffers_ok in *. by rewrite Hbars, Hheap.
    + rewrite <- Haov. apply aov_ok_ext. by apply Hctx.
    + by apply (sized_ext w).
    + rewrite Htracked. apply Hpos.
    + rewrite Htracked. apply Hpos.
  - destruct Hsub as [-> | [d ->]]; [lia |].
    rewrite length_app. cbn. lia.
Qed.

Lemma set_ctx_aov_ok c w : aov_ok (set_ctx c w) = ctx_ok c.
Proof.
  unfold aov_ok, ctx_aovBindings, ctx_ok. cbn.
  by destruct (c !! HdxTokens.aovBindings) as [[| | | | [| front rest] |]|].
Qed.

Lemma OtherTasks_step c w :
  ctx_ok c = true -> invariant w -> invariant (set_ctx c w).
Proof.
  intros Hc (Hpass & Hok & Haov & Hsized & Hpos).
  unfold invariant. rewrite set_ctx_aov_ok.
  split_and!; [done | done | done | | apply Hpos | apply Hpos].
  by apply (sized_ext w).
Qed.

Lemma run_steps_invariant steps w :
  forallb step_ok steps = true ->
  invariant w ->
  exists w',
    run_steps steps w = Some (tt, w')
    /\ invariant w'
    /\ (length (submitted w') <= length (submitted w) + count_Execute steps)%nat.
Proof.
  revert w. induction steps as [| s steps IH]; intros w Hsteps Hinv.
  - exists w. split; [done |]. split; [done |]. cbn. lia.
  - cbn in Hsteps. apply andb_true_iff in Hsteps as [Hs Hsteps].
    destruct s as [c | bits | |]; cbn [run_steps run_step count_Execute].
    + destruct (IH (set_ctx c w) Hsteps (OtherTasks_step c w Hs Hinv))
        as (w' & Hrun & Hinv' & Hlen).
      exists w'. split; [| done].
      by rewrite (bind_run _ _ w tt (set_ctx c w)).
    + destruct (IH w Hsteps Hinv) as (w' & Hrun & Hinv' & Hlen).
      exists w'. split; [| done].
      by rewrite (bind_run _ _ w tt w).
    + destruct (Prepare_step w Hinv) as (w1 & Hrun1 & Hinv1 & Hsub1).
      destruct (IH w1 Hsteps Hinv1) as (w' & Hrun & Hinv' & Hlen).
      exists w'. split; [by rewrite (bind_run _ _ w tt w1) |].
      split; [done |]. by rewrite <- Hsub1.
    + destruct (Execute_step w Hinv) as (w1 & Hrun1 & Hinv1 & Hsub1).
      destruct (IH w1 Hsteps Hinv1) as (w' & Hrun & Hinv' & Hlen).
      exists w'. split; [by rewrite (bind_run _ _ w tt w1) |].
      split; [done |]. lia.
Qed.

Lemma new_world_invariant_holds id c r :
  ctx_ok c = true -> invariant (new_world id c r).
Proof.
  intros Hc. unfold invariant.
  rewrite <- (set_ctx_aov_ok c (new_world id c r)) in Hc.
  split_and!; [done | done | exact Hc | by left | done | done].
Qed.

Lemma buffers_together_ext w w' :
  bars (self w') = bars (self w) -> heap w' = heap w ->
  buffers_together w -> buffers_together w'.
Proof.
  intros Hbars Hheap [Hnone | Halloc]; [left; by rewrite Hbars | right].
  destruct Halloc as (c & i & d & z & u & Hb & Hnd & Hlt).
  exists c, i, d, z, u. by rewrite Hbars, Hheap.
Qed.

Lemma PrepareOitBuffers_together s w :
  buffers_ok w = true -> buffers_together w ->
  exists w',
    _PrepareOitBuffers s w = Some (tt, w') /\ buffers_together w'.
Proof.
  intros Hok Htogether.
  destruct (decide (0 <= vec0 s /\ 0 <= vec1 s)) as [[H0 H1] | Hneg].
  - exists (prepared s w). split; [by apply PrepareOitBuffers_run |].
    right. by apply prepared_allocated.
  - exists (add_diagnostic (invalid_size_error w) w).
    split; [apply PrepareOitBuffers_invalid_run; lia |].
    by apply (buffers_together_ext w).
Qed.

Lemma Prepare_together w :
  invariant w -> buffers_together w ->
  exists w', Prepare w = Some (tt, w') /\ buffers_together w'.
Proof.
  intros (Hpass & Hok & Haov & _) Htogether.
  destruct (ctx w !! HdxTokens.oitRequestFlag) as [v|] eqn:Hreq.
  2:{ exists w. split; [by apply Prepare_not_requested | done]. }
  assert (Hflag : is_Some (ctx w !! HdxTokens.oitRequestFlag)) by by rewrite Hreq.
  destruct (before_buffers_frame w) as (Hbars & Hheap & _).
  assert (Htogether0 : buffers_together (before_buffers w))
    by by apply (buffers_together_ext w).
  assert (Hok0 : buffers_ok (before_buffers w) = true)
    by by rewrite before_buffers_ok.
  destruct (PrepareOitBuffers_together (requested_size w) _ Hok0 Htogether0)
    as (w' & Hrun & Htogether').
  destruct (is_null (_renderPass (self w))) eqn:Hnull,
           (is_HdSt (renderDelegate (renderIndex w))) eqn:Hd.
  2:{ eexists. split; [by apply Prepare_unsupported |].
      by apply (buffers_together_ext w). }
  all: exists w'; split; [rewrite Prepare_run by auto; exact Hrun | done].
Qed.

Lemma Execute_together w :
  pass_ok w = true -> buffers_together w ->
  exists w', Execute w = Some (tt, w') /\ buffers_together w'.
Proof.
  intros Hpass Htogether.
  destruct (Execute_frame w Hpass)
    as (w' & Hrun & _ & Hheap & _ & Hbars & _).
  exists w'. split; [done |]. by apply (buffers_together_ext w).
Qed.

Lemma run_steps_together steps w :
  forallb step_ok steps = true ->
  invariant w -> buffers_together w ->
  exists w',
    run_steps steps w = Some (tt, w')
    /\ invariant w' /\ buffers_together w'.
Proof.
  revert w. induction steps as [| s steps IH]; intros w Hsteps Hinv Htogether.
  - by exists w.
  - cbn in Hsteps. apply andb_true_iff in Hsteps as [Hs Hsteps].
    destruct s as [c | bits | |]; cbn [run_steps run_step].
    + destruct (IH (set_ctx c w) Hsteps (OtherTasks_step c w Hs Hinv))
        as (w' & Hrun & ?); [by apply (buffers_together_ext w) |].
      exists w'. split; [| done].
      by rewrite (bind_run _ _ w tt (set_ctx c w)).
    + destruct (IH w Hsteps Hinv Htogether) as (w' & Hrun & ?).
      exists w'. split; [| done]. by rewrite (bind_run _ _ w tt w).
    + destruct (Prepare_step w Hinv) as (w1 & Hrun1 & Hinv1 & _).
      destruct (Prepare_together w Hinv Htogether) as (w1' & Hrun1' & Htogether1).
      assert (w1' = w1) as -> by congruence.
      destruct (IH w1 Hsteps Hinv1 Htogether1) as (w' & Hrun & ?).
      exists w'. split; [| done]. by rewrite (bind_run _ _ w tt w1).
    + destruct (Execute_step w Hinv) as (w1 & Hrun1 & Hinv1 & _).
      destruct (Execute_together w (proj1 Hinv) Htogether)
        as (w1' & Hrun1' & Htogether1).
      assert (w1' = w1) as -> by congruence.
      destruct (IH w1 Hsteps Hinv1 Htogether1) as (w' & Hrun & ?).
      exists w'. split; [| done]. by rewrite (bind_run _ _ w tt w1).
Qed.

(** X12. From its construction on, whatever the other tasks put in the task
    context (as long as a first AOV binding has a render buffer) and in
    whatever order [Sync], [Prepare] and [Execute] are called, every call
    returns: the task never follows a null pointer.  At every point the
    render pass, its state and its shader are all there or all missing, and
    the five buffers are all missing or all allocated, as five different
    ranges of the heap. *)
Theorem task_never_dereferences_null
    (id : string) (c : gmap string VtValue) (r : HdRenderIndex)
    (steps : list Step) :
  ctx_ok c = true ->
  forallb step_ok steps = true ->
  exists w',
    run_steps steps (new_world id c r) = Some (tt, w')
    /\ is_null (_renderPass (self w')) = is_null (_renderPassState (self w'))
    /\ is_null (_renderPassState (self w')) = is_null (_renderPassShader (self w'))
    /\ (bars (self w') = [None; None; None; None; None]
        \/ buffers_allocated w').
Proof.
  intros Hc Hsteps.
  destruct (run_steps_together steps (new_world id c r) Hsteps
              (new_world_invariant_holds id c r Hc))
    as (w' & Hrun & (Hpass & _) & Htogether); [by left |].
  destruct (pass_ok_inv w' Hpass) as [E1 E2].
  by exists w'.
Qed.

Lemma task_never_dereferences_null_witness :
  exists w',
    run_steps (two_frames frame_without_aovs)
      (new_world "/oitResolve" (frame_with_clearing_aov 1920 1080) HdSt_index)
      = Some (tt, w')
    /\ is_null (_renderPass (self w')) = is_null (_renderPassState (self w'))
    /\ is_null (_renderPassState (self w')) = is_null (_renderPassShader (self w'))
    /\ (bars (self w') = [None; None; None; None; None]
        \/ buffers_allocated w').
Proof.
  apply (task_never_dereferences_null "/oitResolve"
           (frame_with_clearing_aov 1920 1080) HdSt_index
           (two_frames frame_without_aovs)).
  - by vm_compute.
  - by vm_compute.
Defined.

(** X13. At every point of the life of the task the tracked screen size has
    no negative component and, unless it still is the (0, 0) of the
    constructor, the counter, index, data and depth buffers have the lengths
    [_PrepareOitBuffers] computes from it and the last source added to the
    resource registry gives the uniform range that same screen size: the
    screen size the shaders are given and the lengths of the buffers never
    disagree. *)
Theorem buffers_match_tracked_size
    (id : string) (c : gmap string VtValue) (r : HdRenderIndex)
    (steps : list Step) :
  ctx_ok c = true ->
  forallb step_ok steps = true ->
  exists w',
    run_steps steps (new_world id c r) = Some (tt, w')
    /\ 0 <= vec0 (_screenSize (self w'))
    /\ 0 <= vec1 (_screenSize (self w'))
    /\ (_screenSize (self w') = mkVec2i 0 0
        \/ (oitLengths w' = oitSizes (_screenSize (self w'))
            /\ exists rest,
                 pending w' =
                   (_uniformBar (self w'),
                    screenSize_source (_screenSize (self w'))) :: rest)).
Proof.
  intros Hc Hsteps.
  destruct (run_steps_invariant steps _ Hsteps (new_world_invariant_holds id c r Hc))
    as (w' & Hrun & (_ & _ & _ & Hsized & H0 & H1) & _).
  by exists w'.
Qed.

Lemma buffers_match_tracked_size_witness :
  exists w',
    run_steps (two_frames frame_without_aovs)
      (new_world "/oitResolve" (frame_with_clearing_aov 1920 1080) HdSt_index)
      = Some (tt, w')
    /\ 0 <= vec0 (_screenSize (self w'))
    /\ 0 <= vec1 (_screenSize (self w'))
    /\ (_screenSize (self w') = mkVec2i 0 0
        \/ (oitLengths w' = oitSizes (_screenSize (self w'))
            /\ exists rest,
                 pending w' =
                   (_uniformBar (self w'),
                    screenSize_source (_screenSize (self w'))) :: rest)).
Proof.
  apply (buffers_match_tracked_size "/oitResolve"
           (frame_with_clearing_aov 1920 1080) HdSt_index
           (two_frames frame_without_aovs)).
  - by vm_compute.
  - by vm_compute.
Defined.

(** X14. Over any sequence of calls the task submits at most one draw for
    each call of [Execute]; [Prepare] never draws. *)
Theorem at_most_one_draw_per_Execute
    (id : string) (c : gmap string VtValue) (r : HdRenderIndex)
    (steps : list Step) :
  ctx_ok c = true ->
  forallb step_ok steps = true ->
  exists w',
    run_steps steps (new_world id c r) = Some (tt, w')
    /\ (length (submitted w') <= count_Execute steps)%nat.
Proof.
  intros Hc Hsteps.
  destruct (run_steps_invariant steps _ Hsteps (new_world_invariant_holds id c r Hc))
    as (w' & Hrun & _ & Hlen).
  by exists w'.
Qed.

Lemma at_most_one_draw_per_Execute_witness :
  exists w',
    run_steps (two_frames frame_without_aovs)
      (new_world "/oitResolve" (frame_with_clearing_aov 1920 1080) HdSt_index)
      = Some (tt, w')
    /\ (length (submitted w') <= 2)%nat.
Proof.
  apply (at_most_one_draw_per_Execute "/oitResolve"
           (frame_with_clearing_aov 1920 1080) HdSt_index
           (two_frames frame_without_aovs)).
  - by vm_compute.
  - by vm_compute.
Defined.

(** The two frames of the examples are both resolved: the second, without
    AOV bindings, at the fallback size with a warning. *)
Example two_frames_draw_twice :
  exists w',
    run_steps (two_frames frame_without_aovs)
      (new_world "/oitResolve" (frame_with_clearing_aov 1920 1080) HdSt_index)
      = Some (tt, w')
    /\ length (submitted w') = 2%nat
    /\ diagnostics w' = [invalid_aovs]
    /\ _screenSize (self w') = mkVec2i 2048 2048.
Proof. eexists. split; [vm_compute; reflexivity | done]. Qed.


(** ** A backend that is not supported, over the whole life of the task *)

Lemma unsupported_steps steps w :
  _renderPass (self w) = None ->
  _renderPassState (self w) = None ->
  is_HdSt (renderDelegate (renderIndex w)) = false ->
  exists w',
    run_steps steps w = Some (tt, w')
    /\ self w' = self w
    /\ heap w' = heap w
    /\ renderIndex w' = renderIndex w
    /\ submitted w' = submitted w.
Proof.
  revert w. induction steps as [| s steps IH]; intros w Hrp Hst Hd.
  - by exists w.
  - assert (Hnull : is_null (_renderPass (self w)) = true) by by rewrite Hrp.
    destruct s as [c | bits | |]; cbn [run_steps run_step].
    + destruct (IH (set_ctx c w) Hrp Hst Hd) as (w' & Hrun & ?).
      exists w'. split; [| done]. by rewrite (bind_run _ _ w tt (set_ctx c w)).
    + destruct (IH w Hrp Hst Hd) as (w' & Hrun & ?).
      exists w'. split; [| done]. by rewrite (bind_run _ _ w tt w).
    + destruct (ctx w !! HdxTokens.oitRequestFlag) as [v|] eqn:Hreq.
      * destruct (IH (add_diagnostic unsupported_backend (erase_cleared w))
                    Hrp Hst Hd) as (w' & Hrun & ?).
        exists w'. split; [| done].
        rewrite (bind_run _ _ w tt _ (Prepare_unsupported w
                   ltac:(by rewrite Hreq) Hnull Hd)). done.
      * destruct (IH w Hrp Hst Hd) as (w' & Hrun & ?).
        exists w'. split; [| done].
        by rewrite (bind_run _ _ w tt _ (Prepare_not_requested w Hreq)).
    + destruct (ctx w !! HdxTokens.oitRequestFlag) as [v|] eqn:Hreq.
      * destruct (IH (add_diagnostic (VerifyFailed "_renderPassState")
                        (erase_flags w)) Hrp Hst Hd) as (w' & Hrun & ?).
        exists w'. split; [| done].
        rewrite (bind_run _ _ w tt _ (Execute_no_state w
                   ltac:(by rewrite Hreq) Hst)). done.
      * destruct (IH w Hrp Hst Hd) as (w' & Hrun & ?).
        exists w'. split; [| done].
        by rewrite (bind_run _ _ w tt _ (Execute_not_requested w Hreq)).
Qed.

(** X15. On a render index whose delegate is not Storm's, whatever the other
    tasks put in the task context and however often [Prepare] and [Execute]
    are called, the task stays as its constructor left it: it is never
    initialized, allocates no buffer and submits no draw. *)
Theorem unsupported_backend_never_draws
    (id : string) (c : gmap string VtValue) (r : HdRenderIndex)
    (steps : list Step) :
  is_HdSt (renderDelegate r) = false ->
  exists w',
    run_steps steps (new_world id c r) = Some (tt, w')
    /\ self w' = HdxOitResolveTask_new id
    /\ heap w' = []
    /\ renderIndex w' = r
    /\ submitted w' = [].
Proof.
  intros Hd. by apply (unsupported_steps steps (new_world id c r)).
Qed.

Lemma unsupported_backend_never_draws_witness :
  exists w',
    run_steps (two_frames frame_with_flags)
      (new_world "/oitResolve" frame_with_flags other_index) = Some (tt, w')
    /\ self w' = HdxOitResolveTask_new "/oitResolve"
    /\ heap w' = []
    /\ renderIndex w' = other_index
    /\ submitted w' = [].
Proof.
  apply (unsupported_backend_never_draws "/oitResolve" frame_with_flags
           other_index (two_frames frame_with_flags)).
  reflexivity.
Defined.

(** ** How the lengths follow the screen size *)

(** As long as [w*h*numSamples] fits in an [int], the lengths
    [_PrepareOitBuffers] computes grow with the screen size. *)
Lemma lengths_grow_with_the_screen (s1 s2 : GfVec2i) :
  0 <= vec0 s1 <= vec0 s2 ->
  0 <= vec1 s1 <= vec1 s2 ->
  vec0 s2 * vec1 s2 * numSamples <= Int.max_signed ->
  counterSize s1 <= counterSize s2
  /\ sampleSize s1 <= sampleSize s2
  /\ vec0 s1 * vec1 s1 + 1 <= counterSize s2
  /\ vec0 s1 * vec1 s1 * numSamples <= sampleSize s2.
Proof.
  intros H0 H1 Hmax.
  destruct (oitSizes_monotone s1 s2 H0 H1 Hmax) as [Hc Hs].
  assert (Hle : vec0 s1 * vec1 s1 <= vec0 s2 * vec1 s2) by nia.
  assert (Hmax1 : vec0 s1 * vec1 s1 * numSamples <= Int.max_signed)
    by (unfold numSamples in *; lia).
  destruct (oitSizes_exact s1) as [Hc1 Hs1]; [lia | lia | done |].
  rewrite <- Hc1, <- Hs1. done.
Qed.

Lemma lengths_grow_with_the_screen_witness :
  counterSize (mkVec2i 640 480) <= counterSize (mkVec2i 1920 1080)
  /\ sampleSize (mkVec2i 640 480) <= sampleSize (mkVec2i 1920 1080)
  /\ 640 * 480 + 1 <= counterSize (mkVec2i 1920 1080)
  /\ 640 * 480 * numSamples <= sampleSize (mkVec2i 1920 1080).
Proof.
  apply (lengths_grow_with_the_screen (mkVec2i 640 480) (mkVec2i 1920 1080)).
  - cbn. lia.
  - cbn. lia.
  - by vm_compute.
Defined.

(** X16. As long as [w*h*numSamples] fits in an [int], the buffers
    [_PrepareOitBuffers] has resized for a screen are long enough for every
    screen that is no wider and no higher: after a call that resizes for
    [s2] the buffers have exactly [w2*h2 + 1] and [w2*h2*8] elements, a
    following call with [s1 <= s2] leaves these lengths as they are, and
    they are at least [w1*h1 + 1] and [w1*h1*8]. *)
Theorem resized_buffers_fit_smaller_screens (s1 s2 : GfVec2i) (w : World) :
  buffers_ok w = true ->
  0 <= vec0 s1 <= vec0 s2 ->
  0 <= vec1 s1 <= vec1 s2 ->
  vec0 (_screenSize (self w)) < vec0 s2 \/ vec1 (_screenSize (self w)) < vec1 s2 ->
  vec0 s2 * vec1 s2 * numSamples <= Int.max_signed ->
  exists w2 w1,
    _PrepareOitBuffers s2 w = Some (tt, w2)
    /\ _PrepareOitBuffers s1 w2 = Some (tt, w1)
    /\ oitLengths w2 = exactSizes s2
    /\ oitLengths w1 = oitLengths w2
    /\ Forall2 holds (oitLengths w1)
         [vec0 s1 * vec1 s1 + 1; vec0 s1 * vec1 s1 * 8;
          vec0 s1 * vec1 s1 * 8; vec0 s1 * vec1 s1 * 8].
Proof.
  intros Hok H0 H1 Hgrows Hmax. apply grows_iff in Hgrows.
  destruct (prepared_grows s2 w Hok Hgrows) as (Htracked & Hlen & _).
  pose proof (prepared_allocated s2 w Hok) as Halloc.
  assert (Hkeep : grows s1 (prepared s2 w) = false).
  { apply grows_false_iff. rewrite Htracked. lia. }
  destruct (prepared_keeps s1 (prepared s2 w)
              (buffers_allocated_counter _ Halloc) Hkeep) as (_ & Hsame & _).
  exists (prepared s2 w), (prepared s1 (prepared s2 w)).
  split; [apply PrepareOitBuffers_run; [lia | lia | done] |].
  split; [apply PrepareOitBuffers_run;
            [lia | lia | by apply buffers_allocated_ok] |].
  rewrite Hsame, Hlen, exactSizes_oitSizes by (done || lia).
  split; [done |]. split; [done |].
  assert (vec0 s1 * vec1 s1 <= vec0 s2 * vec1 s2) by nia.
  unfold exactSizes, holds.
  repeat (constructor; [eexists; split; [done | lia] |]).
  constructor.
Qed.

Lemma resized_buffers_fit_smaller_screens_witness :
  exists w2 w1,
    _PrepareOitBuffers (mkVec2i 1920 1080)
      (new_world "/oitResolve" frame_without_aovs HdSt_index) = Some (tt, w2)
    /\ _PrepareOitBuffers (mkVec2i 640 480) w2 = Some (tt, w1)
    /\ oitLengths w2 = exactSizes (mkVec2i 1920 1080)
    /\ oitLengths w1 = oitLengths w2
    /\ Forall2 holds (oitLengths w1)
         [640 * 480 + 1; 640 * 480 * 8; 640 * 480 * 8; 640 * 480 * 8].
Proof.
  apply (resized_buffers_fit_smaller_screens (mkVec2i 640 480)
           (mkVec2i 1920 1080)
           (new_world "/oitResolve" frame_without_aovs HdSt_index)).
  - reflexivity.
  - cbn. lia.
  - cbn. lia.
  - left. cbn. lia.
  - by vm_compute.
Defined.

(** X17. A resize follows the requested size, not the larger of the two
    areas: when the request exceeds the tracked size in one component but
    covers fewer pixels, the call makes the four buffers shorter than they
    were. *)
Theorem PrepareOitBuffers_can_shrink (s : GfVec2i) (w : World) :
  buffers_ok w = true ->
  oitLengths w = oitSizes (_screenSize (self w)) ->
  0 <= vec0 (_screenSize (self w)) -> 0 <= vec1 (_screenSize (self w)) ->
  0 <= vec0 s -> 0 <= vec1 s ->
  vec0 (_screenSize (self w)) < vec0 s \/ vec1 (_screenSize (self w)) < vec1 s ->
  vec0 s * vec1 s < vec0 (_screenSize (self w)) * vec1 (_screenSize (self w)) ->
  vec0 (_screenSize (self w)) * vec1 (_screenSize (self w)) * numSamples
    <= Int.max_signed ->
  exists w',
    _PrepareOitBuffers s w = Some (tt, w')
    /\ Forall2 (fun after before =>
                  exists n n', before = Some n /\ after = Some n' /\ n' < n)
         (oitLengths w') (oitLengths w).
Proof.
  intros Hok Hlen Ht0 Ht1 H0 H1 Hgrows Harea Hmax.
  apply grows_iff in Hgrows.
  destruct (prepared_grows s w Hok Hgrows) as (_ & Hlen' & _).
  exists (prepared s w). split; [by apply PrepareOitBuffers_run |].
  rewrite Hlen, Hlen'. unfold oitSizes.
  assert (Hmax' : vec0 s * vec1 s * numSamples <= Int.max_signed)
    by (unfold numSamples in *; lia).
  destruct (oitSizes_exact s H0 H1 Hmax') as [-> ->].
  destruct (oitSizes_exact _ Ht0 Ht1 Hmax) as [-> ->].
  unfold numSamples.
  repeat (constructor; [eexists _, _; split_and!; [done | done | lia] |]).
  constructor.
Qed.

Lemma PrepareOitBuffers_can_shrink_witness :
  exists w',
    _PrepareOitBuffers (mkVec2i 1 51)
      (prepared (mkVec2i 100 50)
         (new_world "/oitResolve" frame_without_aovs HdSt_index))
      = Some (tt, w')
    /\ Forall2 (fun after before =>
                  exists n n', before = Some n /\ after = Some n' /\ n' < n)
         (oitLengths w')
         [Some 5001; Some 40000; Some 40000; Some 40000].
Proof.
  apply (PrepareOitBuffers_can_shrink (mkVec2i 1 51)
           (prepared (mkVec2i 100 50)
              (new_world "/oitResolve" frame_without_aovs HdSt_index))).
  - reflexivity.
  - reflexivity.
  - by vm_compute.
  - by vm_compute.
  - cbn. lia.
  - cbn. lia.
  - right. by vm_compute.
  - by vm_compute.
  - by vm_compute.
Defined.
